(** * NOAA 2024 storm-events pipeline: cleaning, merge and validation

    A shallow embedding of the four scripts under [codigo/]:

    - [preprocesamiento de datos NOAA.py]  (module [Preprocesamiento])
    - [limpieza de datos NOAA 2024.py]     (module [Limpieza])
    - [Limpieza final.py]                  (module [LimpiezaFinal])
    - [Chequeo Archivo final.py]           (module [Chequeo])

    Python strings are sequences of Unicode code points; pandas data frames are
    ordered lists of named, typed columns.  The parts of the Python run time
    that are tables and not code of the repository (Unicode case mappings,
    decompositions, decimal digits) are the fields of the class
    [UnicodeData]; every one of them is consulted outside ASCII only, the
    ASCII behaviour is written out.  What pandas decides about join keys of
    two dtypes is the field of the class [MergeKeys]. *)

From Stdlib Require Import ZArith NArith QArith List Bool Lia String Ascii.
From Stdlib Require Import DecimalString DecimalPos.
Import ListNotations.

Set Implicit Arguments.

(* ------------------------------------------------------------------ *)
(** ** Python strings *)

(** A [str] is a list of code points. *)
Abbreviation str := (list N).

(** An ASCII literal as a [str]. *)
Definition lit (s : string) : str :=
  map N_of_ascii (list_ascii_of_string s).

Definition str_eqb (a b : str) : bool :=
  if list_eq_dec N.eq_dec a b then true else false.

Definition is_ascii (c : N) : bool := (c <? 128)%N.

Definition in_range (lo hi c : N) : bool := ((lo <=? c) && (c <=? hi))%N.

Definition is_ascii_upper (c : N) : bool := in_range 65 90 c.
Definition is_ascii_lower (c : N) : bool := in_range 97 122 c.
Definition is_ascii_digit (c : N) : bool := in_range 48 57 c.

(** [Py_UNICODE_ISSPACE]: the code points [str.strip] removes. *)
Definition is_space (c : N) : bool :=
  in_range 9 13 c || in_range 28 32 c || (c =? 133)%N || (c =? 160)%N
  || (c =? 5760)%N || in_range 8192 8202 c || (c =? 8232)%N || (c =? 8233)%N
  || (c =? 8239)%N || (c =? 8287)%N || (c =? 12288)%N.

(** The run-time tables Python consults and the repository does not define,
    with two facts of the Unicode database: a decimal digit has a value
    below ten, and no space is a decimal digit. *)
Class UnicodeData := {
  (** [str.lower] of a non-ASCII code point; the code points before it
      (nearest first) and after it are given because the mapping of the
      capital sigma depends on them. *)
  unicode_lower : str -> N -> str -> str;
  (** [str.upper] of a non-ASCII code point. *)
  unicode_upper : N -> str;
  (** The decimal digit value of a non-ASCII code point ([\d], [float]). *)
  unicode_decimal : N -> option N;
  (** The full compatibility decomposition of a non-ASCII code point. *)
  unicode_decomp : N -> str;
  (** The canonical combining class of a non-ASCII code point. *)
  unicode_ccc : N -> N;
  unicode_decimal_digit :
    forall c d, unicode_decimal c = Some d -> (d < 10)%N;
  unicode_decimal_not_space :
    forall c, is_space c = true -> unicode_decimal c = None
}.

Fixpoint lstrip (s : str) : str :=
  match s with
  | [] => []
  | c :: r => if is_space c then lstrip r else s
  end.

Definition rstrip (s : str) : str := rev (lstrip (rev s)).

(** [s.strip()] *)
Definition py_strip (s : str) : str := rstrip (lstrip s).

Section Strings.
Context {U : UnicodeData}.

Definition lower_char (before : str) (c : N) (after : str) : str :=
  if is_ascii c then [if is_ascii_upper c then (c + 32)%N else c]
  else unicode_lower before c after.

Fixpoint lower_from (before s : str) : str :=
  match s with
  | [] => []
  | c :: r => lower_char before c r ++ lower_from (c :: before) r
  end.

(** [s.lower()] *)
Definition py_lower (s : str) : str := lower_from [] s.

Definition upper_char (c : N) : str :=
  if is_ascii c then [if is_ascii_lower c then (c - 32)%N else c]
  else unicode_upper c.

(** [s.upper()] *)
Definition py_upper (s : str) : str := flat_map upper_char s.

(** The value of a decimal digit, [None] for any other code point. *)
Definition decimal (c : N) : option N :=
  if is_ascii c then (if is_ascii_digit c then Some (c - 48)%N else None)
  else unicode_decimal c.

Definition is_decimal (c : N) : bool :=
  match decimal c with Some _ => true | None => false end.

Definition decomp (c : N) : str :=
  if is_ascii c then [c] else unicode_decomp c.

Definition ccc (c : N) : N :=
  if is_ascii c then 0%N else unicode_ccc c.

(** Canonical ordering: a combining mark moves right past the marks of a
    lower, non-zero class; starters never move. *)
Fixpoint reorder_insert (c : N) (l : str) : str :=
  match l with
  | [] => [c]
  | d :: l' =>
      if ((0 <? ccc d) && (ccc d <? ccc c))%N
      then d :: reorder_insert c l'
      else c :: l
  end.

Definition canonical_order (l : str) : str := fold_right reorder_insert [] l.

(** [unicodedata.normalize("NFKD", s)] *)
Definition nfkd (s : str) : str := canonical_order (flat_map decomp s).
End Strings.

(** [s.replace(" ", "_")] *)
Definition replace_space (s : str) : str :=
  map (fun c => if (c =? 32)%N then 95%N else c) s.

(** [s.encode("ascii", "ignore").decode("utf-8")]: the code points below 128
    survive, as themselves. *)
Definition encode_ascii_ignore (s : str) : str := filter is_ascii s.

(** The class [[a-z0-9_]]. *)
Definition is_token_char (c : N) : bool :=
  is_ascii_lower c || is_ascii_digit c || (c =? 95)%N.

(** [re.sub(r"[^a-z0-9_]", "", s)] *)
Definition re_sub_non_token (s : str) : str := filter is_token_char s.


(* ------------------------------------------------------------------ *)
(** ** Python values, exceptions *)

(** A Python float: the rational a finite binary64 number denotes, or one
    of the IEEE specials.  What the code computes is rounded to binary64 by
    [round64] below. *)
Inductive pyfloat := Fin (q : Q) | PInf | NInf | NaN.

(** The objects a cell of a data frame, or an argument, can hold. *)
Inductive value :=
| VNone
| VNaT
| VFloat (x : pyfloat)
| VInt (z : Z)
| VBool (b : bool)
| VStr (s : str)
| VDate (year month day hour minute : Z)   (* a [Timestamp] *)
| VTime (hour minute : Z).                  (* a [datetime.time] *)

(** The exceptions the code can meet: [MergeError] is pandas' error for a
    join it refuses, a subclass of [ValueError]; [ReError] is [re.error],
    raised when a regular expression does not compile. *)
Inductive exc :=
  TypeError | ValueError | KeyError | SystemExit | MergeError | ReError.

(** [isinstance(e, ValueError)] *)
Definition is_ValueError (e : exc) : bool :=
  match e with
  | ValueError | MergeError => true
  | _ => false
  end.

Inductive result (A : Type) := Ok (a : A) | Raise (e : exc).
Arguments Ok {A} a.
Arguments Raise {A} e.

Definition bind {A B} (m : result A) (k : A -> result B) : result B :=
  match m with Ok a => k a | Raise e => Raise e end.

Notation "x <- m ;; k" := (bind m (fun x => k))
  (at level 61, m at next level, right associativity).

Fixpoint mapM {A B} (f : A -> result B) (l : list A) : result (list B) :=
  match l with
  | [] => Ok []
  | a :: r => b <- f a ;; bs <- mapM f r ;; Ok (b :: bs)
  end.

(** [pd.isnull] on a scalar. *)
Definition isnull (v : value) : bool :=
  match v with
  | VNone | VNaT | VFloat NaN => true
  | _ => false
  end.

Definition notnull (v : value) : bool := negb (isnull v).

Definition isinstance_str (v : value) : bool :=
  match v with VStr _ => true | _ => false end.

(** The float a number denotes; [None] for what is not a number. *)
Definition as_float (v : value) : option pyfloat :=
  match v with
  | VFloat x => Some x
  | VInt z => Some (Fin (inject_Z z))
  | VBool b => Some (Fin (if b then 1 else 0))
  | _ => None
  end.

(** [x >= 0] on floats. *)
Definition float_ge0 (x : pyfloat) : bool :=
  match x with
  | Fin q => Qle_bool 0 q
  | PInf => true
  | NInf | NaN => false
  end.

Definition float_neg (x : pyfloat) : pyfloat :=
  match x with
  | Fin q => Fin (- q)
  | PInf => NInf
  | NInf => PInf
  | NaN => NaN
  end.

(** [num / den] rounded to the nearest integer, a tie to the even one, for
    [num >= 0] and [den > 0]. *)
Definition round_half_even (num den : Z) : Z :=
  let qt := (num / den)%Z in
  let r := (num mod den)%Z in
  if (2 * r <? den)%Z then qt
  else if (den <? 2 * r)%Z then (qt + 1)%Z
  else if Z.even qt then qt else (qt + 1)%Z.

(** The binary64 number nearest to [a / b], for positive [a] and [b]: with
    [e] the exponent of [a / b], not below that of the subnormals, the
    spacing of the floats there is [2 ^ s] for [s = e - 52], and [a / b] is
    rounded to a multiple [m * 2 ^ s], ties to even, written in lowest
    terms; from [2 ^ 1024] on the result is the infinity. *)
Definition round64_pos (a b : Z) : pyfloat :=
  let e0 := (Z.log2 a - Z.log2 b)%Z in
  let e :=
    if (b * 2 ^ Z.max 0 e0 <=? a * 2 ^ Z.max 0 (- e0))%Z
    then e0 else (e0 - 1)%Z in
  let s := (Z.max e (-1022) - 52)%Z in
  let m := round_half_even (a * 2 ^ Z.max 0 (- s)) (b * 2 ^ Z.max 0 s) in
  if (2 ^ 1024 <=? m * 2 ^ Z.max 0 s)%Z then PInf
  else Fin (Qred (Qmake (m * 2 ^ Z.max 0 s) (Z.to_pos (2 ^ Z.max 0 (- s))))).

(** A real number as a float: round to nearest, ties to even, overflow to
    an infinity. *)
Definition round64 (q : Q) : pyfloat :=
  let r := Qred q in
  match Qnum r with
  | Z0 => Fin 0
  | Zpos a => round64_pos (Zpos a) (Zpos (Qden r))
  | Zneg a => float_neg (round64_pos (Zpos a) (Zpos (Qden r)))
  end.

Definition float_round (x : pyfloat) : pyfloat :=
  match x with Fin q => round64 q | _ => x end.

(** [x * k] for a float [x] and a positive finite factor [k]. *)
Definition float_scale (x : pyfloat) (k : Q) : pyfloat :=
  match x with Fin q => round64 (q * k) | _ => x end.

(** [==] on floats. *)
Definition float_eqb (x y : pyfloat) : bool :=
  match x, y with
  | Fin p, Fin q => Qeq_bool p q
  | PInf, PInf | NInf, NInf => true
  | _, _ => false
  end.

(** [try: m  except ValueError: h] *)
Definition except_ValueError {A} (m : result A) (h : result A) : result A :=
  match m with
  | Raise e => if is_ValueError e then h else m
  | _ => m
  end.

(** [try: m  except Exception: h] *)
Definition except_Exception {A} (m : result A) (h : result A) : result A :=
  match m with
  | Raise _ => h
  | _ => m
  end.

(* ------------------------------------------------------------------ *)
(** ** [float(s)] and the regular expression of the damage columns *)

Fixpoint span (p : N -> bool) (s : str) : str * str :=
  match s with
  | [] => ([], [])
  | c :: r =>
      if p c then let '(a, b) := span p r in (c :: a, b) else ([], s)
  end.

(** The number a run of ASCII digits spells. *)
Definition digits_value (s : str) : Z :=
  fold_left (fun acc c => (10 * acc + Z.of_N (c - 48))%Z) s 0%Z.

(** C's [isspace] on a byte. *)
Definition is_c_space (c : N) : bool := in_range 9 13 c || (c =? 32)%N.

Definition ascii_lower_char (c : N) : N :=
  if is_ascii_upper c then (c + 32)%N else c.

(** Underscores between digits are dropped; anywhere else they are an
    error.  [prev] is the code point before [s]. *)
Fixpoint strip_underscores (prev : N) (s : str) : option str :=
  match s with
  | [] => if (prev =? 95)%N then None else Some []
  | c :: r =>
      if (c =? 95)%N then
        if is_ascii_digit prev then strip_underscores c r else None
      else if (prev =? 95)%N && negb (is_ascii_digit c) then None
      else option_map (cons c) (strip_underscores c r)
  end.

(** [m * 10^e] *)
Definition scale10 (m e : Z) : Q :=
  if (0 <=? e)%Z then inject_Z (m * 10 ^ e)
  else Qmake m (Z.to_pos (10 ^ (- e))).

(** An optional sign: the factor and what follows it. *)
Definition split_sign (s : str) : bool * str :=
  match s with
  | 45%N :: r => (true, r)
  | 43%N :: r => (false, r)
  | _ => (false, s)
  end.

(** The exponent part of a decimal literal: empty, or [e], an optional sign
    and at least one digit, up to the end of the text. *)
Definition parse_exponent (s : str) : option Z :=
  match s with
  | [] => Some 0%Z
  | c :: r =>
      if (c =? 101)%N || (c =? 69)%N then
        let '(neg, r') := split_sign r in
        match span is_ascii_digit r' with
        | ([], _) => None
        | (ds, []) => Some (if neg then (- digits_value ds)%Z else digits_value ds)
        | (_, _ :: _) => None
        end
      else None
  end.

(** An unsigned decimal literal: digits, an optional point, digits, an
    optional exponent; at least one digit before the exponent. *)
Definition parse_decimal (s : str) : option Q :=
  let '(d1, r1) := span is_ascii_digit s in
  let '(d2, r2) :=
    match r1 with
    | 46%N :: r => span is_ascii_digit r
    | _ => ([], r1)
    end in
  match d1 ++ d2 with
  | [] => None
  | m =>
      match parse_exponent r2 with
      | Some e => Some (scale10 (digits_value m) (e - Z.of_nat (List.length d2)))
      | None => None
      end
  end.

(** The text after stripping, without underscores: a sign, then [inf],
    [infinity] or [nan] in any case, or a decimal literal. *)
Definition parse_float_text (s : str) : option pyfloat :=
  let '(neg, r) := split_sign s in
  let word := map ascii_lower_char r in
  let x :=
    if str_eqb word (lit "inf") || str_eqb word (lit "infinity") then Some PInf
    else if str_eqb word (lit "nan") then Some NaN
    else option_map Fin (parse_decimal r) in
  option_map (fun x => if neg then float_neg x else x) x.

Section PyFloat.
Context {U : UnicodeData}.

(** What [float] makes of one code point of a text that is not pure
    ASCII: itself below 127, a space for a Unicode space, the ASCII digit
    for a decimal digit, and [None] for anything else. *)
Definition float_transform (c : N) : option N :=
  if (c <? 127)%N then Some c
  else if is_space c then Some 32%N
  else option_map (fun d => (48 + d)%N) (decimal c).

(** The transformed text stops with a question mark at the first code
    point that has no transform. *)
Fixpoint transform_text (s : str) : str :=
  match s with
  | [] => []
  | c :: r =>
      match float_transform c with
      | Some c' => c' :: transform_text r
      | None => [63%N]
      end
  end.

(** [float(s)] for a string [s]: the float nearest to the number the text
    spells. *)
Definition py_float (s : str) : result pyfloat :=
  let t := if forallb is_ascii s then s else transform_text s in
  let t := rev (snd (span is_c_space (rev (snd (span is_c_space t))))) in
  match strip_underscores 0 t with
  | None => Raise ValueError
  | Some t' =>
      match parse_float_text t' with
      | Some x => Ok (float_round x)
      | None => Raise ValueError
      end
  end.

(** [re.match(r"(\d+(\.\d+)?)([KMB])?", s)]: groups 1 and 3 of the match,
    [None] when the text does not start with a digit.  Every part is
    greedy and what follows it is optional, so no choice is ever undone. *)
Definition re_match_damage (s : str) : option (str * option N) :=
  match span is_decimal s with
  | ([], _) => None
  | (d1, r1) =>
      let '(g1, r2) :=
        match r1 with
        | 46%N :: r =>
            match span is_decimal r with
            | ([], _) => (d1, r1)
            | (d2, r') => (d1 ++ 46%N :: d2, r')
            end
        | _ => (d1, r1)
        end in
      let g3 :=
        match r2 with
        | c :: _ =>
            if (c =? 75)%N || (c =? 77)%N || (c =? 66)%N then Some c else None
        | [] => None
        end in
      Some (g1, g3)
  end.
End PyFloat.

(* ------------------------------------------------------------------ *)
(** ** Data frames *)

Inductive dtype := Float64 | Int64 | BoolT | Object | Datetime64.

(** A column: its label, its dtype and one cell per row. *)
Record column := Column {
  col_name : str;
  col_dtype : dtype;
  cells : list value
}.

(** A data frame: its columns, in order. *)
Definition DataFrame := list column.

Definition columns (df : DataFrame) : list str := map col_name df.

Definition mem (n : str) (l : list str) : bool := existsb (str_eqb n) l.

(** [n in df.columns] *)
Definition has_column (df : DataFrame) (n : str) : bool := mem n (columns df).

(** [df[n]] *)
Definition get_column (df : DataFrame) (n : str) : result column :=
  match find (fun c => str_eqb n (col_name c)) df with
  | Some c => Ok c
  | None => Raise KeyError
  end.

(** [df[n] = series]: the column of that label is replaced where it stands,
    a new label is appended. *)
Definition set_column (df : DataFrame) (n : str) (t : dtype) (cs : list value)
  : DataFrame :=
  if has_column df n
  then map (fun c => if str_eqb n (col_name c) then Column n t cs else c) df
  else df ++ [Column n t cs].

(** [df.drop(columns=names)] for labels that are all present. *)
Definition drop_columns (df : DataFrame) (names : list str) : DataFrame :=
  filter (fun c => negb (mem (col_name c) names)) df.

Definition count_nulls (cs : list value) : nat :=
  List.length (filter isnull cs).

(** [series.isnull().mean()]: the share of nulls, NaN ([None]) for a column
    without rows. *)
Definition isnull_mean (cs : list value) : option Q :=
  match cs with
  | [] => None
  | _ => Some (Qmake (Z.of_nat (count_nulls cs)) (Pos.of_nat (List.length cs)))
  end.

(** [mean > threshold], false for NaN. *)
Definition gt_threshold (mean : option Q) (threshold : Q) : bool :=
  match mean with
  | Some f => negb (Qle_bool f threshold)
  | None => false
  end.

(** [null_percentage[null_percentage > threshold].index] *)
Definition columns_over (df : DataFrame) (threshold : Q) : list str :=
  columns (filter (fun c => gt_threshold (isnull_mean (cells c)) threshold) df).

(** [series.fillna(v)] *)
Definition fillna (v : value) (cs : list value) : list value :=
  map (fun x => if isnull x then v else x) cs.

(** [series.isnull().any()] *)
Definition any_null (cs : list value) : bool := existsb isnull cs.

(** The dtype pandas infers for the results of [apply]. *)
Definition infer_dtype (cs : list value) : dtype :=
  if forallb (fun v => match v with VInt _ => true | _ => false end) cs
  then Int64
  else if forallb
            (fun v => match v with VInt _ | VFloat _ => true | _ => false end) cs
  then Float64
  else if forallb (fun v => match v with VBool _ => true | _ => false end) cs
  then BoolT
  else Object.

(** Two cells hold the same value, as a join sees its keys: the nulls, of
    whatever kind, are one value, numbers compare by value, anything else
    by content. *)
Definition same_value (a b : value) : bool :=
  if isnull a then isnull b
  else if isnull b then false
  else
    match as_float a, as_float b with
    | Some x, Some y => float_eqb x y
    | None, None =>
        match a, b with
        | VStr s, VStr t => str_eqb s t
        | VDate y m d h mi, VDate y' m' d' h' mi' =>
            ((y =? y') && (m =? m') && (d =? d') && (h =? h') && (mi =? mi'))%Z
        | VTime h mi, VTime h' mi' => ((h =? h') && (mi =? mi'))%Z
        | _, _ => false
        end
    | _, _ => false
    end.

(** The kinds of null an object column can hold; 0 for a value. *)
Definition null_kind (v : value) : N :=
  match v with
  | VNone => 1
  | VNaT => 2
  | VFloat NaN => 3
  | _ => 0
  end%N.

(** Two cells hold the same value, as the hash table of [duplicated],
    [drop_duplicates] and [nunique] sees them: as above, but [None], [NaN]
    and [NaT] are three values. *)
Definition same_key (a b : value) : bool :=
  same_value a b && (null_kind a =? null_kind b)%N.

(** Keep the cells whose mask is true. *)
Fixpoint select {A} (mask : list bool) (l : list A) : list A :=
  match mask, l with
  | m :: ms, x :: xs => if m then x :: select ms xs else select ms xs
  | _, _ => []
  end.

(** [df[mask]] *)
Definition filter_rows (mask : list bool) (df : DataFrame) : DataFrame :=
  map (fun c => Column (col_name c) (col_dtype c) (select mask (cells c))) df.

(** [series.duplicated()] with [keep='first']: true for a value seen before. *)
Fixpoint duplicated_first (seen : list value) (ks : list value) : list bool :=
  match ks with
  | [] => []
  | k :: r => existsb (same_key k) seen :: duplicated_first (k :: seen) r
  end.

(** [series.duplicated(keep=False)]: true for a value that occurs twice. *)
Definition duplicated_all (ks : list value) : list bool :=
  map (fun k => (1 <? List.length (filter (same_key k) ks))%nat) ks.

Definition EVENT_ID : str := lit "EVENT_ID".

(** The number of rows, read off the first column. *)
Definition nrows (df : DataFrame) : nat :=
  match df with
  | [] => 0
  | c :: _ => List.length (cells c)
  end.

(** [df.empty] *)
Definition empty (df : DataFrame) : bool := (nrows df =? 0)%nat.

(** The cell that stands for a missing match. *)
Definition nan : value := VFloat NaN.

(** Row [i] of a frame, one cell per column. *)
Definition row_at (df : DataFrame) (i : nat) : list value :=
  map (fun c => nth i (cells c) nan) df.

Definition rows (df : DataFrame) : list (list value) :=
  map (row_at df) (seq 0 (nrows df)).

(* ------------------------------------------------------------------ *)
(** ** [DataFrame.merge(right, on=key, how='left')] *)

(** The positions, counted from [i], of the cells of [ks] that satisfy [p]. *)
Fixpoint positions_from (i : nat) (p : value -> bool) (ks : list value)
  : list nat :=
  match ks with
  | [] => []
  | x :: r => (if p x then [i] else []) ++ positions_from (S i) p r
  end.

(** The rows of [ks], by position, that hold the value [k]. *)
Definition matches (k : value) (ks : list value) : list nat :=
  positions_from 0 (same_value k) ks.

(** The pairs of the left row [i], whose key is [k]: one per matching right
    row, in the right frame's order, or a single pair without a right row. *)
Definition expand (rk : list value) (i : nat) (k : value)
  : list (nat * option nat) :=
  match matches k rk with
  | [] => [(i, None)]
  | js => map (fun j => (i, Some j)) js
  end.

Fixpoint indexers_from (i : nat) (lk rk : list value)
  : list (nat * option nat) :=
  match lk with
  | [] => []
  | k :: r => expand rk i k ++ indexers_from (S i) r rk
  end.

(** The row pairs of a left join, left rows in their order. *)
Definition left_join_indexers (lk rk : list value) : list (nat * option nat) :=
  indexers_from 0 lk rk.

(** Whether a pair of rows has no right row, and whether some pair has
    none ([(right_indexer == -1).any()]). *)
Definition is_unmatched (p : nat * option nat) : bool :=
  match snd p with Some _ => false | None => true end.

Definition has_unmatched (idx : list (nat * option nat)) : bool :=
  existsb is_unmatched idx.

Definition take_left (idx : list (nat * option nat)) (cs : list value) :=
  map (fun p : nat * option nat => nth (fst p) cs nan) idx.

(** What stands for a missing right row in a column of dtype [t]. *)
Definition na_value (t : dtype) : value :=
  match t with Datetime64 => VNaT | _ => nan end.

(** The dtype a column takes to hold it: integers become floats, booleans
    objects. *)
Definition na_dtype (t : dtype) : dtype :=
  match t with Int64 => Float64 | BoolT => Object | _ => t end.

(** The cell [v] of a column of dtype [t] after that change. *)
Definition na_cast (t : dtype) (v : value) : value :=
  match t, v with
  | Int64, VInt z => VFloat (round64 (inject_Z z))
  | _, _ => v
  end.

(** The cell of the right column [c] that is joined to a left row: that of
    the right row [j], or the missing value; [unmatched] says whether some
    left row of the join has no right row. *)
Definition right_cell (unmatched : bool) (c : column) (j : option nat)
  : value :=
  match j with
  | Some j =>
      if unmatched then na_cast (col_dtype c) (nth j (cells c) nan)
      else nth j (cells c) nan
  | None => na_value (col_dtype c)
  end.

Definition take_right (idx : list (nat * option nat)) (c : column)
  : list value :=
  map (fun p : nat * option nat => right_cell (has_unmatched idx) c (snd p))
      idx.

Definition right_dtype (idx : list (nat * option nat)) (c : column) : dtype :=
  if has_unmatched idx then na_dtype (col_dtype c) else col_dtype c.

(** The columns of a frame without the key. *)
Definition non_key (key : str) (df : DataFrame) : DataFrame :=
  filter (fun c => negb (str_eqb (col_name c) key)) df.

(** A label shared by both frames, the key apart, gets the side's suffix. *)
Definition suffixed (key : str) (others : list str) (suffix : str) (n : str) : str :=
  if negb (str_eqb n key) && mem n others then n ++ suffix else n.

(** The key column of a join: the label must be there ([KeyError]) and be
    there once ([ValueError]: the column label is not unique). *)
Definition get_key (df : DataFrame) (key : str) : result column :=
  match filter (fun c => str_eqb key (col_name c)) df with
  | [] => Raise KeyError
  | [c] => Ok c
  | _ :: _ :: _ => Raise ValueError
  end.

Definition dtype_eqb (a b : dtype) : bool :=
  match a, b with
  | Float64, Float64 | Int64, Int64 | BoolT, BoolT | Object, Object
  | Datetime64, Datetime64 => true
  | _, _ => false
  end.

(** A key column of texts, and one of numbers; both with rows. *)
Definition text_key (c : column) : bool :=
  match col_dtype c, cells c with
  | Object, _ :: _ => forallb isinstance_str (cells c)
  | _, _ => false
  end.

Definition number_key (c : column) : bool :=
  match col_dtype c, cells c with
  | (Int64 | Float64), _ :: _ => true
  | _, _ => false
  end.

(** What pandas does with two key columns of different dtypes, both with
    rows or both without ([_maybe_coerce_merge_keys]): it refuses them with
    a [ValueError], or goes on with the two columns, cast to a common dtype
    where it sees fit.  The rule is the library's, not the repository's; one
    case of it is fixed here: a key of texts is never joined to a key of
    numbers. *)
Class MergeKeys := {
  key_mismatch : column -> column -> result (column * column);
  key_mismatch_ValueError :
    forall lk rk e, key_mismatch lk rk = Raise e -> e = ValueError;
  key_mismatch_text :
    forall lk rk, text_key lk = true -> number_key rk = true ->
      key_mismatch lk rk = Raise ValueError
      /\ key_mismatch rk lk = Raise ValueError
}.

(** Whether the two key columns are joined as they are: one dtype, or one
    side without rows. *)
Definition keys_agree (lk rk : column) : bool :=
  xorb (match cells lk with [] => true | _ => false end)
       (match cells rk with [] => true | _ => false end)
  || dtype_eqb (col_dtype lk) (col_dtype rk).

(** [df[key] = k] on a frame that has the label. *)
Definition set_key (key : str) (k : column) (df : DataFrame) : DataFrame :=
  map (fun c => if str_eqb key (col_name c) then k else c) df.

(** The columns each side contributes: the right key is dropped, or the
    left one when the left frame has no row. *)
Definition join_sides (key : str) (left right : DataFrame) (lk : column)
  : DataFrame * DataFrame :=
  match cells lk with
  | [] => (non_key key left, right)
  | _ :: _ => (left, non_key key right)
  end.

(** [labels[labels.duplicated() & ~old.duplicated()]] is not empty: a label,
    once renamed, repeats an earlier one where the label it had did not. *)
Fixpoint new_duplicate (seen_old seen_new old new : list str) : bool :=
  match old, new with
  | o :: old', n :: new' =>
      (mem n seen_new && negb (mem o seen_old))
      || new_duplicate (o :: seen_old) (n :: seen_new) old' new'
  | _, _ => false
  end.

(** Whether the join of frames with these labels is refused with a
    [MergeError] because a suffix makes a duplicate label. *)
Definition suffixes_refused (key : str) (llabels rlabels : list str) : bool :=
  new_duplicate [] [] llabels (map (suffixed key rlabels (lit "_x")) llabels)
  || new_duplicate [] [] rlabels
       (map (suffixed key llabels (lit "_y")) rlabels).

(** The joined frame for given row pairs: the left columns, then the right
    ones. *)
Definition joined (key : str) (lcols rcols : DataFrame)
    (idx : list (nat * option nat)) : DataFrame :=
  map (fun c => Column (suffixed key (columns rcols) (lit "_x") (col_name c))
                       (col_dtype c) (take_left idx (cells c))) lcols
  ++ map (fun c => Column (suffixed key (columns lcols) (lit "_y") (col_name c))
                          (right_dtype idx c) (take_right idx c)) rcols.

Definition join_on (key : str) (left right : DataFrame) (lk rk : column)
  : result DataFrame :=
  let (lcols, rcols) := join_sides key left right lk in
  if suffixes_refused key (columns lcols) (columns rcols)
  then Raise MergeError
  else Ok (joined key lcols rcols (left_join_indexers (cells lk) (cells rk))).

(** The key is looked up in the right frame first, then in the left one;
    then the dtypes of the two keys are compared, and the labels last. *)
Definition merge_left {M : MergeKeys} (left right : DataFrame) (key : str)
  : result DataFrame :=
  rk <- get_key right key ;;
  lk <- get_key left key ;;
  if keys_agree lk rk then join_on key left right lk rk
  else
    ks <- key_mismatch lk rk ;;
    join_on key (set_key key (fst ks) left) (set_key key (snd ks) right)
      (fst ks) (snd ks).

(** The rows of a frame whose key is [k], in order; none without the key
    column. *)
Definition rows_matching (df : DataFrame) (key : str) (k : value)
  : list (list value) :=
  match get_column df key with
  | Ok kc => map (row_at df) (matches k (cells kc))
  | Raise _ => []
  end.

(* ------------------------------------------------------------------ *)
(** ** [pd.to_datetime(series, format=..., errors=...)] *)

(** The directives of a format, for the formats the pipeline builds:
    [%Y], [%m], [%d], [%H], [%M] and literal characters. *)
Inductive directive := DY | Dm | Dd | DH | DM | DLit (c : N).

Record fields := Fields {
  f_year : Z; f_month : Z; f_day : Z; f_hour : Z; f_minute : Z
}.

(** What [strptime] assumes for a field the format does not mention. *)
Definition default_fields : fields := Fields 1900 1 1 0 0.

Definition set_field (d : directive) (v : Z) (f : fields) : fields :=
  match d with
  | DY => Fields v (f_month f) (f_day f) (f_hour f) (f_minute f)
  | Dm => Fields (f_year f) v (f_day f) (f_hour f) (f_minute f)
  | Dd => Fields (f_year f) (f_month f) v (f_hour f) (f_minute f)
  | DH => Fields (f_year f) (f_month f) (f_day f) v (f_minute f)
  | DM => Fields (f_year f) (f_month f) (f_day f) (f_hour f) v
  | DLit _ => f
  end.

Inductive errors := ErrorsRaise | ErrorsCoerce.

Definition is_leap (y : Z) : bool :=
  ((y mod 4 =? 0) && (negb (y mod 100 =? 0) || (y mod 400 =? 0)))%Z.

Definition days_in_month (y m : Z) : Z :=
  match m with
  | 2 => if is_leap y then 29 else 28
  | 4 | 6 | 9 | 11 => 30
  | _ => 31
  end%Z.

(** The order of two instants, minute by minute. *)
Definition stamp (y m d h mi : Z) : Z :=
  ((((y * 100 + m) * 100 + d) * 100 + h) * 100 + mi)%Z.

(** A calendar date that a nanosecond [Timestamp] can hold
    (1677-09-21 00:12:43 to 2262-04-11 23:47:16). *)
Definition timestamp_ok (f : fields) : bool :=
  let '(Fields y m d h mi) := f in
  ((1 <=? m) && (m <=? 12) && (1 <=? d) && (d <=? days_in_month y m)
   && (stamp 1677 9 21 0 13 <=? stamp y m d h mi)
   && (stamp y m d h mi <=? stamp 2262 4 11 23 47))%Z.

Definition directive_eqb (a b : directive) : bool :=
  match a, b with
  | DY, DY | Dm, Dm | Dd, Dd | DH, DH | DM, DM => true
  | _, _ => false
  end.

(** Whether the format compiles: every directive becomes a named group of
    one regular expression, and a name that comes twice is an error of
    [re], whatever the texts are. *)
Fixpoint format_ok (ds : list directive) : bool :=
  match ds with
  | [] => true
  | d :: r => negb (existsb (directive_eqb d) r) && format_ok r
  end.

Section ToDatetime.
Context {U : UnicodeData}.

(** Two code points read as a number when both are [\d]. *)
Definition two_digits (a b : N) : option Z :=
  match decimal a, decimal b with
  | Some x, Some y => Some (Z.of_N (10 * x + y))
  | _, _ => None
  end.

(** A leading pair of code points, when the first one lies in the ASCII
    range [lo]..[hi] and the second one satisfies [snd_ok]. *)
Definition pair_alt (lo hi : N) (snd_ok : N -> bool) (s : str)
  : list (Z * str) :=
  match s with
  | a :: b :: r =>
      if in_range lo hi a && snd_ok b then
        match two_digits a b with Some v => [(v, r)] | None => [] end
      else []
  | _ => []
  end.

(** A single leading code point that satisfies [ok]. *)
Definition one_alt (ok : N -> bool) (s : str) : list (Z * str) :=
  match s with
  | a :: r =>
      if ok a then
        match decimal a with Some v => [(Z.of_N v, r)] | None => [] end
      else []
  | [] => []
  end.

(** The ways a directive can match at the start of [s], the regular
    expression's alternatives in their order. *)
Definition candidates (d : directive) (s : str) : list (Z * str) :=
  match d with
  | DY =>                                   (* \d\d\d\d *)
      match s with
      | a :: b :: c :: e :: r =>
          match two_digits a b, two_digits c e with
          | Some x, Some y => [((100 * x + y)%Z, r)]
          | _, _ => []
          end
      | _ => []
      end
  | Dm =>                                   (* 1[0-2]|0[1-9]|[1-9] *)
      pair_alt 49 49 (in_range 48 50) s
      ++ pair_alt 48 48 (in_range 49 57) s
      ++ one_alt (in_range 49 57) s
  | Dd =>                                   (* 3[0-1]|[1-2]\d|0[1-9]|[1-9]| [1-9] *)
      pair_alt 51 51 (in_range 48 49) s
      ++ pair_alt 49 50 is_decimal s
      ++ pair_alt 48 48 (in_range 49 57) s
      ++ one_alt (in_range 49 57) s
      ++ match s with
         | 32%N :: r => one_alt (in_range 49 57) r
         | _ => []
         end
  | DH =>                                   (* 2[0-3]|[0-1]\d|\d *)
      pair_alt 50 50 (in_range 48 51) s
      ++ pair_alt 48 49 is_decimal s
      ++ one_alt is_decimal s
  | DM =>                                   (* [0-5]\d|\d *)
      pair_alt 48 53 is_decimal s
      ++ one_alt is_decimal s
  | DLit c =>
      match s with
      | a :: r => if (a =? c)%N then [(0%Z, r)] else []
      | [] => []
      end
  end.

(** The first match of the whole format at the start of the text, earlier
    alternatives first: the fields and what is left of the text. *)
Fixpoint match_format (ds : list directive) (s : str) (f : fields)
  : option (fields * str) :=
  match ds with
  | [] => Some (f, s)
  | d :: ds' =>
      (fix try (cands : list (Z * str)) : option (fields * str) :=
         match cands with
         | [] => None
         | (v, r) :: more =>
             match match_format ds' r (set_field d v f) with
             | Some x => Some x
             | None => try more
             end
         end) (candidates d s)
  end.

(** One text against the format: a [Timestamp], or nothing when the text
    does not match, something is left over, or the date does not exist. *)
Definition strptime (ds : list directive) (s : str) : option value :=
  match match_format ds s default_fields with
  | Some (f, []) =>
      if timestamp_ok f
      then Some (VDate (f_year f) (f_month f) (f_day f) (f_hour f) (f_minute f))
      else None
  | _ => None
  end.

(** One text under [errors]: what does not parse is [NaT] when coerced
    and a [ValueError] otherwise. *)
Definition to_datetime_cell (ds : list directive) (e : errors) (s : str)
  : result value :=
  match strptime ds s, e with
  | Some t, _ => Ok t
  | None, ErrorsCoerce => Ok VNaT
  | None, ErrorsRaise => Raise ValueError
  end.

(** [pd.to_datetime] on a series of texts: the format is compiled first,
    then every text is read. *)
Definition to_datetime (ds : list directive) (e : errors) (cs : list str)
  : result (list value) :=
  if format_ok ds then mapM (to_datetime_cell ds e) cs else Raise ReError.
End ToDatetime.

(** [series.dt.time] *)
Definition dt_time (v : value) : value :=
  match v with
  | VDate _ _ _ h mi => VTime h mi
  | _ => VNaT
  end.

(** The decimal digits of an integer, with its sign. *)
Definition str_of_Z (z : Z) : str :=
  lit (DecimalString.NilZero.string_of_int (Z.to_int z)).

(** pandas' [series.str.zfill(width)]: zeros on the left up to the width. *)
Definition zfill (width : nat) (s : str) : str :=
  repeat 48%N (width - List.length s) ++ s.

(* ------------------------------------------------------------------ *)
(** ** preprocesamiento de datos NOAA.py *)

Module Preprocesamiento.
Section WithUnicode.
Context {U : UnicodeData}.

Definition convertir_damage (val : value) : result value :=
  match val with
  | VStr s =>
      let text := py_strip (py_upper s) in
      match re_match_damage text with
      | Some (group1, group3) =>
          number <- py_float group1 ;;
          let multiplier : Q :=
            match group3 with
            | Some 75%N => 1000
            | Some 77%N => 1000000
            | Some 66%N => 1000000000
            | _ => 1
            end in
          Ok (VFloat (float_scale number multiplier))
      | None => Ok (VInt 0)
      end
  | _ => Ok (if notnull val then val else VInt 0)
  end.

Definition normalizar_nombre_columna (col : str) : str :=
  let col := replace_space (py_lower (py_strip col)) in
  let col := encode_ascii_ignore (nfkd col) in
  re_sub_non_token col.

(** The first step of [preprocesamiento_general]: the columns renamed. *)
Definition renombrar_columnas (df : DataFrame) : DataFrame :=
  map (fun c => Column (normalizar_nombre_columna (col_name c))
                       (col_dtype c) (cells c)) df.
End WithUnicode.

Definition umbral_nulos_default : Q := 9 # 10.

(** [df.dropna(axis=1, how='all')]: a column goes when it holds no value. *)
Definition dropna_all (df : DataFrame) : DataFrame :=
  filter (fun c => negb (forallb isnull (cells c))) df.

(** The step of [preprocesamiento_general] that drops the columns with too
    many nulls. *)
Definition eliminar_columnas_nulas (df : DataFrame) (umbral_nulos : Q)
  : DataFrame :=
  let columnas_a_eliminar := columns_over df umbral_nulos in
  drop_columns df columnas_a_eliminar.

(** The steps of [preprocesamiento_general] that decide which columns the
    result has, in their order; the later steps rewrite cells and drop rows. *)
Definition preprocesamiento_columnas {U : UnicodeData} (df : DataFrame)
    (umbral_nulos : Q) : DataFrame :=
  eliminar_columnas_nulas (dropna_all (renombrar_columnas df)) umbral_nulos.

(** [detectar_tipo_archivo] of the preprocessing script: the kind of file,
    read off the normalized labels. *)
Definition detectar_tipo_archivo (df : DataFrame) : str :=
  if has_column df (lit "damage_property") then lit "details"
  else if has_column df (lit "fatality_type") then lit "fatalities"
  else if has_column df (lit "begin_lat")
          && has_column df (lit "begin_location") then lit "locations"
  else lit "desconocido".
End Preprocesamiento.

(* ------------------------------------------------------------------ *)
(** ** limpieza de datos NOAA 2024.py *)

Module Limpieza.

Definition DAMAGE_PROPERTY : str := lit "DAMAGE_PROPERTY".
Definition DAMAGE_CROPS : str := lit "DAMAGE_CROPS".
(** The label line 104 assigns to: [DAMAGE_CRP], U+00A8, [S]. *)
Definition DAMAGE_CRP_S : str := lit "DAMAGE_CRP" ++ [168%N] ++ lit "S".
Definition FATALITY_AGE : str := lit "FATALITY_AGE".
Definition FATALITY_SEX : str := lit "FATALITY_SEX".
Definition FATALITY_LOCATION : str := lit "FATALITY_LOCATION".
Definition Desconocido : str := lit "Desconocido".

Section WithRuntime.
Context {U : UnicodeData} {M : MergeKeys}.
(** [str(x)] for a float that is a number, a timestamp or a time: the
    renderings of the run time, not of the repository. *)
Variable repr_other : value -> str.
(** [series.dt.strftime(fmt)] on one cell. *)
Variable strftime : str -> value -> value.

Definition convertir_damage (val : value) : result value :=
  match val with
  | VStr s =>
      let text := py_strip (py_upper s) in
      match re_match_damage text with
      | Some (number_str, suffix) =>
          match py_float number_str with
          | Raise e => if is_ValueError e then Ok (VInt 0) else Raise e
          | Ok number =>
              match suffix with
              | Some 75%N => Ok (VFloat (float_scale number 1000))
              | Some 77%N => Ok (VFloat (float_scale number 1000000))
              | Some 66%N => Ok (VFloat (float_scale number 1000000000))
              | _ => Ok (VFloat number)
              end
          end
      | None =>
          except_ValueError (x <- py_float text ;; Ok (VFloat x)) (Ok (VInt 0))
      end
  | _ => Ok (if notnull val then val else VInt 0)
  end.

Definition threshold_default : Q := 1 # 2.

Definition manejar_nulos (df : DataFrame) (threshold : Q) : DataFrame :=
  let columns_to_drop := columns_over df threshold in
  drop_columns df columns_to_drop.

(** [lambda x: x if x >= 0 else 0]; ordering what is not a number against
    0 is a [TypeError]. *)
Definition clamp (x : value) : result value :=
  match as_float x with
  | Some f => Ok (if float_ge0 f then x else VInt 0)
  | None => Raise TypeError
  end.

(** [series.apply(f)] *)
Definition apply (f : value -> result value) (c : column)
  : result (list value) :=
  mapM f (cells c).

Definition fuera_de_rango (df : DataFrame) : result DataFrame :=
  df <- (if has_column df DAMAGE_PROPERTY then
           c <- get_column df DAMAGE_PROPERTY ;;
           cs <- apply clamp c ;;
           Ok (set_column df DAMAGE_PROPERTY (infer_dtype cs) cs)
         else Ok df) ;;
  df <- (if has_column df DAMAGE_CROPS then
           c <- get_column df DAMAGE_CROPS ;;
           cs <- apply clamp c ;;
           Ok (set_column df DAMAGE_CRP_S (infer_dtype cs) cs)
         else Ok df) ;;
  Ok df.

(** [str(x)] *)
Definition py_str (v : value) : str :=
  match v with
  | VStr s => s
  | VInt z => str_of_Z z
  | VBool true => lit "True"
  | VBool false => lit "False"
  | VNone => lit "None"
  | VNaT => lit "NaT"
  | VFloat NaN => lit "nan"
  | VFloat PInf => lit "inf"
  | VFloat NInf => lit "-inf"
  | _ => repr_other v
  end.

(** An optional text argument counts when it is given and not empty. *)
Definition truthy (o : option str) : bool :=
  match o with
  | Some (_ :: _) => true
  | _ => false
  end.

Definition text_of (o : option str) : str :=
  match o with Some s => s | None => [] end.

Definition convertir_tiempo (df : DataFrame)
    (year_month_col day_col time_col output_col_prefix : option str)
    (date_format : list directive) (output_format : option str)
  : DataFrame :=
  let output_col_prefix :=
    match output_col_prefix with
    | None => lit "RESULT"
    | Some p => p
    end in
  let date_step : result DataFrame :=
    if truthy year_month_col && truthy day_col then
      if has_column df (text_of year_month_col)
         && has_column df (text_of day_col) then
        ym <- get_column df (text_of year_month_col) ;;
        d <- get_column df (text_of day_col) ;;
        let texts :=
          map (fun p : value * value =>
                 py_str (fst p) ++ zfill 2 (py_str (snd p)))
              (combine (cells ym) (cells d)) in
        ts <- to_datetime (date_format ++ [Dd]) ErrorsCoerce texts ;;
        let df := set_column df (output_col_prefix ++ lit "_DATE") Datetime64 ts in
        if truthy output_format then
          Ok (set_column df (output_col_prefix ++ lit "_DATE") Object
                (map (strftime (text_of output_format)) ts))
        else Ok df
      else Ok df
    else Ok df in
  let time_step (df : DataFrame) : result DataFrame :=
    if truthy time_col then
      if has_column df (text_of time_col) then
        t <- get_column df (text_of time_col) ;;
        ts <- to_datetime [DH; DM] ErrorsCoerce
                (map (fun v => zfill 4 (py_str v)) (cells t)) ;;
        Ok (set_column df (output_col_prefix ++ lit "_TIME") Object
              (map dt_time ts))
      else Ok df
    else Ok df in
  (* try: ... except Exception: log; the frame keeps what was assigned *)
  match date_step with
  | Raise _ => df
  | Ok df1 =>
      match time_step df1 with
      | Raise _ => df1
      | Ok df2 => df2
      end
  end.

Definition limpiar_detalles (detalles_df : DataFrame) : result DataFrame :=
  p <- get_column detalles_df DAMAGE_PROPERTY ;;
  ps <- mapM convertir_damage (fillna (VStr (lit "0")) (cells p)) ;;
  let df := set_column detalles_df DAMAGE_PROPERTY (infer_dtype ps) ps in
  c <- get_column df DAMAGE_CROPS ;;
  cs <- mapM convertir_damage (fillna (VStr (lit "0")) (cells c)) ;;
  let df := set_column df DAMAGE_CROPS (infer_dtype cs) cs in
  let columns_to_drop :=
    [lit "STATE_FIPS"; lit "CZ_FIPS"; lit "DATA_SOURCE"; lit "WFO"; lit "CATEGORY"] in
  Ok (drop_columns df (filter (has_column df) columns_to_drop)).

Definition limpiar_fatalidades (fatalidades_df : DataFrame)
  : result DataFrame :=
  a <- get_column fatalidades_df FATALITY_AGE ;;
  let df := set_column fatalidades_df FATALITY_AGE (col_dtype a)
              (fillna (VInt (-1)) (cells a)) in
  s <- get_column df FATALITY_SEX ;;
  let df := set_column df FATALITY_SEX
              (if any_null (cells s) then Object else col_dtype s)
              (fillna (VStr Desconocido) (cells s)) in
  if has_column df FATALITY_LOCATION then
    l <- get_column df FATALITY_LOCATION ;;
    Ok (set_column df FATALITY_LOCATION Object
          (map (fun v => VStr (py_lower (py_strip (py_str v)))) (cells l)))
  else Ok df.

(** [df.drop_duplicates(subset=[key])] for a key that is a column. *)
Definition drop_duplicates (df : DataFrame) (key : column) : DataFrame :=
  filter_rows (map negb (duplicated_first [] (cells key))) df.

Definition limpiar_lugares (lugares_df : DataFrame) : DataFrame :=
  let df := drop_columns lugares_df [lit "LAT2"; lit "LON2"] in
  match get_column df EVENT_ID with
  | Ok key => drop_duplicates df key
  | Raise _ => df
  end.

(** Line 225: details left-joined with fatalities, then with locations. *)
Definition master (detalles_df fatalidades_df lugares_df : DataFrame)
  : result DataFrame :=
  m <- merge_left detalles_df fatalidades_df EVENT_ID ;;
  merge_left m lugares_df EVENT_ID.

(** [main], from the three frames read from the chosen files to the frame
    that is written out. *)
Definition main (detalles_df fatalidades_df lugares_df : DataFrame)
  : result DataFrame :=
  if empty detalles_df || empty fatalidades_df || empty lugares_df
  then Raise SystemExit
  else
    detalles_df <- limpiar_detalles detalles_df ;;
    fatalidades_df <- limpiar_fatalidades fatalidades_df ;;
    let lugares_df := limpiar_lugares lugares_df in
    let detalles_df := manejar_nulos detalles_df threshold_default in
    detalles_df <- fuera_de_rango detalles_df ;;
    master_df <- master detalles_df fatalidades_df lugares_df ;;
    let master_df :=
      convertir_tiempo master_df (Some (lit "BEGIN_YEARMONTH"))
        (Some (lit "BEGIN_DAY")) (Some (lit "BEGIN_TIME"))
        (Some (lit "BEGIN")) [DY; Dm] None in
    let master_df :=
      convertir_tiempo master_df (Some (lit "END_YEARMONTH"))
        (Some (lit "END_DAY")) (Some (lit "END_TIME"))
        (Some (lit "END")) [DY; Dm] None in
    Ok master_df.
End WithRuntime.
End Limpieza.

(* ------------------------------------------------------------------ *)
(** ** Limpieza final.py *)

Module LimpiezaFinal.

Definition umbral_default : Q := 9 # 10.

Definition manejar_columnas_con_nulos (df : DataFrame) (umbral : Q)
  : DataFrame :=
  let columnas_a_eliminar := columns_over df umbral in
  match columnas_a_eliminar with
  | _ :: _ => drop_columns df columnas_a_eliminar
  | [] => df
  end.

Definition ES_EVENT_ID_DUPLICADO : str := lit "ES_EVENT_ID_DUPLICADO".

Definition marcar_duplicados_event_id (df : DataFrame) : DataFrame :=
  match get_column df EVENT_ID with
  | Ok k =>
      set_column df ES_EVENT_ID_DUPLICADO BoolT
        (map VBool (duplicated_all (cells k)))
  | Raise _ => df
  end.

(** [df.columns[df.isnull().any()].tolist()] *)
Definition columnas_con_nulos (df : DataFrame) : list str :=
  columns (filter (fun c => any_null (cells c)) df).

(** [dtype in ['float64', 'int64']] *)
Definition is_numeric (t : dtype) : bool :=
  match t with
  | Float64 | Int64 => true
  | _ => false
  end.

(** One turn of the loop of [manejar_nulos]: the frame after the fill and
    the line it logs, as the column and the fill value. *)
Definition llenar_columna (df : DataFrame) (col : str)
  : result (DataFrame * (str * value)) :=
  c <- get_column df col ;;
  if is_numeric (col_dtype c) then
    Ok (set_column df col (col_dtype c) (fillna (VInt 0) (cells c)),
        (col, VInt 0))
  else
    Ok (set_column df col Object
          (fillna (VStr Limpieza.Desconocido) (cells c)),
        (col, VStr Limpieza.Desconocido)).

Fixpoint llenar (cols : list str) (df : DataFrame) (log : list (str * value))
  : result (DataFrame * list (str * value)) :=
  match cols with
  | [] => Ok (df, log)
  | col :: rest =>
      r <- llenar_columna df col ;;
      llenar rest (fst r) (log ++ [snd r])
  end.

(** [manejar_nulos]: the frame with its nulls filled and the lines logged,
    one per filled column. *)
Definition manejar_nulos (df : DataFrame)
  : result (DataFrame * list (str * value)) :=
  llenar (columnas_con_nulos df) df [].

(** [main] between the load and the save: the drop pass, the duplicate
    flag, the fill pass (the consistency check that follows only logs
    counts). *)
Definition main (df : DataFrame) : result (DataFrame * list (str * value)) :=
  let df := manejar_columnas_con_nulos df umbral_default in
  let df := marcar_duplicados_event_id df in
  manejar_nulos df.
End LimpiezaFinal.

(* ------------------------------------------------------------------ *)
(** ** Chequeo Archivo final.py *)

Module Chequeo.

(** The values of a series, each once, in the order they first occur. *)
Definition unique (vs : list value) : list value :=
  select (map negb (duplicated_first [] vs)) vs.

(** [series.nunique()]: nulls do not count. *)
Definition nunique (vs : list value) : nat :=
  List.length (unique (filter notnull vs)).

(** [df.groupby(key)[col].nunique()]: one count per key value, rows with
    a null key in no group. *)
Definition groupby_nunique (key col : list value) : list nat :=
  map (fun g => nunique (select (map (same_value g) key) col))
      (unique (filter notnull key)).

(** [series.max() > 1]: the maximum of no group is NaN, which is not
    greater than 1. *)
Definition max_gt_1 (counts : list nat) : bool :=
  match counts with
  | [] => false
  | n :: r => (1 <? fold_left Nat.max r n)%nat
  end.

(** [df.groupby(key).filter(lambda x: len(x) > 1).head(10)] *)
Definition ejemplo_duplicados (df : DataFrame) (key : list value) : DataFrame :=
  let keep :=
    map (fun k => notnull k
                  && (1 <? List.length (filter (same_value k) key))%nat) key in
  map (fun c => Column (col_name c) (col_dtype c) (firstn 10 (cells c)))
      (filter_rows keep df).

(** What section 3 of the report says. *)
Inductive duplicados_report :=
| ColumnaNoEncontrada
| SinDuplicadosParciales (duplicates : nat)
| DuplicadosParciales (duplicates : nat) (registros : nat)
    (columnas_con_diferencias : list str) (ejemplo : DataFrame).

(** The columns that take more than one value inside some group of rows
    with the same key. *)
Fixpoint columnas_con_diferencias (duplicados_parciales : DataFrame)
    (key : list value) (cols : list str) : result (list str) :=
  match cols with
  | [] => Ok []
  | col :: rest =>
      c <- get_column duplicados_parciales col ;;
      more <- columnas_con_diferencias duplicados_parciales key rest ;;
      Ok (if max_gt_1 (groupby_nunique key (cells c))
          then col :: more else more)
  end.

(** Section 3 of [validate_and_report]. *)
Definition analizar_duplicados (df : DataFrame) : result duplicados_report :=
  if has_column df EVENT_ID then
    k <- get_column df EVENT_ID ;;
    let duplicates :=
      List.length (filter (fun b : bool => b) (duplicated_first [] (cells k))) in
    let duplicados_parciales := filter_rows (duplicated_all (cells k)) df in
    if negb (empty duplicados_parciales) then
      kp <- get_column duplicados_parciales EVENT_ID ;;
      cols <- columnas_con_diferencias duplicados_parciales (cells kp)
                (columns duplicados_parciales) ;;
      Ok (DuplicadosParciales duplicates (nrows duplicados_parciales) cols
            (ejemplo_duplicados duplicados_parciales (cells kp)))
    else Ok (SinDuplicadosParciales duplicates)
  else Ok ColumnaNoEncontrada.
End Chequeo.

(* ------------------------------------------------------------------ *)
(** ** Definitions the statements use *)



(** The call returns the number [q]. *)
Definition returns_number (r : result value) (q : Q) : Prop :=
  match r with
  | Ok v =>
      match as_float v with
      | Some (Fin q') => q' == q
      | _ => False
      end
  | Raise _ => False
  end.

(** The value [manejar_nulos] of the final cleaning fills a column of the
    given dtype with. *)
Definition fill_value (t : dtype) : value :=
  if LimpiezaFinal.is_numeric t then VInt 0 else VStr Limpieza.Desconocido.

(** The token the specification names for the fill of categorical columns. *)
Definition unknown : str := lit "unknown".

(** A number that is not negative. *)
Definition nonneg_cell (v : value) : Prop :=
  exists f, as_float v = Some f /\ float_ge0 f = true.

(** A column of a frame of two rows that differ in the column labelled [n]
    only: under that label two values that are present and different, under
    any other label one value twice (or two nulls). *)
Definition differ_only_in (n : str) (c : column) : Prop :=
  exists x y,
    cells c = [x; y]
    /\ if str_eqb (col_name c) n
       then notnull x = true /\ notnull y = true /\ same_value x y = false
       else same_value x y = true.

Section FloatText.
Context {U : UnicodeData}.

(** The ASCII code point [float] reads for a digit; other code points as
    they are. *)
Definition ascii_digit_of (c : N) : N :=
  match decimal c with
  | Some d => (48 + d)%N
  | None => c
  end.

(** What group 1 of the regular expression is made of. *)
Definition num_char (c : N) : Prop := is_decimal c = true \/ c = 46%N.
End FloatText.

(** One column after its turn in the loop. *)
Definition filled (c : column) : column :=
  Column (col_name c)
         (if LimpiezaFinal.is_numeric (col_dtype c) then col_dtype c else Object)
         (fillna (fill_value (col_dtype c)) (cells c)).

(** The frame after the loop has visited the labels [ns]. *)
Definition filled_frame (ns : list str) (df : DataFrame) : DataFrame :=
  map (fun c => if mem (col_name c) ns then filled c else c) df.

(** The dtype of the column labelled [n]. *)
Definition dtype_of (df : DataFrame) (n : str) : dtype :=
  match get_column df n with
  | Ok c => col_dtype c
  | Raise _ => Object
  end.

(** A cell of a rebuilt column: a timestamp or the null [NaT]. *)
Definition date_or_null (v : value) : Prop :=
  v = VNaT \/ exists y m d h mi, v = VDate y m d h mi.

(** The code point of the digit [k], and the texts of a number of two and
    of four digits. *)
Definition digit_char (k : Z) : N := Z.to_N (48 + k).

Definition two_chars (k : Z) : str :=
  [digit_char (k / 10); digit_char (k mod 10)].

Definition four_chars (y : Z) : str :=
  two_chars (y / 100) ++ two_chars (y mod 100).

(** The decimal numeral of a text of ASCII digits. *)
Definition dig (c : N) (l : Decimal.uint) : Decimal.uint :=
  match c with
  | 48 => Decimal.D0 l
  | 49 => Decimal.D1 l
  | 50 => Decimal.D2 l
  | 51 => Decimal.D3 l
  | 52 => Decimal.D4 l
  | 53 => Decimal.D5 l
  | 54 => Decimal.D6 l
  | 55 => Decimal.D7 l
  | 56 => Decimal.D8 l
  | 57 => Decimal.D9 l
  | _ => Decimal.Nil
  end%N.

Definition uint_of_digits (s : str) : Decimal.uint :=
  fold_right dig Decimal.Nil s.

Section DateChecks.
Context {U : UnicodeData}.

(** The first of the ways [cands] to read a directive after which the rest
    of the format [k] matches. *)
Fixpoint try_cands (k : Z -> str -> option (fields * str))
    (cands : list (Z * str)) : option (fields * str) :=
  match cands with
  | [] => None
  | (v, r) :: more =>
      match k v r with
      | Some x => Some x
      | None => try_cands k more
      end
  end.

(** What [%Y] reads in four code points. *)
Definition year_value (a b c e : N) : option Z :=
  match two_digits a b, two_digits c e with
  | Some x, Some y => Some (100 * x + y)%Z
  | _, _ => None
  end.

(** [%Y] reads the four digits of the year [1000 + n] as that year. *)
Definition year_parsed (n : nat) : bool :=
  let y := (1000 + Z.of_nat n)%Z in
  match four_chars y with
  | [a; b; c; e] =>
      match year_value a b c e with
      | Some v => (v =? y)%Z
      | None => false
      end
  | _ => false
  end.

(** The first match of [%m%d]: the first way to read a month after which
    a day can be read, with the first way to read that day. *)
Fixpoint first_day (cands : list (Z * str)) : option (Z * Z * str) :=
  match cands with
  | [] => None
  | (m, r) :: more =>
      match candidates Dd r with
      | (d, r') :: _ => Some (m, d, r')
      | [] => first_day more
      end
  end.

Definition month_day (s : str) : option (Z * Z * str) :=
  first_day (candidates Dm s).

(** [%m%d] on the two digits of a month [n / 100] and the two digits of a
    day [n mod 100]: a month from 1 to 12 with a day from 1 to 31 is read
    as such to the end of the text; on any other pair the match fails or
    leaves text over. *)
Definition mmdd_parsed (n : nat) : bool :=
  let m := (Z.of_nat n / 100)%Z in
  let d := (Z.of_nat n mod 100)%Z in
  match month_day (two_chars m ++ two_chars d) with
  | Some (m', d', []) => ((m' =? m) && (d' =? d))%Z
  | _ => negb ((1 <=? m) && (m <=? 12) && (1 <=? d) && (d <=? 31))%Z
  end.
End DateChecks.

(** The text of a day below 100, filled to two digits. *)
Definition day_text (n : nat) : bool :=
  str_eqb (zfill 2 (str_of_Z (Z.of_nat n))) (two_chars (Z.of_nat n)).

(** A row of the joined frame [joined key lcols rcols idx]: the left row,
    then the cells of the right row, or of no row. *)
Definition joined_row (lcols rcols : DataFrame)
    (idx : list (nat * option nat)) (e : nat * option nat) : list value :=
  row_at lcols (fst e)
  ++ map (fun c => right_cell (has_unmatched idx) c (snd e)) rcols.

(** The cells a left join on [EVENT_ID] takes from row [j] of the right
    frame, the key apart, or from no row: [lk] and [rk] are the keys of the
    two frames. *)
Definition right_row (lk rk : list value) (right : DataFrame)
    (j : option nat) : list value :=
  map (fun c => right_cell (has_unmatched (left_join_indexers lk rk)) c j)
      (non_key EVENT_ID right).

(** The labels of a joined frame. *)
Definition joined_labels (key : str) (llabels rlabels : list str) : list str :=
  map (suffixed key rlabels (lit "_x")) llabels
  ++ map (suffixed key llabels (lit "_y")) rlabels.

(** Whether one of the two joins of line 225 is refused for its suffixes,
    on frames of details and fatalities that have rows. *)
Definition joins_refused (detalles_df fatalidades_df lugares_df : DataFrame)
  : bool :=
  let fl := columns (non_key EVENT_ID fatalidades_df) in
  suffixes_refused EVENT_ID (columns detalles_df) fl
  || suffixes_refused EVENT_ID
       (joined_labels EVENT_ID (columns detalles_df) fl)
       (columns (non_key EVENT_ID lugares_df)).

(** Whether the join of [left] and [right] is refused for its suffixes. *)
Definition join_refused (key : str) (left right : DataFrame) (lk : column)
  : bool :=
  suffixes_refused key (columns (fst (join_sides key left right lk)))
    (columns (snd (join_sides key left right lk))).

(** The keys [drop_duplicates] keeps: the first cell of each value. *)
Definition first_keys (ks : list value) : list value :=
  select (map negb (duplicated_first [] ks)) ks.

(** The key column of a joined frame, from the keys of the two frames. *)
Definition joined_keys (lk rk : list value) : list value :=
  take_left (left_join_indexers lk rk) lk.

(** The cell [a] of a joined frame is the cell [b] of the right frame, an
    integer written as a float. *)
Definition joined_cell (a b : value) : Prop :=
  a = b \/ exists z, b = VInt z /\ a = VFloat (round64 (inject_Z z)).

(** The nulls of a column are of one kind. *)
Definition one_null_kind (cs : list value) : bool :=
  match filter isnull cs with
  | [] => true
  | x :: r => forallb (fun y => (null_kind y =? null_kind x)%N) r
  end.

(* ------------------------------------------------------------------ *)
(** ** Inputs of the examples *)

(** The column name [Begin Lat (°)], with the degree sign U+00B0. *)
Definition begin_lat_degrees : str := lit "Begin Lat (" ++ [176%N] ++ lit ")".

(** A frame of four rows: [A] is half null, [B] is three quarters null and
    [C] has no null. *)
Definition half_null : column :=
  Column (lit "A") Float64 [nan; VFloat (Fin 1); nan; VFloat (Fin 2)].

Definition mostly_null : column :=
  Column (lit "B") Object [VStr (lit "x"); nan; nan; nan].

Definition no_null : column :=
  Column (lit "C") Int64 [VInt 1; VInt 2; VInt 3; VInt 4].

Definition nulls_frame : DataFrame := [half_null; mostly_null; no_null].

(** Three fatalities of one event: an age and a sex are missing. *)
Definition fatalities_example : DataFrame :=
  [Column (lit "FATALITY_ID") Int64 [VInt 1; VInt 2; VInt 3];
   Column EVENT_ID Int64 [VInt 7; VInt 7; VInt 7];
   Column Limpieza.FATALITY_AGE Float64 [VFloat (Fin 30); nan; VFloat (Fin 62)];
   Column Limpieza.FATALITY_SEX Object [VStr (lit "M"); VStr (lit "F"); nan]].

(** Two events: 15 March 2024 at 09:30, and the impossible 31 February
    2023 at the impossible hour 25:00. *)
Definition dates_example : DataFrame :=
  [Column EVENT_ID Int64 [VInt 1; VInt 2];
   Column (lit "BEGIN_YEARMONTH") Int64 [VInt 202403; VInt 202302];
   Column (lit "BEGIN_DAY") Int64 [VInt 15; VInt 31];
   Column (lit "BEGIN_TIME") Int64 [VInt 930; VInt 2500]].

(** A details frame after parsing: a negative value in each damage column. *)
Definition damages_example : DataFrame :=
  [Column EVENT_ID Int64 [VInt 1; VInt 2];
   Column Limpieza.DAMAGE_PROPERTY Float64 [VFloat (Fin 100); VFloat (Fin (-5))];
   Column Limpieza.DAMAGE_CROPS Float64 [VFloat (Fin (-3)); VFloat (Fin 7)]].

Definition E1 : value := VStr (lit "E1").

(** Two rows of the merged file for event [E1] that differ in the age of
    the fatality only. *)
Definition duplicates_example : DataFrame :=
  [Column EVENT_ID Object [E1; E1];
   Column (lit "STATE") Object [VStr (lit "TEXAS"); VStr (lit "TEXAS")];
   Column Limpieza.FATALITY_AGE Float64 [VFloat (Fin 30); VFloat (Fin 62)];
   Column (lit "MAGNITUDE") Float64 [nan; nan]].

(** The same two rows when the second age is missing. *)
Definition duplicates_null_example : DataFrame :=
  [Column EVENT_ID Object [E1; E1];
   Column (lit "STATE") Object [VStr (lit "TEXAS"); VStr (lit "TEXAS")];
   Column Limpieza.FATALITY_AGE Float64 [VFloat (Fin 30); nan];
   Column (lit "MAGNITUDE") Float64 [nan; nan]].

(** One event [E1] among the details, three fatalities for it, and two
    location rows for it of which the cleaning keeps the first. *)
Definition details_example : DataFrame :=
  [Column EVENT_ID Object [VStr (lit "E0"); E1];
   Column (lit "STATE") Object [VStr (lit "OHIO"); VStr (lit "TEXAS")]].

Definition fatalities_E1 : DataFrame :=
  [Column (lit "FATALITY_ID") Int64 [VInt 10; VInt 11; VInt 12; VInt 13];
   Column EVENT_ID Object [E1; VStr (lit "E9"); E1; E1];
   Column Limpieza.FATALITY_AGE Float64
     [VFloat (Fin 30); VFloat (Fin 41); VInt (-1); VFloat (Fin 62)]].

Definition locations_example : DataFrame :=
  [Column EVENT_ID Object [E1; E1; VStr (lit "E0")];
   Column (lit "LOCATION") Object
     [VStr (lit "AUSTIN"); VStr (lit "DALLAS"); VStr (lit "AKRON")];
   Column (lit "LAT2") Float64 [VFloat (Fin 30); VFloat (Fin 32); VFloat (Fin 41)]].

(* ------------------------------------------------------------------ *)
(** ** A Unicode table for the examples *)

(** A few rows of the Unicode character database, enough to run examples:
    some accented Latin-1 letters with their case pairs and decompositions,
    the combining marks they use, the ordinal indicators, the no-break
    space and the Arabic-Indic digits.  Every other code point is left
    caseless and undecomposed, which is what the database says of the degree
    sign U+00B0. *)
Definition excerpt_lower (c : N) : N :=
  match c with
  | 193 => 225 | 201 => 233 | 205 => 237 | 209 => 241
  | 211 => 243 | 218 => 250 | 220 => 252 | _ => c
  end%N.

Definition excerpt_upper (c : N) : N :=
  match c with
  | 225 => 193 | 233 => 201 | 237 => 205 | 241 => 209
  | 243 => 211 | 250 => 218 | 252 => 220 | _ => c
  end%N.

Definition excerpt_decomp (c : N) : str :=
  match c with
  | 160 => [32] | 170 => [97] | 186 => [111]
  | 193 => [65; 769] | 201 => [69; 769] | 205 => [73; 769]
  | 209 => [78; 771] | 211 => [79; 769] | 218 => [85; 769]
  | 220 => [85; 776]
  | 225 => [97; 769] | 233 => [101; 769] | 237 => [105; 769]
  | 241 => [110; 771] | 243 => [111; 769] | 250 => [117; 769]
  | 252 => [117; 776]
  | _ => [c]
  end%N.

Definition excerpt_decimal (c : N) : option N :=
  if in_range 1632 1641 c then Some (c - 1632)%N else None.

Lemma excerpt_decimal_digit c d : excerpt_decimal c = Some d -> (d < 10)%N.
Proof.
  unfold excerpt_decimal, in_range.
  destruct (N.leb_spec 1632 c), (N.leb_spec c 1641); simpl;
    intros [= <-] || discriminate; lia.
Qed.

Lemma excerpt_decimal_not_space c :
  is_space c = true -> excerpt_decimal c = None.
Proof.
  unfold excerpt_decimal, in_range.
  destruct (N.leb_spec 1632 c), (N.leb_spec c 1641); simpl; try reflexivity.
  intros Hs. exfalso. revert Hs. unfold is_space, in_range.
  repeat match goal with
         | |- context [(?a <=? ?b)%N] => destruct (N.leb_spec a b); simpl
         | |- context [(?a =? ?b)%N] => destruct (N.eqb_spec a b); simpl
         end; try discriminate; lia.
Qed.

Definition excerpt : UnicodeData := {|
  unicode_lower := fun _ c _ => [excerpt_lower c];
  unicode_upper := fun c => [excerpt_upper c];
  unicode_decimal := excerpt_decimal;
  unicode_decomp := excerpt_decomp;
  unicode_ccc := fun c =>
    match c with 769 | 771 | 776 => 230 | _ => 0 end%N;
  unicode_decimal_digit := excerpt_decimal_digit;
  unicode_decimal_not_space := excerpt_decimal_not_space
|}.

(** The rule for join keys of two dtypes, for the examples: the refusal of
    a key of texts against a key of numbers; any other pair goes on as it
    stands, which is what pandas does with integers against floats.  The
    examples join keys of one dtype, where no rule is consulted. *)
Definition excerpt_key_mismatch (lk rk : column) : result (column * column) :=
  if (text_key lk && number_key rk) || (number_key lk && text_key rk)
  then Raise ValueError
  else Ok (lk, rk).

Lemma excerpt_key_mismatch_ValueError (lk rk : column) (e : exc) :
  excerpt_key_mismatch lk rk = Raise e -> e = ValueError.
Proof.
  unfold excerpt_key_mismatch. destruct (_ || _); [|discriminate].
  now intros [= <-].
Qed.

Lemma excerpt_key_mismatch_text (lk rk : column) :
  text_key lk = true -> number_key rk = true ->
  excerpt_key_mismatch lk rk = Raise ValueError
  /\ excerpt_key_mismatch rk lk = Raise ValueError.
Proof.
  intros Hl Hr. unfold excerpt_key_mismatch. rewrite Hl, Hr.
  now rewrite orb_true_r.
Qed.

Definition excerpt_keys : MergeKeys := {|
  key_mismatch := excerpt_key_mismatch;
  key_mismatch_ValueError := excerpt_key_mismatch_ValueError;
  key_mismatch_text := excerpt_key_mismatch_text
|}.

(* ------------------------------------------------------------------ *)
(** ** Definitions the further statements use *)

(** What [limpiar_detalles] makes of a damage cell: a text becomes what
    [convertir_damage] returns for it, which is a number; a null becomes
    the number 0; any other value stays. *)
Definition damage_cleaned {U : UnicodeData} (v v' : value) : Prop :=
  match v with
  | VStr s =>
      Limpieza.convertir_damage (VStr s) = Ok v'
      /\ exists x, as_float v' = Some x
  | _ => if isnull v then returns_number (Ok v') 0 else v' = v
  end.


(** A cell as [read_csv] gives it: a text, a number, a boolean or a null,
    not a timestamp or a time of day. *)
Definition csv_cell (v : value) : bool :=
  match v with
  | VDate _ _ _ _ _ | VTime _ _ => false
  | _ => true
  end.

(** A cell that [>=] can compare with 0. *)
Definition numeric_cell (v : value) : Prop := exists x, as_float v = Some x.


(** The damage columns of a details file as [read_csv] gives them: texts
    with and without a suffix, a negative one, one that is no number, and
    missing cells. *)
Definition damage_texts_example : DataFrame :=
  [Column EVENT_ID Int64 [VInt 1; VInt 2; VInt 3];
   Column Limpieza.DAMAGE_PROPERTY Object
     [VStr (lit "10K"); nan; VStr (lit "-5")];
   Column Limpieza.DAMAGE_CROPS Object
     [VStr (lit "2.5M"); VStr (lit "abc"); nan]].


(** Two fatalities, the second without a known location. *)
Definition fatalities_location_example : DataFrame :=
  [Column EVENT_ID Int64 [VInt 7; VInt 8];
   Column Limpieza.FATALITY_AGE Float64 [VFloat (Fin 30); nan];
   Column Limpieza.FATALITY_SEX Object [VStr (lit "M"); VStr (lit "F")];
   Column Limpieza.FATALITY_LOCATION Object [VStr (lit " In Water "); nan]].


(** The number of [True] in a boolean series: [series.sum()], and the
    length of [df[series]]. *)
Definition count_true (bs : list bool) : nat :=
  List.length (filter (fun b : bool => b) bs).

(** Every column of the frame has as many cells as the frame has rows. *)
Definition rectangular (df : DataFrame) : Prop :=
  forall c, In c df -> List.length (cells c) = nrows df.


(** The value [k] stands on more than one row of [ks]. *)
Definition repeated (ks : list value) (k : value) : bool :=
  (1 <? List.length (filter (same_key k) ks))%nat.


(** The factor a suffix letter stands for, in either case: [K], [M], [B]. *)
Definition suffix_factor (c : N) : option Z :=
  if (c =? 75)%N || (c =? 107)%N then Some 1000%Z
  else if (c =? 77)%N || (c =? 109)%N then Some 1000000%Z
  else if (c =? 66)%N || (c =? 98)%N then Some 1000000000%Z
  else None.


(** The time of day an integer [HHMM] stands for, [NaT] when the hour or
    the minute does not exist or the cell is no integer. *)
Definition time_of_hhmm (v : value) : value :=
  match v with
  | VInt t =>
      if ((t / 100 <? 24) && (t mod 100 <? 60))%Z
      then VTime (t / 100) (t mod 100)
      else VNaT
  | _ => VNaT
  end.

(** An integer of at most four digits. *)
Definition hhmm_cell (v : value) : Prop :=
  exists t, v = VInt t /\ (0 <= t < 10000)%Z.

(** [to_datetime(..., format='%H%M', errors='coerce')] on the four-digit
    text of [n] gives the time [n] stands for, on the first of January
    1900, or [NaT]. *)
Definition hhmm_parsed {U : UnicodeData} (n : nat) : bool :=
  let t := Z.of_nat n in
  match to_datetime_cell [DH; DM] ErrorsCoerce (zfill 4 (str_of_Z t)) with
  | Ok (VDate y m d h mi) =>
      ((y =? 1900) && (m =? 1) && (d =? 1) && (h =? t / 100)
       && (mi =? t mod 100) && (t / 100 <? 24) && (t mod 100 <? 60))%Z
  | Ok VNaT => negb ((t / 100 <? 24) && (t mod 100 <? 60))%Z
  | _ => false
  end.


(** The code points of a plain header: ASCII letters and digits, the
    underscore and the blank. *)
Definition is_plain_char (c : N) : bool :=
  is_ascii_upper c || is_ascii_lower c || is_ascii_digit c
  || (c =? 95)%N || (c =? 32)%N.

(** A blank becomes an underscore, a capital its small letter. *)
Definition normalized_char (c : N) : N :=
  if (c =? 32)%N then 95%N else ascii_lower_char c.

(* ================================================================== *)
(** * Properties *)

(** ** Booleans of code points as arithmetic *)

Ltac code_points :=
  unfold is_token_char, is_space, is_ascii_lower, is_ascii_upper,
    is_ascii_digit, is_ascii, is_c_space, in_range in *;
  repeat match goal with
         | H : _ || _ = true |- _ => apply orb_true_iff in H; destruct H
         | H : _ && _ = true |- _ => apply andb_true_iff in H; destruct H
         | H : (_ <=? _)%N = true |- _ => apply N.leb_le in H
         | H : (_ <? _)%N = true |- _ => apply N.ltb_lt in H
         | H : (_ =? _)%N = true |- _ => apply N.eqb_eq in H
         end.

Ltac decide_code_point :=
  repeat match goal with
         | |- context [(?a <=? ?b)%N] => destruct (N.leb_spec a b); simpl
         | |- context [(?a <? ?b)%N] => destruct (N.ltb_spec a b); simpl
         | |- context [(?a =? ?b)%N] => destruct (N.eqb_spec a b); simpl
         end; try reflexivity; try lia.

Lemma str_eqb_eq (a b : str) : str_eqb a b = true <-> a = b.
Proof.
  unfold str_eqb. destruct (list_eq_dec N.eq_dec a b); split; congruence.
Qed.

Lemma str_eqb_refl (a : str) : str_eqb a a = true.
Proof. now apply str_eqb_eq. Qed.

Lemma filter_id {A} (p : A -> bool) (l : list A) :
  Forall (fun x => p x = true) l -> filter p l = l.
Proof.
  induction 1 as [|x l Hx _ IH]; simpl; [reflexivity|].
  now rewrite Hx, IH.
Qed.

Lemma filter_Forall {A} (p : A -> bool) (l : list A) :
  Forall (fun x => p x = true) (filter p l).
Proof.
  apply Forall_forall. intros x Hx. now apply filter_In in Hx.
Qed.

Lemma token_is_ascii c : is_token_char c = true -> is_ascii c = true.
Proof. intros H. code_points; decide_code_point. Qed.

Lemma token_not_space c : is_token_char c = true -> is_space c = false.
Proof. intros H. code_points; decide_code_point. Qed.

Lemma token_not_upper c : is_token_char c = true -> is_ascii_upper c = false.
Proof. intros H. code_points; decide_code_point. Qed.

Lemma token_not_blank c : is_token_char c = true -> (c =? 32)%N = false.
Proof. intros H. code_points; decide_code_point. Qed.

Section StringFacts.
Context {U : UnicodeData}.

Lemma ascii_ccc c : is_ascii c = true -> ccc c = 0%N.
Proof. unfold ccc. now intros ->. Qed.

(** Canonical ordering moves combining marks only: what a filter on
    starters keeps is not touched. *)
Lemma filter_reorder_insert (p : N -> bool) c l :
  (forall x, p x = true -> ccc x = 0%N) ->
  filter p (reorder_insert c l) = filter p (c :: l).
Proof.
  intros Hp. induction l as [|d l IH]; [reflexivity|].
  cbn [reorder_insert].
  destruct ((0 <? ccc d) && (ccc d <? ccc c))%N eqn:E; [|reflexivity].
  apply andb_true_iff in E. destruct E as [E1 E2].
  apply N.ltb_lt in E1, E2.
  assert (p d = false) as Hd.
  { destruct (p d) eqn:Pd; [|reflexivity]. apply Hp in Pd. lia. }
  assert (p c = false) as Hc.
  { destruct (p c) eqn:Pc; [|reflexivity]. apply Hp in Pc. lia. }
  cbn [filter] in *. rewrite Hd, Hc in *. now rewrite IH.
Qed.

Lemma filter_canonical_order (p : N -> bool) l :
  (forall x, p x = true -> ccc x = 0%N) ->
  filter p (canonical_order l) = filter p l.
Proof.
  intros Hp. induction l as [|c l IH]; [reflexivity|].
  cbn [canonical_order fold_right]. rewrite filter_reorder_insert by exact Hp.
  cbn [filter]. fold (canonical_order l). now rewrite IH.
Qed.

(** The normalizer as one pass: what survives is the token characters of
    the decompositions. *)
Lemma normalizar_unfold col :
  Preprocesamiento.normalizar_nombre_columna col =
  filter is_token_char
    (filter is_ascii
       (flat_map decomp (replace_space (py_lower (py_strip col))))).
Proof.
  unfold Preprocesamiento.normalizar_nombre_columna, re_sub_non_token,
    encode_ascii_ignore, nfkd.
  rewrite filter_canonical_order by apply ascii_ccc. reflexivity.
Qed.

Lemma lstrip_token t :
  Forall (fun c => is_token_char c = true) t -> lstrip t = t.
Proof.
  destruct 1 as [|c t Hc _]; [reflexivity|].
  simpl. now rewrite (token_not_space _ Hc).
Qed.

Lemma py_strip_token t :
  Forall (fun c => is_token_char c = true) t -> py_strip t = t.
Proof.
  intros H. unfold py_strip, rstrip. rewrite (lstrip_token H).
  rewrite lstrip_token by now apply Forall_rev.
  apply rev_involutive.
Qed.

Lemma lower_from_token before t :
  Forall (fun c => is_token_char c = true) t -> lower_from before t = t.
Proof.
  intros H. revert before.
  induction H as [|c t Hc _ IH]; intros before; [reflexivity|].
  cbn [lower_from]. unfold lower_char.
  rewrite (token_is_ascii _ Hc), (token_not_upper _ Hc), IH. reflexivity.
Qed.

Lemma replace_space_token t :
  Forall (fun c => is_token_char c = true) t -> replace_space t = t.
Proof.
  induction 1 as [|c t Hc _ IH]; [reflexivity|].
  unfold replace_space in *. cbn [map].
  now rewrite (token_not_blank _ Hc), IH.
Qed.

Lemma flat_map_decomp_token t :
  Forall (fun c => is_token_char c = true) t -> flat_map decomp t = t.
Proof.
  induction 1 as [|c t Hc _ IH]; [reflexivity|].
  cbn [flat_map]. unfold decomp at 1.
  now rewrite (token_is_ascii _ Hc), IH.
Qed.

Lemma normalizar_token t :
  Forall (fun c => is_token_char c = true) t ->
  Preprocesamiento.normalizar_nombre_columna t = t.
Proof.
  intros H. rewrite normalizar_unfold.
  rewrite (py_strip_token H). unfold py_lower.
  rewrite (lower_from_token [] H), (replace_space_token H),
    (flat_map_decomp_token H).
  rewrite (filter_id is_ascii).
  - now apply filter_id.
  - eapply Forall_impl; [|exact H]. apply token_is_ascii.
Qed.
End StringFacts.

(** C9. Column-name normalization is idempotent: for every string [x] and
    whatever the Unicode tables say outside ASCII,
    [normalize (normalize x) = normalize x]. *)
Theorem normalizar_nombre_columna_idempotent (U : UnicodeData) (x : str) :
  Preprocesamiento.normalizar_nombre_columna
    (Preprocesamiento.normalizar_nombre_columna x)
  = Preprocesamiento.normalizar_nombre_columna x.
Proof.
  apply normalizar_token.
  unfold Preprocesamiento.normalizar_nombre_columna, re_sub_non_token.
  apply filter_Forall.
Qed.

Section DegreeSign.
Context {U : UnicodeData}.

(** Whatever the tables say of the degree sign, the name keeps the
    underscore that stood for the space before the bracket. *)
Lemma normalizar_begin_lat_prefix :
  exists rest,
    Preprocesamiento.normalizar_nombre_columna begin_lat_degrees
    = lit "begin_lat_" ++ rest.
Proof.
  rewrite normalizar_unfold.
  change (py_strip begin_lat_degrees) with begin_lat_degrees.
  unfold py_lower, begin_lat_degrees.
  set (low := unicode_lower (rev (lit "Begin Lat (")) 176%N (lit ")")).
  assert (lower_from [] (lit "Begin Lat (" ++ [176%N] ++ lit ")")
          = lit "begin lat (" ++ low ++ lit ")") as ->.
  { reflexivity. }
  unfold replace_space.
  rewrite map_app, flat_map_app, !filter_app.
  eexists. reflexivity.
Qed.
End DegreeSign.

(** C4, as stated, fails: no Unicode table makes the normalized name of
    [Begin Lat (°)] equal to [begin_lat]. *)
Lemma normalizar_begin_lat_counterexample :
  ~ exists U : UnicodeData,
      @Preprocesamiento.normalizar_nombre_columna U begin_lat_degrees
      = lit "begin_lat".
Proof.
  intros [U H].
  destruct (@normalizar_begin_lat_prefix U) as [rest E].
  rewrite E in H. apply (f_equal (@List.length N)) in H.
  rewrite length_app in H. cbn in H. lia.
Qed.

(** C4, amended. With the degree sign caseless and without decomposition
    (as the Unicode database has it), [Begin Lat (°)] is normalized to
    [begin_lat_]; and for every input the output holds characters of
    [[a-z0-9_]] only. *)
Theorem normalizar_nombre_columna_charset (U : UnicodeData) :
  (forall before after, unicode_lower before 176%N after = [176%N]) ->
  unicode_decomp 176%N = [176%N] ->
  Preprocesamiento.normalizar_nombre_columna begin_lat_degrees
  = lit "begin_lat_"
  /\ forall col,
       Forall (fun c => is_token_char c = true)
              (Preprocesamiento.normalizar_nombre_columna col).
Proof.
  intros Hlower Hdecomp. split.
  - rewrite normalizar_unfold.
    change (py_strip begin_lat_degrees) with begin_lat_degrees.
    unfold py_lower, begin_lat_degrees.
    assert (lower_from [] (lit "Begin Lat (" ++ [176%N] ++ lit ")")
            = lit "begin lat (" ++ [176%N] ++ lit ")") as ->.
    { cbn. rewrite Hlower. reflexivity. }
    cbn. rewrite Hdecomp. reflexivity.
  - intros col. unfold Preprocesamiento.normalizar_nombre_columna,
      re_sub_non_token. apply filter_Forall.
Qed.

Lemma normalizar_nombre_columna_charset_witness :
  @Preprocesamiento.normalizar_nombre_columna excerpt begin_lat_degrees
  = lit "begin_lat_"
  /\ forall col,
       Forall (fun c => is_token_char c = true)
              (@Preprocesamiento.normalizar_nombre_columna excerpt col).
Proof.
  apply (@normalizar_nombre_columna_charset excerpt); reflexivity.
Defined.

(** ** [float] on the text the regular expression captured *)

Unset Implicit Arguments.

Lemma span_app (p : N -> bool) (a b : str) :
  Forall (fun c => p c = true) a ->
  match b with [] => True | c :: _ => p c = false end ->
  span p (a ++ b) = (a, b).
Proof.
  intros Ha Hb. induction Ha as [|c a Hc _ IH]; simpl.
  - destruct b as [|c b]; simpl in *; [reflexivity|]. now rewrite Hb.
  - now rewrite Hc, IH.
Qed.

Lemma span_all (p : N -> bool) (a : str) :
  Forall (fun c => p c = true) a -> span p a = (a, []).
Proof.
  intros Ha. rewrite <- (app_nil_r a) at 1. now apply span_app.
Qed.

Lemma span_split (p : N -> bool) (s : str) :
  s = fst (span p s) ++ snd (span p s)
  /\ Forall (fun c => p c = true) (fst (span p s)).
Proof.
  induction s as [|c s [IH1 IH2]]; simpl; [now split|].
  destruct (p c) eqn:E; [|now split].
  destruct (span p s) as [a b]. simpl in *. split; [now f_equal|].
  now constructor.
Qed.

Lemma span_none (p : N -> bool) (s : str) :
  Forall (fun c => p c = false) s -> snd (span p s) = s.
Proof. destruct 1 as [|c s Hc _]; simpl; [reflexivity|]. now rewrite Hc. Qed.

Lemma digits_value_nonneg (s : str) : (0 <= digits_value s)%Z.
Proof.
  unfold digits_value.
  assert (forall acc, 0 <= acc -> 0 <= fold_left
            (fun a c => 10 * a + Z.of_N (c - 48)) s acc)%Z as H.
  { induction s as [|c s IH]; intros acc Hacc; cbn [fold_left]; [exact Hacc|].
    apply IH. lia. }
  apply H. lia.
Qed.

Lemma scale10_nonneg (m e : Z) : (0 <= m)%Z -> 0 <= scale10 m e.
Proof.
  intros Hm. unfold scale10. destruct (0 <=? e)%Z eqn:E.
  - apply Z.leb_le in E. unfold Qle, inject_Z. simpl.
    assert (0 <= 10 ^ e)%Z by (apply Z.pow_nonneg; lia). nia.
  - unfold Qle. simpl. lia.
Qed.

Lemma strip_underscores_none (prev : N) (s : str) :
  prev <> 95%N -> Forall (fun c => c <> 95%N) s ->
  strip_underscores prev s = Some s.
Proof.
  intros Hp Hs. revert prev Hp.
  induction Hs as [|c s Hc _ IH]; intros prev Hp; simpl.
  - now destruct (N.eqb_spec prev 95).
  - destruct (N.eqb_spec c 95); [contradiction|].
    destruct (N.eqb_spec prev 95); [contradiction|]. simpl.
    now rewrite IH.
Qed.

(** An unsigned decimal of ASCII digits parses to a number that is not
    negative. *)
Lemma parse_float_text_number (d1 d2 tail : str) :
  d1 <> [] ->
  Forall (fun c => is_ascii_digit c = true) d1 ->
  Forall (fun c => is_ascii_digit c = true) d2 ->
  tail = [] /\ d2 = [] \/ tail = 46%N :: d2 ->
  exists q, parse_float_text (d1 ++ tail) = Some (Fin q) /\ 0 <= q.
Proof.
  intros Hne H1 H2 Htail.
  destruct d1 as [|c d1]; [contradiction|]. clear Hne.
  pose proof (Forall_inv H1) as Hc.
  assert (parse_decimal ((c :: d1) ++ tail)
          = Some (scale10 (digits_value ((c :: d1) ++ d2))
                    (0 - Z.of_nat (List.length d2)))) as Hdec.
  { unfold parse_decimal. rewrite (span_app is_ascii_digit (c :: d1) tail).
    - destruct Htail as [[-> ->]| ->]; [reflexivity|].
      rewrite (span_all _ _ H2). reflexivity.
    - exact H1.
    - destruct Htail as [[-> _]| ->]; [exact I|reflexivity]. }
  unfold parse_float_text.
  assert (split_sign ((c :: d1) ++ tail) = (false, (c :: d1) ++ tail)) as ->.
  { simpl. code_points.
    destruct c as [|p]; [lia|].
    do 6 (destruct p as [p|p|]; try reflexivity; try lia). }
  assert (forall w, (w = lit "inf" \/ w = lit "infinity" \/ w = lit "nan") ->
                    str_eqb (map ascii_lower_char ((c :: d1) ++ tail)) w = false)
    as Hw.
  { intros w Hwd. destruct (str_eqb _ w) eqn:E; [|reflexivity].
    apply str_eqb_eq in E. exfalso.
    assert (ascii_lower_char c = 105%N \/ ascii_lower_char c = 110%N) as Hl.
    { destruct Hwd as [->|[->| ->]]; injection E; intros; auto. }
    unfold ascii_lower_char in Hl. code_points.
    revert Hl. decide_code_point; lia. }
  rewrite !Hw by auto. simpl orb. cbv iota. rewrite Hdec. simpl option_map.
  eexists. split; [reflexivity|].
  apply scale10_nonneg, digits_value_nonneg.
Qed.

(** ** Rounding to binary64 *)

Lemma round_half_even_nonneg (num den : Z) :
  (0 <= num)%Z -> (0 < den)%Z -> (0 <= round_half_even num den)%Z.
Proof.
  intros Hn Hd. unfold round_half_even.
  pose proof (Z.div_pos num den Hn Hd) as Hq.
  destruct (2 * (num mod den) <? den)%Z; [exact Hq|].
  destruct (den <? 2 * (num mod den))%Z; [lia|].
  destruct (Z.even (num / den)); lia.
Qed.

Lemma round_half_even_exact (num : Z) : round_half_even num 1 = num.
Proof.
  unfold round_half_even. rewrite Z.mod_1_r, Z.div_1_r. reflexivity.
Qed.

Lemma round64_pos_ge0 (a b : Z) :
  (0 < a)%Z -> (0 < b)%Z -> float_ge0 (round64_pos a b) = true.
Proof.
  intros Ha Hb. unfold round64_pos. cbv zeta.
  match goal with
  | |- float_ge0 (if ?c then PInf else Fin (Qred (Qmake (?m * ?p) ?d))) = true =>
      destruct c; [reflexivity|];
      assert (0 <= m)%Z as Hm;
      [|assert (0 <= p)%Z as Hp by (apply Z.pow_nonneg; lia)]
  end.
  - apply round_half_even_nonneg.
    + apply Z.mul_nonneg_nonneg; [lia|]. apply Z.pow_nonneg. lia.
    + apply Z.mul_pos_pos; [exact Hb|]. apply Z.pow_pos_nonneg; lia.
  - unfold float_ge0. apply Qle_bool_iff. rewrite Qred_correct.
    unfold Qle. cbn [Qnum Qden].
    rewrite Z.mul_0_l, Z.mul_1_r. now apply Z.mul_nonneg_nonneg.
Qed.

(** A float rounded from a number that is not negative is not negative:
    a number or the infinity. *)
Lemma round64_ge0 (q : Q) : 0 <= q -> float_ge0 (round64 q) = true.
Proof.
  intros Hq. unfold round64.
  assert (0 <= Qred q) as Hr by now rewrite Qred_correct.
  destruct (Qred q) as [n d]. cbn [Qnum Qden].
  destruct n as [|p|p].
  - reflexivity.
  - apply round64_pos_ge0; reflexivity.
  - unfold Qle in Hr. cbn [Qnum Qden] in Hr. lia.
Qed.

Lemma round64_pos_small (a : Z) :
  (0 < a < 2 ^ 53)%Z ->
  exists q, round64_pos a 1 = Fin q /\ q == inject_Z a.
Proof.
  intros [Ha Hb]. unfold round64_pos.
  change (Z.log2 1) with 0%Z. rewrite Z.sub_0_r.
  pose proof (Z.log2_nonneg a) as HL0.
  pose proof (proj1 (Z.log2_lt_pow2 a 53 Ha) Hb) as HL.
  destruct (Z.log2_spec a Ha) as [Hlo _].
  set (L := Z.log2 a) in *.
  rewrite (Z.max_r 0 L) by lia. rewrite (Z.max_l 0 (- L)) by lia.
  rewrite Z.pow_0_r, Z.mul_1_l, Z.mul_1_r.
  destruct (Z.leb_spec (2 ^ L) a) as [_|Hc]; [|lia].
  rewrite (Z.max_l L (-1022)) by lia.
  rewrite (Z.max_r 0 (- (L - 52))) by lia.
  rewrite (Z.max_l 0 (L - 52)) by lia.
  rewrite Z.pow_0_r, Z.mul_1_l, round_half_even_exact, Z.mul_1_r.
  set (t := (- (L - 52))%Z).
  assert (0 < 2 ^ t)%Z as Ht by (apply Z.pow_pos_nonneg; lia).
  assert (2 ^ t <= 2 ^ 52)%Z as Ht' by (apply Z.pow_le_mono_r; lia).
  assert (a * 2 ^ t < 2 ^ 53 * 2 ^ 52)%Z as Hlt by nia.
  assert (2 ^ 53 * 2 ^ 52 < 2 ^ 1024)%Z as Hbig.
  { rewrite <- Z.pow_add_r by lia. apply Z.pow_lt_mono_r; lia. }
  destruct (Z.leb_spec (2 ^ 1024) (a * 2 ^ t)) as [Hc|_]; [lia|].
  eexists. split; [reflexivity|]. rewrite Qred_correct.
  unfold Qeq. cbn [Qnum Qden inject_Z]. rewrite Z2Pos.id by exact Ht. lia.
Qed.

Lemma round64_pos_int (a : Z) :
  (0 < a <= 2 ^ 53)%Z ->
  exists q, round64_pos a 1 = Fin q /\ q == inject_Z a.
Proof.
  intros [Ha Hb]. destruct (Z.eq_dec a (2 ^ 53)) as [->|Hne].
  - eexists. split; [vm_compute; reflexivity|]. vm_compute. reflexivity.
  - apply round64_pos_small. lia.
Qed.

Lemma Qred_inject_Z (z : Z) : Qred (inject_Z z) = inject_Z z.
Proof.
  unfold Qred, inject_Z.
  pose proof (Z.ggcd_gcd z 1) as Hg.
  pose proof (Z.ggcd_correct_divisors z 1) as Hd.
  destruct (Z.ggcd z 1) as [g [aa bb]]. cbn [fst snd] in *.
  rewrite Z.gcd_1_r in Hg. subst g. destruct Hd as [Ha Hb].
  rewrite Z.mul_1_l in Ha, Hb. now subst.
Qed.

(** An integer up to [2 ^ 53] is a float. *)
Lemma round64_int (q : Q) (z : Z) :
  (0 <= z <= 2 ^ 53)%Z -> q == inject_Z z ->
  exists q', round64 q = Fin q' /\ q' == inject_Z z.
Proof.
  intros Hz Hq. unfold round64.
  rewrite (Qred_complete q (inject_Z z) Hq), Qred_inject_Z.
  cbn [inject_Z Qnum Qden]. destruct z as [|p|p].
  - exists 0. split; reflexivity.
  - apply round64_pos_int. lia.
  - lia.
Qed.

Lemma float_round_ge0 (q : Q) : 0 <= q -> float_ge0 (float_round (Fin q)) = true.
Proof. apply round64_ge0. Qed.

Lemma float_scale_ge0 (x : pyfloat) (k : Q) :
  float_ge0 x = true -> 0 <= k -> float_ge0 (float_scale x k) = true.
Proof.
  intros Hx Hk. destruct x as [q| | |]; try exact Hx. cbn [float_scale].
  apply round64_ge0. apply Qmult_le_0_compat; [|exact Hk].
  now apply Qle_bool_iff.
Qed.


Section FloatFacts.
Context {U : UnicodeData}.

Lemma decimal_digit c d : decimal c = Some d -> (d < 10)%N.
Proof.
  unfold decimal. destruct (is_ascii c).
  - destruct (is_ascii_digit c) eqn:E; [|discriminate].
    intros [= <-]. code_points. lia.
  - apply unicode_decimal_digit.
Qed.

Lemma ascii_digit_of_decimal c :
  is_decimal c = true -> is_ascii_digit (ascii_digit_of c) = true.
Proof.
  unfold is_decimal, ascii_digit_of. destruct (decimal c) as [d|] eqn:E;
    [|discriminate].
  intros _. apply decimal_digit in E. unfold is_ascii_digit, in_range.
  apply andb_true_iff. split; apply N.leb_le; lia.
Qed.

Lemma ascii_digit_of_point : ascii_digit_of 46 = 46%N.
Proof. reflexivity. Qed.

Lemma ascii_digit_of_ascii c :
  num_char c -> is_ascii c = true -> ascii_digit_of c = c.
Proof.
  intros [H| ->] Ha; [|reflexivity].
  unfold is_decimal, ascii_digit_of, decimal in *. rewrite Ha in *.
  destruct (is_ascii_digit c) eqn:E; [|discriminate].
  code_points. lia.
Qed.

Lemma float_transform_num_char c :
  num_char c -> float_transform c = Some (ascii_digit_of c).
Proof.
  intros Hc. unfold float_transform.
  destruct (N.ltb_spec c 127) as [Hlt|Hge].
  - rewrite ascii_digit_of_ascii; [reflexivity|exact Hc|].
    unfold is_ascii. apply N.ltb_lt. lia.
  - destruct Hc as [H| ->]; [|lia].
    unfold is_decimal, ascii_digit_of in *.
    destruct (decimal c) as [d|] eqn:E; [|discriminate].
    unfold decimal in E. destruct (is_ascii c) eqn:Ha.
    + destruct (is_ascii_digit c) eqn:Ed; [|discriminate]. code_points. lia.
    + destruct (is_space c) eqn:Es.
      * rewrite (unicode_decimal_not_space c Es) in E. discriminate.
      * reflexivity.
Qed.

Lemma transform_text_num (g : str) :
  Forall num_char g -> transform_text g = map ascii_digit_of g.
Proof.
  induction 1 as [|c g Hc _ IH]; [reflexivity|].
  cbn [transform_text map]. rewrite (float_transform_num_char c Hc).
  now rewrite IH.
Qed.

Lemma ascii_text_num (g : str) :
  Forall num_char g -> forallb is_ascii g = true -> map ascii_digit_of g = g.
Proof.
  induction 1 as [|c g Hc _ IH]; [reflexivity|].
  cbn [forallb map]. intros H. apply andb_true_iff in H. destruct H as [Ha Hg].
  now rewrite (ascii_digit_of_ascii c Hc Ha), IH.
Qed.

Lemma digits_ascii (d : str) :
  Forall (fun c => is_decimal c = true) d ->
  Forall (fun c => is_ascii_digit c = true) (map ascii_digit_of d).
Proof.
  induction 1 as [|c d Hc _ IH]; constructor; auto using ascii_digit_of_decimal.
Qed.

(** [float] never fails on what the regular expression captured, and the
    float it returns is not negative: a number, or the infinity when the
    digits overflow. *)
Lemma py_float_number (d1 d2 tail : str) :
  d1 <> [] ->
  Forall (fun c => is_decimal c = true) d1 ->
  Forall (fun c => is_decimal c = true) d2 ->
  tail = [] /\ d2 = [] \/ tail = 46%N :: d2 ->
  exists x, py_float (d1 ++ tail) = Ok x /\ float_ge0 x = true.
Proof.
  intros Hne H1 H2 Htail.
  assert (Forall num_char (d1 ++ tail)) as Hnum.
  { apply Forall_app. split.
    - eapply Forall_impl; [|exact H1]. intros c Hc. now left.
    - destruct Htail as [[-> _]| ->]; constructor; [now right|].
      eapply Forall_impl; [|exact H2]. intros c Hc. now left. }
  set (D1 := map ascii_digit_of d1). set (D2 := map ascii_digit_of d2).
  set (tail' := match tail with [] => [] | _ => 46%N :: D2 end).
  assert ((if forallb is_ascii (d1 ++ tail) then d1 ++ tail
           else transform_text (d1 ++ tail)) = D1 ++ tail') as Ht.
  { assert (map ascii_digit_of (d1 ++ tail) = D1 ++ tail') as <-.
    { rewrite map_app. subst D1 tail' D2.
      destruct Htail as [[-> _]| ->]; reflexivity. }
    destruct (forallb is_ascii (d1 ++ tail)) eqn:E.
    - symmetry. now apply ascii_text_num.
    - now apply transform_text_num. }
  assert (Forall (fun c => is_ascii_digit c = true) D1) as HD1
      by now apply digits_ascii.
  assert (Forall (fun c => is_ascii_digit c = true) D2) as HD2
      by now apply digits_ascii.
  assert (tail' = [] /\ D2 = [] \/ tail' = 46%N :: D2) as Htail'.
  { subst tail' D2. destruct Htail as [[-> ->]| ->]; [left|right]; auto. }
  assert (Forall (fun c => is_ascii_digit c = true \/ c = 46%N) (D1 ++ tail'))
    as Hchars.
  { apply Forall_app. split.
    - eapply Forall_impl; [|exact HD1]. intros c Hc. now left.
    - destruct Htail' as [[-> _]| ->]; constructor; [now right|].
      eapply Forall_impl; [|exact HD2]. intros c Hc. now left. }
  assert (Forall (fun c => is_c_space c = false) (D1 ++ tail')) as Hsp.
  { eapply Forall_impl; [|exact Hchars]. intros c [Hc| ->]; [|reflexivity].
    code_points. decide_code_point. }
  assert (Forall (fun c => c <> 95%N) (D1 ++ tail')) as Hund.
  { eapply Forall_impl; [|exact Hchars]. intros c [Hc| ->]; [|discriminate].
    code_points. lia. }
  assert (D1 <> []) as HneD.
  { subst D1. destruct d1; [contradiction|discriminate]. }
  destruct (parse_float_text_number D1 D2 tail' HneD HD1 HD2 Htail')
    as [q [Hq Hpos]].
  exists (round64 q). split; [|now apply round64_ge0].
  unfold py_float. rewrite Ht.
  rewrite (span_none is_c_space _ Hsp).
  rewrite (span_none is_c_space (rev (D1 ++ tail')))
    by now apply Forall_rev.
  rewrite rev_involutive.
  rewrite (strip_underscores_none 0 (D1 ++ tail')) by (discriminate || exact Hund).
  now rewrite Hq.
Qed.

(** The shape of group 1: digits, or digits, a point and digits. *)
Lemma re_match_damage_shape (s g1 : str) (g3 : option N) :
  re_match_damage s = Some (g1, g3) ->
  exists d1 d2 tail,
    g1 = d1 ++ tail /\ d1 <> []
    /\ Forall (fun c => is_decimal c = true) d1
    /\ Forall (fun c => is_decimal c = true) d2
    /\ (tail = [] /\ d2 = [] \/ tail = 46%N :: d2).
Proof.
  unfold re_match_damage.
  destruct (span_split is_decimal s) as [_ Hd1].
  destruct (span is_decimal s) as [d1 r1]. simpl in Hd1.
  destruct d1 as [|c d1]; [discriminate|].
  set (X := match r1 with
            | 46%N :: r =>
                match span is_decimal r with
                | ([], _) => (c :: d1, r1)
                | (d2, r') => ((c :: d1) ++ 46%N :: d2, r')
                end
            | _ => (c :: d1, r1)
            end).
  assert (fst X = c :: d1
          \/ exists y d2, Forall (fun c => is_decimal c = true) (y :: d2)
                          /\ fst X = (c :: d1) ++ 46%N :: y :: d2) as HX.
  { subst X. destruct r1 as [|x r]; [now left|].
    destruct (N.eq_dec x 46) as [->|Hx].
    - destruct (span_split is_decimal r) as [_ Hd2].
      destruct (span is_decimal r) as [d2 r']. simpl in Hd2.
      destruct d2 as [|y d2]; [now left|]. right. now exists y, d2.
    - destruct x as [|p]; [now left|].
      do 6 (destruct p as [p|p|]; try (now left)). }
  destruct X as [g r2]. simpl in HX. intros [= <- _].
  destruct HX as [->|[y [d2 [Hd2 ->]]]].
  - exists (c :: d1), [], []. rewrite app_nil_r.
    repeat split; auto; discriminate.
  - exists (c :: d1), (y :: d2), (46%N :: y :: d2).
    repeat split; auto; discriminate.
Qed.
End FloatFacts.

(** ** The damage parser *)

Section DamageFacts.
Context {U : UnicodeData}.

Lemma py_float_only_ValueError (s : str) (e : exc) :
  py_float s = Raise e -> e = ValueError.
Proof.
  unfold py_float.
  destruct (strip_underscores _ _) as [t|]; [|now intros [= <-]].
  destruct (parse_float_text t); [discriminate|now intros [= <-]].
Qed.

(** On a text that starts with a number the cleaning parser returns a
    float that is not negative. *)
Lemma limpieza_convertir_damage_match (s g1 : str) (g3 : option N) :
  re_match_damage (py_strip (py_upper s)) = Some (g1, g3) ->
  exists x, Limpieza.convertir_damage (VStr s) = Ok (VFloat x)
            /\ float_ge0 x = true.
Proof.
  intros Hm. unfold Limpieza.convertir_damage. rewrite Hm.
  destruct (re_match_damage_shape _ _ _ Hm)
    as [d1 [d2 [tail [-> [Hne [H1 [H2 Ht]]]]]]].
  destruct (py_float_number d1 d2 tail Hne H1 H2 Ht) as [x [Hx Hpos]].
  rewrite Hx.
  assert (forall k : Q, 0 <= k -> float_ge0 (float_scale x k) = true) as Hk
      by (intros k; now apply float_scale_ge0).
  destruct g3 as [c|]; [|now exists x].
  destruct c as [|p]; [now exists x|].
  do 7 (destruct p as [p|p|]; try (now exists x));
    eexists; (split; [reflexivity|]); apply Hk; discriminate.
Qed.


Lemma limpieza_convertir_damage_returns (s : str) :
  exists v, Limpieza.convertir_damage (VStr s) = Ok v.
Proof.
  destruct (re_match_damage (py_strip (py_upper s))) as [[g1 g3]|] eqn:Hm.
  - destruct (limpieza_convertir_damage_match s g1 g3 Hm) as [x [Hx _]].
    eauto.
  - unfold Limpieza.convertir_damage. rewrite Hm.
    destruct (py_float (py_strip (py_upper s))) as [x|e] eqn:E.
    + cbn. eauto.
    + rewrite (py_float_only_ValueError _ _ E). cbn. eauto.
Qed.
End DamageFacts.



(** ** Columns of a frame by label *)

Lemma mem_In (n : str) (l : list str) : mem n l = true <-> In n l.
Proof.
  unfold mem. rewrite existsb_exists. split.
  - intros [x [Hx E]]. apply str_eqb_eq in E. now subst.
  - intros H. exists n. split; [exact H|apply str_eqb_refl].
Qed.

Lemma mem_false (n : str) (l : list str) : mem n l = false <-> ~ In n l.
Proof.
  rewrite <- mem_In. destruct (mem n l); split; congruence.
Qed.

Lemma unique_label (df : DataFrame) (c c' : column) :
  NoDup (columns df) -> In c df -> In c' df ->
  col_name c = col_name c' -> c = c'.
Proof.
  unfold columns. induction df as [|x df IH]; simpl; [contradiction|].
  intros Hnd Hc Hc' E. inversion Hnd as [|? ? Hx Hnd']; subst.
  destruct Hc as [->|Hc], Hc' as [->|Hc']; auto.
  - exfalso. apply Hx. rewrite E. now apply in_map.
  - exfalso. apply Hx. rewrite <- E. now apply in_map.
Qed.

Lemma get_column_In (df : DataFrame) (c : column) :
  NoDup (columns df) -> In c df -> get_column df (col_name c) = Ok c.
Proof.
  intros Hnd Hc. unfold get_column.
  destruct (find _ df) as [c'|] eqn:E.
  - apply find_some in E. destruct E as [Hc' E]. apply str_eqb_eq in E.
    now rewrite (unique_label df c c' Hnd Hc Hc' E).
  - exfalso. apply (find_none _ _ E) in Hc. now rewrite str_eqb_refl in Hc.
Qed.

(** ** The column-drop policy *)

Lemma columns_over_In (df : DataFrame) (threshold : Q) (n : str) :
  In n (columns_over df threshold) <->
  exists c, In c df /\ col_name c = n
            /\ gt_threshold (isnull_mean (cells c)) threshold = true.
Proof.
  unfold columns_over, columns. rewrite in_map_iff. split.
  - intros [c [E H]]. apply filter_In in H. exists c. tauto.
  - intros [c [H [E G]]]. exists c. split; [exact E|]. now apply filter_In.
Qed.

Lemma drop_columns_nil (df : DataFrame) : drop_columns df [] = df.
Proof. unfold drop_columns. apply filter_id, Forall_forall. reflexivity. Qed.

Lemma manejar_columnas_con_nulos_drop (df : DataFrame) (umbral : Q) :
  LimpiezaFinal.manejar_columnas_con_nulos df umbral
  = drop_columns df (columns_over df umbral).
Proof.
  unfold LimpiezaFinal.manejar_columnas_con_nulos.
  destruct (columns_over df umbral); [|reflexivity].
  symmetry. apply drop_columns_nil.
Qed.





(** With the threshold at one half, the frame of the example keeps [A]
    (half null) and [C], and loses [B] (three quarters null). *)
Example manejar_nulos_example :
  Limpieza.manejar_nulos nulls_frame (1 # 2) = [half_null; no_null].
Proof. reflexivity. Qed.

(** ** The value-fill policy *)

Lemma fillna_no_null (v : value) (cs : list value) :
  any_null cs = false -> fillna v cs = cs.
Proof.
  unfold any_null, fillna. induction cs as [|x cs IH]; [reflexivity|].
  simpl. intros H. apply orb_false_iff in H. destruct H as [Hx Hcs].
  now rewrite Hx, IH.
Qed.

Lemma fillna_notnull (v : value) (cs : list value) :
  isnull v = false -> any_null (fillna v cs) = false.
Proof.
  intros Hv. unfold any_null, fillna. induction cs as [|x cs IH]; [reflexivity|].
  simpl. rewrite IH. destruct (isnull x) eqn:E; now rewrite ?Hv, ?E.
Qed.

Lemma Forall2_map_right {A B} (R : A -> B -> Prop) (g : A -> B) (l : list A) :
  (forall x, In x l -> R x (g x)) -> Forall2 R l (map g l).
Proof.
  induction l as [|x l IH]; simpl; intros H; constructor; auto.
Qed.

Lemma NoDup_columns_filter (p : column -> bool) (df : DataFrame) :
  NoDup (columns df) -> NoDup (columns (filter p df)).
Proof.
  unfold columns. induction df as [|c df IH]; simpl; [auto|].
  intros H. inversion H as [|? ? Hc Hdf]; subst.
  destruct (p c); simpl; [constructor|]; auto.
  intros Hin. apply Hc. apply in_map_iff in Hin.
  destruct Hin as [x [E Hx]]. apply filter_In in Hx.
  apply in_map_iff. exists x. tauto.
Qed.

Lemma has_column_In (df : DataFrame) (n : str) :
  has_column df n = true <-> In n (columns df).
Proof. apply mem_In. Qed.

Lemma mem_single (a n : str) : mem a [n] = str_eqb a n.
Proof. unfold mem. cbn [existsb]. apply orb_false_r. Qed.

Lemma mem_cons (a n : str) (ns : list str) :
  mem a (n :: ns) = str_eqb a n || mem a ns.
Proof. reflexivity. Qed.

Lemma llenar_columna_spec (df : DataFrame) (c : column) :
  NoDup (columns df) -> In c df ->
  LimpiezaFinal.llenar_columna df (col_name c)
  = Ok (filled_frame [col_name c] df, (col_name c, fill_value (col_dtype c))).
Proof.
  intros Hnd Hc. unfold LimpiezaFinal.llenar_columna.
  rewrite (get_column_In df c Hnd Hc). cbn [bind].
  assert (has_column df (col_name c) = true) as Hhas.
  { apply has_column_In. unfold columns. now apply in_map. }
  assert (forall t cs,
             (t = if LimpiezaFinal.is_numeric (col_dtype c)
                  then col_dtype c else Object) ->
             cs = fillna (fill_value (col_dtype c)) (cells c) ->
             set_column df (col_name c) t cs = filled_frame [col_name c] df)
    as Hset.
  { intros t cs -> ->. unfold set_column. rewrite Hhas.
    unfold filled_frame. apply map_ext_in. intros x Hx.
    rewrite mem_single.
    destruct (str_eqb (col_name c) (col_name x)) eqn:E.
    - apply str_eqb_eq in E. rewrite (unique_label df x c Hnd Hx Hc) by auto.
      now rewrite str_eqb_refl.
    - destruct (str_eqb (col_name x) (col_name c)) eqn:E'; [|reflexivity].
      apply str_eqb_eq in E'. rewrite E', str_eqb_refl in E. discriminate. }
  unfold fill_value in *. revert Hset.
  destruct (LimpiezaFinal.is_numeric (col_dtype c)); intros Hset;
    now rewrite (Hset _ _ eq_refl eq_refl).
Qed.

Lemma columns_filled_frame (ns : list str) (df : DataFrame) :
  columns (filled_frame ns df) = columns df.
Proof.
  unfold columns, filled_frame. rewrite map_map. apply map_ext.
  intros c. now destruct (mem (col_name c) ns).
Qed.

Lemma dtype_of_filled_frame (df : DataFrame) (n m : str) :
  n <> m -> dtype_of (filled_frame [n] df) m = dtype_of df m.
Proof.
  intros Hnm. unfold dtype_of, get_column, filled_frame.
  induction df as [|c df IH]; [reflexivity|].
  cbn [map find]. rewrite mem_single.
  destruct (str_eqb (col_name c) n) eqn:E.
  - apply str_eqb_eq in E. cbn [filled col_name].
    destruct (str_eqb m (col_name c)) eqn:E'.
    + apply str_eqb_eq in E'. congruence.
    + exact IH.
  - destruct (str_eqb m (col_name c)); [reflexivity|exact IH].
Qed.

Lemma filled_frame_cons (n : str) (ns : list str) (df : DataFrame) :
  ~ In n ns ->
  filled_frame ns (filled_frame [n] df) = filled_frame (n :: ns) df.
Proof.
  intros Hn. unfold filled_frame. rewrite map_map. apply map_ext. intros c.
  rewrite mem_single, mem_cons.
  destruct (str_eqb (col_name c) n) eqn:E; cbn [orb]; [|reflexivity].
  apply str_eqb_eq in E. cbn [filled col_name]. rewrite E.
  apply mem_false in Hn. now rewrite Hn.
Qed.

Lemma llenar_spec (cols : list str) :
  forall (df : DataFrame) (log : list (str * value)),
    NoDup (columns df) -> NoDup cols ->
    (forall n, In n cols -> In n (columns df)) ->
    LimpiezaFinal.llenar cols df log
    = Ok (filled_frame cols df,
          log ++ map (fun n => (n, fill_value (dtype_of df n))) cols).
Proof.
  induction cols as [|n cols IH]; intros df log Hnd Hcols Hin.
  - cbn. rewrite app_nil_r. f_equal. f_equal. unfold filled_frame.
    symmetry. apply map_id.
  - inversion Hcols as [|? ? Hn Hcols']; subst.
    assert (In n (columns df)) as Hndf by (apply Hin; now left).
    unfold columns in Hndf. apply in_map_iff in Hndf.
    destruct Hndf as [c [<- Hc]].
    cbn [LimpiezaFinal.llenar]. rewrite (llenar_columna_spec df c Hnd Hc).
    cbn [bind fst snd]. rewrite IH.
    + rewrite filled_frame_cons by exact Hn.
      rewrite <- app_assoc. cbn [app map]. f_equal. f_equal. f_equal.
      assert (dtype_of df (col_name c) = col_dtype c) as ->.
      { unfold dtype_of. now rewrite (get_column_In df c Hnd Hc). }
      f_equal. apply map_ext_in. intros m Hm. f_equal. f_equal.
      apply dtype_of_filled_frame. intros <-. contradiction.
    + now rewrite columns_filled_frame.
    + exact Hcols'.
    + intros m Hm. rewrite columns_filled_frame. apply Hin. now right.
Qed.

Lemma fill_value_notnull (t : dtype) : isnull (fill_value t) = false.
Proof. unfold fill_value. now destruct (LimpiezaFinal.is_numeric t). Qed.

Lemma mem_columnas_con_nulos (df : DataFrame) (c : column) :
  NoDup (columns df) -> In c df ->
  mem (col_name c) (LimpiezaFinal.columnas_con_nulos df) = any_null (cells c).
Proof.
  intros Hnd Hc. unfold LimpiezaFinal.columnas_con_nulos.
  destruct (any_null (cells c)) eqn:E.
  - apply mem_In. unfold columns. apply in_map. now apply filter_In.
  - apply mem_false. unfold columns. rewrite in_map_iff.
    intros [x [Ex Hx]]. apply filter_In in Hx. destruct Hx as [Hx Hn].
    rewrite (unique_label df x c Hnd Hx Hc Ex) in Hn. congruence.
Qed.

Lemma columns_set_column (df : DataFrame) (n : str) (t : dtype)
    (cs : list value) :
  columns (set_column df n t cs)
  = if has_column df n then columns df else columns df ++ [n].
Proof.
  unfold set_column. destruct (has_column df n).
  - unfold columns. rewrite map_map. apply map_ext_in. intros c _.
    destruct (str_eqb n (col_name c)) eqn:E; [|reflexivity].
    apply str_eqb_eq in E. now subst.
  - unfold columns. now rewrite map_app.
Qed.

Lemma NoDup_marcar_duplicados (df : DataFrame) :
  NoDup (columns df) ->
  NoDup (columns (LimpiezaFinal.marcar_duplicados_event_id df)).
Proof.
  intros Hnd. unfold LimpiezaFinal.marcar_duplicados_event_id.
  destruct (get_column df EVENT_ID); [|exact Hnd].
  rewrite columns_set_column.
  destruct (has_column df LimpiezaFinal.ES_EVENT_ID_DUPLICADO) eqn:E;
    [exact Hnd|].
  apply mem_false in E. apply NoDup_app; [exact Hnd|now repeat constructor|].
  intros x Hx [<-|[]]. contradiction.
Qed.

(** The fill pass as one statement about its result. *)
Lemma manejar_nulos_spec (df : DataFrame) :
  NoDup (columns df) ->
  exists df' log,
    LimpiezaFinal.manejar_nulos df = Ok (df', log)
    /\ Forall2 (fun c c' =>
                  col_name c' = col_name c
                  /\ cells c' = fillna (fill_value (col_dtype c)) (cells c))
               df df'
    /\ (forall c', In c' df' -> any_null (cells c') = false)
    /\ log = map (fun c => (col_name c, fill_value (col_dtype c)))
                 (filter (fun c => any_null (cells c)) df).
Proof.
  intros Hnd.
  set (cols := LimpiezaFinal.columnas_con_nulos df).
  assert (forall x, In x df ->
            let y := if mem (col_name x) cols then filled x else x in
            col_name y = col_name x
            /\ cells y = fillna (fill_value (col_dtype x)) (cells x)) as Hcol.
  { intros x Hx. subst cols. rewrite (mem_columnas_con_nulos df x Hnd Hx).
    destruct (any_null (cells x)) eqn:E; cbn; [now split|].
    split; [reflexivity|]. symmetry. now apply fillna_no_null. }
  exists (filled_frame cols df),
    (map (fun n => (n, fill_value (dtype_of df n))) cols).
  split; [|split; [|split]].
  - unfold LimpiezaFinal.manejar_nulos. fold cols.
    rewrite (llenar_spec cols df [] Hnd).
    + reflexivity.
    + apply NoDup_columns_filter, Hnd.
    + intros n Hn. subst cols. unfold LimpiezaFinal.columnas_con_nulos, columns in *.
      apply in_map_iff in Hn. destruct Hn as [x [<- Hx]].
      apply filter_In in Hx. now apply in_map.
  - apply Forall2_map_right. exact Hcol.
  - intros c' Hc'. unfold filled_frame in Hc'. apply in_map_iff in Hc'.
    destruct Hc' as [x [<- Hx]]. destruct (Hcol x Hx) as [_ ->].
    apply fillna_notnull, fill_value_notnull.
  - subst cols. unfold LimpiezaFinal.columnas_con_nulos, columns.
    rewrite map_map. apply map_ext_in. intros x Hx. apply filter_In in Hx.
    unfold dtype_of. now rewrite (get_column_In df x Hnd (proj1 Hx)).
Qed.

(** C3, as stated, fails: the categorical column [B] of the example is
    not filled with the token [unknown]. *)
Lemma value_fill_unknown_counterexample :
  ~ exists df' log c',
      LimpiezaFinal.manejar_nulos nulls_frame = Ok (df', log)
      /\ In c' df' /\ col_name c' = lit "B"
      /\ cells c' = fillna (VStr unknown) (cells mostly_null).
Proof.
  intros [df' [log [c' [H [Hin [Hn Hc]]]]]].
  vm_compute in H. injection H as <- _.
  destruct Hin as [<-|[<-|[<-|[]]]]; vm_compute in Hn, Hc; discriminate.
Qed.

(** C3, amended. On a frame with distinct labels the fill pass returns a
    frame with the same columns in the same order; every null of a column
    of dtype float64 or int64 is replaced by 0 and every null of any other
    column by the token [Desconocido] (not [unknown]); no null is left; one
    line is logged per column that had nulls, in column order, with the
    fill value.  In [main] the pass runs on what the drop pass kept, with
    the duplicate flag added. *)
Theorem value_fill_policy (df : DataFrame) :
  NoDup (columns df) ->
  (exists df' log,
      LimpiezaFinal.manejar_nulos df = Ok (df', log)
      /\ Forall2 (fun c c' =>
                    col_name c' = col_name c
                    /\ cells c' = fillna (fill_value (col_dtype c)) (cells c))
                 df df'
      /\ (forall c', In c' df' -> any_null (cells c') = false)
      /\ log = map (fun c => (col_name c, fill_value (col_dtype c)))
                   (filter (fun c => any_null (cells c)) df))
  /\ (exists df' log,
        LimpiezaFinal.main df = Ok (df', log)
        /\ columns df'
           = columns (LimpiezaFinal.marcar_duplicados_event_id
                        (LimpiezaFinal.manejar_columnas_con_nulos
                           df LimpiezaFinal.umbral_default)))
  /\ fill_value Float64 = VInt 0 /\ fill_value Int64 = VInt 0
  /\ fill_value Object = VStr Limpieza.Desconocido.
Proof.
  intros Hnd. split; [now apply manejar_nulos_spec|].
  split; [|now repeat split].
  unfold LimpiezaFinal.main.
  destruct (manejar_nulos_spec
              (LimpiezaFinal.marcar_duplicados_event_id
                 (LimpiezaFinal.manejar_columnas_con_nulos
                    df LimpiezaFinal.umbral_default)))
    as [df' [log [H [HF _]]]].
  { apply NoDup_marcar_duplicados.
    rewrite manejar_columnas_con_nulos_drop. unfold drop_columns.
    now apply NoDup_columns_filter. }
  exists df', log. split; [exact H|].
  unfold columns. clear H. induction HF as [|c c' l l' [E _] _ IH]; cbn;
    [reflexivity|]. now rewrite E, IH.
Qed.

Lemma value_fill_policy_witness :
  (exists df' log,
      LimpiezaFinal.manejar_nulos nulls_frame = Ok (df', log)
      /\ Forall2 (fun c c' =>
                    col_name c' = col_name c
                    /\ cells c' = fillna (fill_value (col_dtype c)) (cells c))
                 nulls_frame df'
      /\ (forall c', In c' df' -> any_null (cells c') = false)
      /\ log = map (fun c => (col_name c, fill_value (col_dtype c)))
                   (filter (fun c => any_null (cells c)) nulls_frame))
  /\ (exists df' log,
        LimpiezaFinal.main nulls_frame = Ok (df', log)
        /\ columns df'
           = columns (LimpiezaFinal.marcar_duplicados_event_id
                        (LimpiezaFinal.manejar_columnas_con_nulos
                           nulls_frame LimpiezaFinal.umbral_default)))
  /\ fill_value Float64 = VInt 0 /\ fill_value Int64 = VInt 0
  /\ fill_value Object = VStr Limpieza.Desconocido.
Proof.
  apply (value_fill_policy nulls_frame).
  repeat constructor; simpl; intuition discriminate.
Defined.

(** The example frame after the fill: zeros in [A], the token in [B]. *)
Example manejar_nulos_final_example :
  LimpiezaFinal.manejar_nulos nulls_frame
  = Ok ([Column (lit "A") Float64
           [VInt 0; VFloat (Fin 1); VInt 0; VFloat (Fin 2)];
         Column (lit "B") Object
           [VStr (lit "x"); VStr Limpieza.Desconocido;
            VStr Limpieza.Desconocido; VStr Limpieza.Desconocido];
         no_null],
        [(lit "A", VInt 0); (lit "B", VStr Limpieza.Desconocido)]).
Proof. reflexivity. Qed.

(** ** Reading a column back after an assignment *)

Lemma get_column_has (df : DataFrame) (n : str) (c : column) :
  get_column df n = Ok c -> has_column df n = true.
Proof.
  unfold get_column. destruct (find _ df) as [x|] eqn:E; [|discriminate].
  intros _. apply find_some in E. destruct E as [Hx E].
  apply str_eqb_eq in E. apply has_column_In. subst n. unfold columns.
  now apply in_map.
Qed.

Lemma get_set_same (df : DataFrame) (n : str) (t : dtype) (cs : list value) :
  get_column (set_column df n t cs) n = Ok (Column n t cs).
Proof.
  unfold set_column, get_column. destruct (has_column df n) eqn:H.
  - apply has_column_In in H. unfold columns in H.
    induction df as [|c df IH]; [contradiction|]. cbn [map find].
    destruct (str_eqb n (col_name c)) eqn:E.
    + cbn [col_name]. now rewrite str_eqb_refl.
    + rewrite E. apply IH. destruct H as [H|H]; [|exact H].
      rewrite H, str_eqb_refl in E. discriminate.
  - assert (find (fun c => str_eqb n (col_name c)) df = None) as Hnone.
    { destruct (find _ df) as [x|] eqn:E; [|reflexivity].
      apply find_some in E. destruct E as [Hx E]. apply str_eqb_eq in E.
      apply mem_false in H. exfalso. apply H. subst n. unfold columns.
      now apply in_map. }
    induction df as [|c df IH]; cbn [app find col_name].
    + now rewrite str_eqb_refl.
    + cbn [find] in Hnone. destruct (str_eqb n (col_name c)); [discriminate|].
      apply IH; [|exact Hnone]. apply mem_false. apply mem_false in H.
      intros Hin. apply H. now right.
Qed.

Lemma get_set_other (df : DataFrame) (n m : str) (t : dtype) (cs : list value) :
  n <> m -> get_column (set_column df n t cs) m = get_column df m.
Proof.
  intros Hnm. unfold set_column, get_column. destruct (has_column df n).
  - induction df as [|c df IH]; [reflexivity|]. cbn [map find].
    destruct (str_eqb n (col_name c)) eqn:E.
    + apply str_eqb_eq in E. cbn [col_name].
      destruct (str_eqb m n) eqn:E'; [apply str_eqb_eq in E'; congruence|].
      rewrite <- E, E'. exact IH.
    + destruct (str_eqb m (col_name c)); [reflexivity|exact IH].
  - induction df as [|c df IH]; cbn [app find col_name].
    + destruct (str_eqb m n) eqn:E'; [apply str_eqb_eq in E'; congruence|].
      reflexivity.
    + destruct (str_eqb m (col_name c)); [reflexivity|exact IH].
Qed.

Lemma fillna_pointwise (v : value) (cs : list value) :
  Forall2 (fun x y => y = if isnull x then v else x) cs (fillna v cs).
Proof. apply Forall2_map_right. reflexivity. Qed.

(** C10. On a fatalities frame that has the two columns, the cleaning
    step returns a frame in which every null age is -1 and every null sex is
    the token [Desconocido], other cells as they were; -1, a negative age,
    is not a value the general fill policy uses. *)
Theorem limpiar_fatalidades_fill (U : UnicodeData) (repr_other : value -> str)
    (df : DataFrame) (a s : column) :
  get_column df Limpieza.FATALITY_AGE = Ok a ->
  get_column df Limpieza.FATALITY_SEX = Ok s ->
  exists df' a' s',
    Limpieza.limpiar_fatalidades repr_other df = Ok df'
    /\ get_column df' Limpieza.FATALITY_AGE = Ok a'
    /\ get_column df' Limpieza.FATALITY_SEX = Ok s'
    /\ Forall2 (fun x y => y = if isnull x then VInt (-1) else x)
               (cells a) (cells a')
    /\ Forall2 (fun x y => y = if isnull x then VStr Limpieza.Desconocido else x)
               (cells s) (cells s')
    /\ (forall t, fill_value t <> VInt (-1)).
Proof.
  intros Ha Hs. unfold Limpieza.limpiar_fatalidades. rewrite Ha. cbn [bind].
  rewrite get_set_other by discriminate. rewrite Hs. cbn [bind].
  set (df1 := set_column df Limpieza.FATALITY_AGE (col_dtype a)
                (fillna (VInt (-1)) (cells a))).
  set (t2 := if any_null (cells s) then Object else col_dtype s).
  set (df2 := set_column df1 Limpieza.FATALITY_SEX t2
                (fillna (VStr Limpieza.Desconocido) (cells s))).
  assert (get_column df2 Limpieza.FATALITY_AGE
          = Ok (Column Limpieza.FATALITY_AGE (col_dtype a)
                  (fillna (VInt (-1)) (cells a)))) as Ha2.
  { subst df2. rewrite get_set_other by discriminate. apply get_set_same. }
  assert (get_column df2 Limpieza.FATALITY_SEX
          = Ok (Column Limpieza.FATALITY_SEX t2
                  (fillna (VStr Limpieza.Desconocido) (cells s)))) as Hs2
      by apply get_set_same.
  assert (forall t, fill_value t <> VInt (-1)) as Hfv.
  { intros t. unfold fill_value.
    destruct (LimpiezaFinal.is_numeric t); discriminate. }
  destruct (has_column df2 Limpieza.FATALITY_LOCATION) eqn:Hloc.
  - destruct (get_column df2 Limpieza.FATALITY_LOCATION) as [l|e] eqn:Hl.
    + cbn [bind]. eexists _, _, _. split; [reflexivity|].
      rewrite !get_set_other by discriminate.
      repeat split; try eassumption; try apply fillna_pointwise.
    + exfalso. unfold get_column in Hl.
      destruct (find _ df2) as [x|] eqn:E; [discriminate|].
      apply has_column_In in Hloc. unfold columns in Hloc.
      apply in_map_iff in Hloc. destruct Hloc as [x [Ex Hx]].
      apply (find_none _ _ E) in Hx. now rewrite Ex, str_eqb_refl in Hx.
  - eexists _, _, _. split; [reflexivity|].
    repeat split; try eassumption; try apply fillna_pointwise.
Qed.

Lemma limpiar_fatalidades_fill_witness :
  exists df' a' s',
    @Limpieza.limpiar_fatalidades excerpt (fun _ => []) fatalities_example = Ok df'
    /\ get_column df' Limpieza.FATALITY_AGE = Ok a'
    /\ get_column df' Limpieza.FATALITY_SEX = Ok s'
    /\ Forall2 (fun x y => y = if isnull x then VInt (-1) else x)
               [VFloat (Fin 30); nan; VFloat (Fin 62)] (cells a')
    /\ Forall2 (fun x y => y = if isnull x then VStr Limpieza.Desconocido else x)
               [VStr (lit "M"); VStr (lit "F"); nan] (cells s')
    /\ (forall t, fill_value t <> VInt (-1)).
Proof.
  apply (limpiar_fatalidades_fill excerpt (fun _ => []) fatalities_example
           (Column Limpieza.FATALITY_AGE Float64
              [VFloat (Fin 30); nan; VFloat (Fin 62)])
           (Column Limpieza.FATALITY_SEX Object
              [VStr (lit "M"); VStr (lit "F"); nan])); reflexivity.
Defined.

(** ** Dates *)

(** *** The decimal text of an integer *)

Lemma digit_cases (c : N) :
  is_ascii_digit c = true ->
  (c = 48 \/ c = 49 \/ c = 50 \/ c = 51 \/ c = 52 \/ c = 53 \/ c = 54
   \/ c = 55 \/ c = 56 \/ c = 57)%N.
Proof.
  unfold is_ascii_digit, in_range. intros H. apply andb_true_iff in H.
  destruct H as [H1 H2]. apply N.leb_le in H1, H2. lia.
Qed.

Ltac digit_case H :=
  apply digit_cases in H;
  destruct H as [->|[->|[->|[->|[->|[->|[->|[->|[->| ->]]]]]]]]].

Lemma lit_string_of_digits (s : str) :
  Forall (fun c => is_ascii_digit c = true) s ->
  lit (DecimalString.NilEmpty.string_of_uint (uint_of_digits s)) = s.
Proof.
  induction 1 as [|c s Hc _ IH]; [reflexivity|].
  cbn [uint_of_digits fold_right]. fold (uint_of_digits s).
  digit_case Hc; cbn [dig DecimalString.NilEmpty.string_of_uint];
    unfold lit in *; cbn [list_ascii_of_string map]; now rewrite IH.
Qed.

Lemma of_uint_acc_digits (s : str) :
  Forall (fun c => is_ascii_digit c = true) s ->
  forall acc,
    Zpos (Pos.of_uint_acc (uint_of_digits s) acc)
    = fold_left (fun a c => (10 * a + Z.of_N (c - 48))%Z) s (Zpos acc).
Proof.
  induction 1 as [|c s Hc _ IH]; intros acc; [reflexivity|].
  cbn [uint_of_digits fold_right fold_left]. fold (uint_of_digits s).
  digit_case Hc; cbn [dig Pos.of_uint_acc]; rewrite IH; f_equal; lia.
Qed.

(** The text of the integer that a text of digits without a leading zero
    spells is that text. *)
Lemma str_of_Z_digits (c : N) (s : str) :
  is_ascii_digit c = true -> c <> 48%N ->
  Forall (fun c => is_ascii_digit c = true) s ->
  str_of_Z (digits_value (c :: s)) = c :: s.
Proof.
  intros Hc Hz Hs. pose proof (lit_string_of_digits (c :: s)) as Hl.
  pose proof (DecimalPos.Unsigned.to_of (uint_of_digits (c :: s))) as Ht.
  unfold str_of_Z, digits_value. revert Hl Ht.
  cbn [uint_of_digits fold_right fold_left]. fold (uint_of_digits s).
  pose proof Hc as Hc'.
  digit_case Hc'; [congruence|..];
    cbn [dig Pos.of_uint N.to_uint Decimal.unorm Decimal.nzhead];
    intros Hl Ht;
    match goal with
    | |- context [fold_left ?f s ?z] =>
        replace (fold_left f s z)
          with (Zpos (Pos.of_uint_acc (uint_of_digits s) (Z.to_pos z)))
          by (rewrite (of_uint_acc_digits s Hs); reflexivity)
    end;
    cbn [Z.to_int];
    match goal with
    | |- context [Z.to_pos ?z] =>
        let v := eval vm_compute in (Z.to_pos z) in
        change (Z.to_pos z) with v
    end;
    rewrite Ht;
    cbn [DecimalString.NilZero.string_of_int
           DecimalString.NilZero.string_of_uint];
    apply Hl; now constructor.
Qed.

Lemma digit_char_digit (k : Z) :
  (0 <= k <= 9)%Z -> is_ascii_digit (digit_char k) = true.
Proof.
  intros H. unfold is_ascii_digit, in_range, digit_char.
  apply andb_true_iff. split; apply N.leb_le; lia.
Qed.

Lemma digit_char_value (k : Z) :
  (0 <= k <= 9)%Z -> Z.of_N (digit_char k - 48) = k.
Proof. intros H. unfold digit_char. lia. Qed.

(** The text of a year-month of six digits. *)
Lemma str_of_Z_year_month (y m : Z) :
  (1000 <= y <= 9999)%Z -> (0 <= m <= 99)%Z ->
  str_of_Z (100 * y + m) = four_chars y ++ two_chars m.
Proof.
  intros Hy Hm. unfold four_chars, two_chars. cbn [app].
  assert (0 <= y / 100 / 10 <= 9 /\ 1 <= y / 100 / 10
          /\ 0 <= (y / 100) mod 10 <= 9
          /\ 0 <= (y mod 100) / 10 <= 9 /\ 0 <= (y mod 100) mod 10 <= 9
          /\ 0 <= m / 10 <= 9 /\ 0 <= m mod 10 <= 9)%Z
    as [H1 [H1' [H2 [H3 [H4 [H5 H6]]]]]]
    by (Z.div_mod_to_equations; lia).
  rewrite <- str_of_Z_digits.
  - f_equal. unfold digits_value. cbn [fold_left].
    rewrite !digit_char_value by assumption.
    Z.div_mod_to_equations. lia.
  - now apply digit_char_digit.
  - unfold digit_char. lia.
  - repeat constructor; now apply digit_char_digit.
Qed.

Lemma day_text_all : forallb day_text (seq 0 (Z.to_nat 100)) = true.
Proof. vm_compute. reflexivity. Qed.

(** The text of a day below 100. *)
Lemma zfill_day (d : Z) :
  (0 <= d <= 99)%Z -> zfill 2 (str_of_Z d) = two_chars d.
Proof.
  intros Hd. pose proof day_text_all as H. rewrite forallb_forall in H.
  assert (In (Z.to_nat d) (seq 0 (Z.to_nat 100))) as Hin
    by (apply in_seq; lia).
  specialize (H (Z.to_nat d) Hin). unfold day_text in H.
  rewrite Z2Nat.id in H by lia. now apply str_eqb_eq.
Qed.

(** *** The format [%Y%m%d] *)

Section DateFacts.
Context {U : UnicodeData}.

Lemma match_format_cons (d : directive) (ds : list directive) (s : str)
    (f : fields) :
  match_format (d :: ds) s f
  = try_cands (fun v r => match_format ds r (set_field d v f))
      (candidates d s).
Proof.
  cbn [match_format]. generalize (candidates d s). intros cands.
  induction cands as [|[v r] more IH]; [reflexivity|]. cbn [try_cands].
  destruct (match_format ds r (set_field d v f)); [reflexivity|exact IH].
Qed.

Lemma match_format_year (ds : list directive) (a b c e : N) (r : str)
    (f : fields) (v : Z) :
  year_value a b c e = Some v ->
  match_format (DY :: ds) (a :: b :: c :: e :: r) f
  = match_format ds r (set_field DY v f).
Proof.
  unfold year_value. intros H. rewrite match_format_cons.
  cbn [candidates].
  destruct (two_digits a b) as [x|]; [|discriminate].
  destruct (two_digits c e) as [y|]; [|discriminate].
  injection H as <-. cbn [try_cands].
  now destruct (match_format ds r _).
Qed.

Lemma match_format_month_day (s : str) (f : fields) :
  match_format [Dm; Dd] s f
  = match month_day s with
    | Some (m, d, r) =>
        Some (Fields (f_year f) m d (f_hour f) (f_minute f), r)
    | None => None
    end.
Proof.
  rewrite match_format_cons. unfold month_day.
  generalize (candidates Dm s). intros cands.
  induction cands as [|[m r] more IH]; [reflexivity|].
  cbn [try_cands first_day]. rewrite match_format_cons.
  destruct (candidates Dd r) as [|[d r'] more']; cbn [try_cands];
    [exact IH|reflexivity].
Qed.

Lemma year_parsed_all : forallb year_parsed (seq 0 (Z.to_nat 9000)) = true.
Proof. vm_compute. reflexivity. Qed.

Lemma mmdd_parsed_all : forallb mmdd_parsed (seq 0 (Z.to_nat 10000)) = true.
Proof. vm_compute. reflexivity. Qed.

Lemma days_in_month_le (y m : Z) : (days_in_month y m <= 31)%Z.
Proof.
  unfold days_in_month.
  repeat match goal with
         | |- context [match ?x with _ => _ end] => destruct x
         end; lia.
Qed.

(** A year-month of six digits with a day of at most two digits is rebuilt
    as that date when the date exists and a [Timestamp] can hold it, and
    as [NaT] otherwise. *)
Lemma to_datetime_cell_ymd (y m d : Z) :
  (1000 <= y <= 9999)%Z -> (0 <= m <= 99)%Z -> (0 <= d <= 99)%Z ->
  to_datetime_cell [DY; Dm; Dd] ErrorsCoerce
    (str_of_Z (100 * y + m) ++ zfill 2 (str_of_Z d))
  = Ok (if timestamp_ok (Fields y m d 0 0) then VDate y m d 0 0 else VNaT).
Proof.
  intros Hy Hm Hd.
  rewrite (str_of_Z_year_month y m Hy Hm), (zfill_day d Hd).
  pose proof year_parsed_all as HY. rewrite forallb_forall in HY.
  specialize (HY (Z.to_nat (y - 1000))).
  unfold year_parsed in HY. rewrite Z2Nat.id in HY by lia.
  replace (1000 + (y - 1000))%Z with y in HY by lia.
  pose proof mmdd_parsed_all as HM. rewrite forallb_forall in HM.
  specialize (HM (Z.to_nat (100 * m + d))).
  unfold mmdd_parsed in HM. rewrite Z2Nat.id in HM by lia.
  replace ((100 * m + d) / 100)%Z with m in HM
    by (Z.div_mod_to_equations; lia).
  replace ((100 * m + d) mod 100)%Z with d in HM
    by (Z.div_mod_to_equations; lia).
  unfold to_datetime_cell, strptime. rewrite <- app_assoc.
  unfold four_chars in *. unfold two_chars at 1 2. unfold two_chars at 1 2 in HY.
  cbn [app] in *.
  destruct (year_value _ _ _ _) as [v|] eqn:Ev;
    [|discriminate HY; apply in_seq; lia].
  assert (v = y) as ->.
  { apply Z.eqb_eq. apply HY. apply in_seq. lia. }
  rewrite (match_format_year _ _ _ _ _ _ _ y Ev), match_format_month_day.
  cbn [default_fields set_field f_year f_month f_day f_hour f_minute].
  assert (In (Z.to_nat (100 * m + d)) (seq 0 (Z.to_nat 10000))) as Hin
    by (apply in_seq; lia).
  specialize (HM Hin).
  assert (negb ((1 <=? m) && (m <=? 12) && (1 <=? d) && (d <=? 31))%Z = true
          -> timestamp_ok (Fields y m d 0 0) = false) as Hbad.
  { intros Hn. apply negb_true_iff in Hn. unfold timestamp_ok.
    pose proof (days_in_month_le y m) as Hle.
    destruct (1 <=? m)%Z; [|reflexivity].
    destruct (m <=? 12)%Z; [|reflexivity].
    destruct (1 <=? d)%Z; [|reflexivity]. cbn [andb] in *.
    apply Z.leb_gt in Hn.
    assert ((d <=? days_in_month y m)%Z = false) as ->
      by (apply Z.leb_gt; lia).
    reflexivity. }
  destruct (month_day _) as [[[m' d'] [|x r]]|].
  - apply andb_true_iff in HM. destruct HM as [H1 H2].
    apply Z.eqb_eq in H1, H2. subst m' d'.
    cbn [f_year f_month f_day f_hour f_minute].
    now destruct (timestamp_ok _).
  - now rewrite (Hbad HM).
  - now rewrite (Hbad HM).
Qed.

Lemma to_datetime_cell_coerce (ds : list directive) (s : str) :
  exists t, to_datetime_cell ds ErrorsCoerce s = Ok t /\ date_or_null t.
Proof.
  unfold to_datetime_cell, strptime.
  destruct (match_format ds s default_fields) as [[f [|x r]]|];
    [destruct (timestamp_ok f)| |]; eexists; (split; [reflexivity|]);
    unfold date_or_null; eauto 10.
Qed.

(** With a format that compiles no text makes the conversion raise: every
    text is read by itself. *)
Lemma to_datetime_coerce_returns (ds : list directive) (texts : list str) :
  format_ok ds = true ->
  exists ts,
    to_datetime ds ErrorsCoerce texts = Ok ts
    /\ Forall2 (fun s t => to_datetime_cell ds ErrorsCoerce s = Ok t) texts ts
    /\ Forall date_or_null ts.
Proof.
  intros Hf. unfold to_datetime. rewrite Hf.
  induction texts as [|s texts [ts [IH [L F]]]].
  - exists []. repeat split; constructor.
  - cbn [mapM]. destruct (to_datetime_cell_coerce ds s) as [t [Et Ht]].
    rewrite Et, IH. cbn [bind]. exists (t :: ts).
    repeat split; constructor; assumption.
Qed.

Lemma to_datetime_bad_format (ds : list directive) (e : errors)
    (texts : list str) :
  format_ok ds = false -> to_datetime ds e texts = Raise ReError.
Proof. intros Hf. unfold to_datetime. now rewrite Hf. Qed.
End DateFacts.

Lemma has_column_get (df : DataFrame) (n : str) :
  has_column df n = true -> exists c, get_column df n = Ok c.
Proof.
  intros H. apply has_column_In in H. unfold columns in H.
  apply in_map_iff in H. destruct H as [c [E Hc]]. unfold get_column.
  destruct (find _ df) as [x|] eqn:F; [eauto|].
  apply (find_none _ _ F) in Hc. now rewrite E, str_eqb_refl in Hc.
Qed.

(** With a date format that compiles the date column is assigned: no row
    can make the conversion raise, so the handler of [convertir_tiempo] is
    not what returns; its cells are the dates of the rows, one by one. *)
Lemma convertir_tiempo_assigns (U : UnicodeData) (repr_other : value -> str)
    (strftime : str -> value -> value) (df : DataFrame)
    (ym day prefix : str) (date_format : list directive) (cy cd : column) :
  ym <> [] -> day <> [] ->
  get_column df ym = Ok cy -> get_column df day = Ok cd ->
  format_ok (date_format ++ [Dd]) = true ->
  exists cs,
    get_column
      (Limpieza.convertir_tiempo repr_other strftime df (Some ym) (Some day)
         None (Some prefix) date_format None)
      (prefix ++ lit "_DATE")
    = Ok (Column (prefix ++ lit "_DATE") Datetime64 cs)
    /\ Forall2
         (fun (p : value * value) c =>
            to_datetime_cell (date_format ++ [Dd]) ErrorsCoerce
              (Limpieza.py_str repr_other (fst p)
               ++ zfill 2 (Limpieza.py_str repr_other (snd p)))
            = Ok c)
         (combine (cells cy) (cells cd)) cs
    /\ Forall date_or_null cs.
Proof.
  intros Hym Hday Hy Hd Hf. unfold Limpieza.convertir_tiempo.
  destruct ym as [|y0 ym]; [contradiction|].
  destruct day as [|d0 day]; [contradiction|].
  cbn [Limpieza.truthy Limpieza.text_of andb].
  rewrite (get_column_has _ _ _ Hy), (get_column_has _ _ _ Hd), Hy, Hd.
  cbn [andb bind].
  match goal with
  | |- context [to_datetime ?ds ErrorsCoerce ?texts] =>
      destruct (to_datetime_coerce_returns ds texts Hf) as [ts [-> [F2 F]]]
  end.
  cbn [bind]. exists ts. split; [apply get_set_same|]. split; [|exact F].
  clear -F2. revert ts F2.
  induction (combine (cells cy) (cells cd)) as [|p l IH]; intros ts F2;
    inversion F2; subst; constructor; auto.
Qed.

(** With a date format that does not compile (it names the day, which the
    code adds, or a field twice) the conversion raises before any row is
    read, the handler logs the error, and the frame is returned as it
    was: neither the date nor the time column is assigned. *)
Lemma convertir_tiempo_bad_format (U : UnicodeData)
    (repr_other : value -> str) (strftime : str -> value -> value)
    (df : DataFrame) (ym day : str) (time_col prefix output_format : option str)
    (date_format : list directive) :
  ym <> [] -> day <> [] ->
  has_column df ym = true -> has_column df day = true ->
  format_ok (date_format ++ [Dd]) = false ->
  Limpieza.convertir_tiempo repr_other strftime df (Some ym) (Some day)
    time_col prefix date_format output_format
  = df.
Proof.
  intros Hym Hday Hy Hd Hf. unfold Limpieza.convertir_tiempo.
  destruct ym as [|y0 ym]; [contradiction|].
  destruct day as [|d0 day]; [contradiction|].
  cbn [Limpieza.truthy Limpieza.text_of andb]. rewrite Hy, Hd. cbn [andb].
  destruct (has_column_get df _ Hy) as [cy ->].
  destruct (has_column_get df _ Hd) as [cd ->]. cbn [bind].
  now rewrite (to_datetime_bad_format _ _ _ Hf).
Qed.

(** C8. Year-month 202403 with day 15 is rebuilt as 2024-03-15; year-month
    202302 with day 31 is rebuilt as the null [NaT]; run on a frame with
    these two rows, [convertir_tiempo] returns the frame with both cells in
    the new column.  In general a year-month of six digits with a day of
    at most two digits is rebuilt as that date when the date exists (month
    1 to 12, a day of that month) and a [Timestamp] can hold it, and as
    [NaT] for any other combination.  On every frame that has the two
    columns, with a date format that compiles (the default [%Y%m] does),
    the new column is assigned, its cells the dates of the rows one by
    one, each a timestamp or [NaT]: no row makes the conversion raise.
    With a date format that does not compile, a format that names the day
    already, the frame is returned as it was and nothing is assigned: no
    exception leaves [convertir_tiempo] either way. *)
Theorem convertir_tiempo_dates (U : UnicodeData) (repr_other : value -> str)
    (strftime : str -> value -> value) :
  to_datetime_cell [DY; Dm; Dd] ErrorsCoerce
    (Limpieza.py_str repr_other (VInt 202403)
     ++ zfill 2 (Limpieza.py_str repr_other (VInt 15)))
  = Ok (VDate 2024 3 15 0 0)
  /\ to_datetime_cell [DY; Dm; Dd] ErrorsCoerce
       (Limpieza.py_str repr_other (VInt 202302)
        ++ zfill 2 (Limpieza.py_str repr_other (VInt 31)))
     = Ok VNaT
  /\ get_column
       (Limpieza.convertir_tiempo repr_other strftime dates_example
          (Some (lit "BEGIN_YEARMONTH")) (Some (lit "BEGIN_DAY"))
          (Some (lit "BEGIN_TIME")) (Some (lit "BEGIN")) [DY; Dm] None)
       (lit "BEGIN_DATE")
     = Ok (Column (lit "BEGIN_DATE") Datetime64 [VDate 2024 3 15 0 0; VNaT])
  /\ (forall y m d : Z,
        (1000 <= y <= 9999)%Z -> (0 <= m <= 99)%Z -> (0 <= d <= 99)%Z ->
        to_datetime_cell [DY; Dm; Dd] ErrorsCoerce
          (Limpieza.py_str repr_other (VInt (100 * y + m))
           ++ zfill 2 (Limpieza.py_str repr_other (VInt d)))
        = Ok (if timestamp_ok (Fields y m d 0 0)
              then VDate y m d 0 0 else VNaT))
  /\ (forall df ym day prefix date_format cy cd,
        ym <> [] -> day <> [] ->
        get_column df ym = Ok cy -> get_column df day = Ok cd ->
        format_ok (date_format ++ [Dd]) = true ->
        exists cs,
          get_column
            (Limpieza.convertir_tiempo repr_other strftime df (Some ym)
               (Some day) None (Some prefix) date_format None)
            (prefix ++ lit "_DATE")
          = Ok (Column (prefix ++ lit "_DATE") Datetime64 cs)
          /\ Forall2
               (fun (p : value * value) c =>
                  to_datetime_cell (date_format ++ [Dd]) ErrorsCoerce
                    (Limpieza.py_str repr_other (fst p)
                     ++ zfill 2 (Limpieza.py_str repr_other (snd p)))
                  = Ok c)
               (combine (cells cy) (cells cd)) cs
          /\ Forall date_or_null cs)
  /\ (forall df ym day time_col prefix output_format date_format,
        ym <> [] -> day <> [] ->
        has_column df ym = true -> has_column df day = true ->
        format_ok (date_format ++ [Dd]) = false ->
        Limpieza.convertir_tiempo repr_other strftime df (Some ym)
          (Some day) time_col prefix date_format output_format
        = df).
Proof.
  split; [vm_compute; reflexivity|].
  split; [vm_compute; reflexivity|].
  split; [vm_compute; reflexivity|].
  split; [intros y m d Hy Hm Hd; cbn [Limpieza.py_str];
          now apply to_datetime_cell_ymd|].
  split.
  - intros df ym day prefix date_format cy cd.
    apply convertir_tiempo_assigns.
  - intros df ym day time_col prefix output_format date_format.
    apply convertir_tiempo_bad_format.
Qed.

(** ** The out-of-range correction *)

Lemma mapM_Forall2 {A B} (f : A -> result B) (l : list A) (l' : list B) :
  mapM f l = Ok l' -> Forall2 (fun x y => f x = Ok y) l l'.
Proof.
  revert l'. induction l as [|x l IH]; intros l'; cbn [mapM].
  - intros [= <-]. constructor.
  - destruct (f x) as [y|e] eqn:E; cbn [bind]; [|discriminate].
    destruct (mapM f l) as [ys|e]; cbn [bind]; [|discriminate].
    intros [= <-]. constructor; auto.
Qed.

Lemma bind_Ok {A} (m : result A) : bind m (fun a => Ok a) = m.
Proof. now destruct m. Qed.

Lemma clamp_nonneg (x y : value) : Limpieza.clamp x = Ok y -> nonneg_cell y.
Proof.
  unfold Limpieza.clamp, nonneg_cell.
  destruct (as_float x) as [f|] eqn:E; [|discriminate].
  destruct (float_ge0 f) eqn:G; intros [= <-];
    [exists f; auto | exists (Fin 0); split; reflexivity].
Qed.

Lemma has_column_false_get (df : DataFrame) (n : str) :
  has_column df n = false -> get_column df n = Raise KeyError.
Proof.
  intros H. unfold get_column. destruct (find _ df) as [c|] eqn:E; [|reflexivity].
  apply find_some in E. destruct E as [Hc E]. apply str_eqb_eq in E.
  apply mem_false in H. exfalso. apply H. subst n. unfold columns.
  now apply in_map.
Qed.

(** What the correction does to the property column: every cell is a number
    that is not negative. *)
Lemma fuera_de_rango_property (df df' : DataFrame) (c : column) :
  Limpieza.fuera_de_rango df = Ok df' ->
  get_column df' Limpieza.DAMAGE_PROPERTY = Ok c ->
  Forall nonneg_cell (cells c).
Proof.
  unfold Limpieza.fuera_de_rango.
  destruct (has_column df Limpieza.DAMAGE_PROPERTY) eqn:Hp.
  - destruct (get_column df Limpieza.DAMAGE_PROPERTY) as [p|e]; cbn [bind];
      [|discriminate].
    unfold Limpieza.apply.
    destruct (mapM Limpieza.clamp (cells p)) as [cs|e] eqn:Hcs; cbn [bind];
      [|discriminate].
    match goal with
    | |- context [has_column ?d Limpieza.DAMAGE_CROPS] =>
        set (df1 := d);
        assert (get_column df1 Limpieza.DAMAGE_PROPERTY
                = Ok (Column Limpieza.DAMAGE_PROPERTY (infer_dtype cs) cs))
          as H1 by apply get_set_same
    end.
    assert (Forall nonneg_cell cs) as Hcl.
    { apply mapM_Forall2 in Hcs. clear -Hcs.
      induction Hcs as [|x y l l' Hxy _ IH]; constructor;
        eauto using clamp_nonneg. }
    destruct (has_column df1 Limpieza.DAMAGE_CROPS).
    + destruct (get_column df1 Limpieza.DAMAGE_CROPS) as [k|e]; cbn [bind];
        [|discriminate].
      destruct (mapM Limpieza.clamp (cells k)) as [ks|e]; cbn [bind];
        [|discriminate].
      intros [= <-]. rewrite get_set_other by discriminate.
      rewrite H1. now intros [= <-].
    + cbn [bind]. intros [= <-]. rewrite H1. now intros [= <-].
  - cbn [bind]. destruct (has_column df Limpieza.DAMAGE_CROPS).
    + destruct (get_column df Limpieza.DAMAGE_CROPS) as [k|e]; cbn [bind];
        [|discriminate].
      unfold Limpieza.apply.
      destruct (mapM Limpieza.clamp (cells k)) as [ks|e]; cbn [bind];
        [|discriminate].
      intros [= <-]. rewrite get_set_other by discriminate.
      now rewrite (has_column_false_get _ _ Hp).
    + cbn [bind]. intros [= <-]. now rewrite (has_column_false_get _ _ Hp).
Qed.

(** What it does to the crops column: nothing. *)
Lemma fuera_de_rango_crops (df df' : DataFrame) :
  Limpieza.fuera_de_rango df = Ok df' ->
  get_column df' Limpieza.DAMAGE_CROPS = get_column df Limpieza.DAMAGE_CROPS.
Proof.
  unfold Limpieza.fuera_de_rango, Limpieza.apply.
  assert (forall d d' : DataFrame,
             get_column d Limpieza.DAMAGE_CROPS
             = get_column df Limpieza.DAMAGE_CROPS ->
             (if has_column d Limpieza.DAMAGE_CROPS
              then c <- get_column d Limpieza.DAMAGE_CROPS ;;
                   cs <- mapM Limpieza.clamp (cells c) ;;
                   Ok (set_column d Limpieza.DAMAGE_CRP_S (infer_dtype cs) cs)
              else Ok d) = Ok d' ->
             get_column d' Limpieza.DAMAGE_CROPS
             = get_column df Limpieza.DAMAGE_CROPS) as Hstep.
  { intros d d' Hd. destruct (has_column d Limpieza.DAMAGE_CROPS).
    - destruct (get_column d Limpieza.DAMAGE_CROPS) as [k|e] eqn:Hk;
        cbn [bind]; [|discriminate].
      destruct (mapM Limpieza.clamp (cells k)) as [ks|e]; cbn [bind];
        [|discriminate].
      intros [= <-]. rewrite get_set_other by discriminate.
      now rewrite Hk.
    - now intros [= <-]. }
  destruct (has_column df Limpieza.DAMAGE_PROPERTY).
  - destruct (get_column df Limpieza.DAMAGE_PROPERTY) as [p|e]; cbn [bind];
      [|discriminate].
    destruct (mapM Limpieza.clamp (cells p)) as [cs|e]; cbn [bind];
      [|discriminate].
    rewrite bind_Ok. intros H.
    eapply Hstep; [|exact H].
    now rewrite get_set_other by discriminate.
  - cbn [bind]. rewrite bind_Ok. intros H.
    eapply Hstep; [reflexivity|exact H].
Qed.

(** C1, on the code: the correction clamps [DAMAGE_PROPERTY], and writes
    the clamped crops under the label of line 104, so that [DAMAGE_CROPS]
    keeps its negative value -3. *)
Theorem fuera_de_rango_leaves_crops_negative :
  Limpieza.fuera_de_rango damages_example
  = Ok [Column EVENT_ID Int64 [VInt 1; VInt 2];
        Column Limpieza.DAMAGE_PROPERTY Float64 [VFloat (Fin 100); VInt 0];
        Column Limpieza.DAMAGE_CROPS Float64 [VFloat (Fin (-3)); VFloat (Fin 7)];
        Column Limpieza.DAMAGE_CRP_S Float64 [VInt 0; VFloat (Fin 7)]]
  /\ (forall df df',
        Limpieza.fuera_de_rango df = Ok df' ->
        get_column df' Limpieza.DAMAGE_CROPS
        = get_column df Limpieza.DAMAGE_CROPS)
  /\ (forall df df' c,
        Limpieza.fuera_de_rango df = Ok df' ->
        get_column df' Limpieza.DAMAGE_PROPERTY = Ok c ->
        Forall nonneg_cell (cells c)).
Proof.
  split; [reflexivity|].
  split; [exact fuera_de_rango_crops|exact fuera_de_rango_property].
Qed.

(** ** The duplicate analyzer *)

Lemma Qeq_bool_sym (p q : Q) : Qeq_bool p q = Qeq_bool q p.
Proof.
  destruct (Qeq_bool p q) eqn:E, (Qeq_bool q p) eqn:E'; try reflexivity.
  - apply Qeq_bool_iff in E. symmetry in E. apply Qeq_bool_iff in E.
    congruence.
  - apply Qeq_bool_iff in E'. symmetry in E'. apply Qeq_bool_iff in E'.
    congruence.
Qed.

Lemma str_eqb_sym (a b : str) : str_eqb a b = str_eqb b a.
Proof.
  destruct (str_eqb a b) eqn:E.
  - apply str_eqb_eq in E. subst. now rewrite str_eqb_refl.
  - destruct (str_eqb b a) eqn:E'; [|reflexivity].
    apply str_eqb_eq in E'. subst. now rewrite str_eqb_refl in E.
Qed.

Lemma float_eqb_sym (x y : pyfloat) : float_eqb x y = float_eqb y x.
Proof. destruct x, y; cbn; auto using Qeq_bool_sym. Qed.

Lemma same_value_sym (a b : value) : same_value a b = same_value b a.
Proof.
  unfold same_value.
  destruct (isnull a) eqn:Na, (isnull b) eqn:Nb; try reflexivity.
  destruct (as_float a) as [x|] eqn:Fa, (as_float b) as [y|] eqn:Fb;
    try reflexivity; [apply float_eqb_sym|].
  destruct a, b; try reflexivity; try discriminate.
  - apply str_eqb_sym.
  - now rewrite (Z.eqb_sym year), (Z.eqb_sym month), (Z.eqb_sym day),
      (Z.eqb_sym hour), (Z.eqb_sym minute).
  - now rewrite (Z.eqb_sym hour), (Z.eqb_sym minute).
Qed.

Lemma same_value_refl (a : value) : same_value a a = true.
Proof.
  unfold same_value. destruct (isnull a) eqn:Na; [reflexivity|].
  destruct a as [| |x|z|b|s|y m d h mi|h mi]; cbn;
    try discriminate; try reflexivity.
  - destruct x; try reflexivity; try discriminate.
    cbn. apply Qeq_bool_iff. reflexivity.
  - apply Qeq_bool_iff. reflexivity.
  - destruct b; reflexivity.
  - apply str_eqb_refl.
  - now rewrite !Z.eqb_refl.
  - now rewrite !Z.eqb_refl.
Qed.

Lemma same_value_null (a b : value) :
  same_value a b = true -> isnull a = isnull b.
Proof.
  unfold same_value. destruct (isnull a), (isnull b); congruence.
Qed.

Lemma same_key_refl (a : value) : same_key a a = true.
Proof. unfold same_key. now rewrite same_value_refl, N.eqb_refl. Qed.

Lemma same_key_sym (a b : value) : same_key a b = same_key b a.
Proof.
  unfold same_key. now rewrite same_value_sym, (N.eqb_sym (null_kind a)).
Qed.

Lemma null_kind_notnull (a : value) : notnull a = true -> null_kind a = 0%N.
Proof. destruct a as [| |[]| | | | |]; try discriminate; reflexivity. Qed.

(** On a value that is present the hash table and the join agree. *)
Lemma same_key_notnull (a b : value) :
  notnull a = true -> same_key a b = same_value a b.
Proof.
  intros Ha. unfold same_key. destruct (same_value a b) eqn:E; [|reflexivity].
  pose proof (same_value_null a b E) as Hn. unfold notnull in Ha.
  rewrite (null_kind_notnull a Ha).
  rewrite (null_kind_notnull b); [reflexivity|].
  unfold notnull. now rewrite <- Hn.
Qed.

Lemma same_key_value (a b : value) :
  same_key a b = true -> same_value a b = true.
Proof. unfold same_key. intros H. now apply andb_true_iff in H. Qed.

(** For two rows with one key, present and equal: the column counts when
    its two cells are present and different. *)
Lemma differs_two_rows (k x y : value) :
  notnull k = true ->
  Chequeo.max_gt_1 (Chequeo.groupby_nunique [k; k] [x; y])
  = notnull x && notnull y && negb (same_value x y).
Proof.
  intros Hk.
  unfold Chequeo.groupby_nunique, Chequeo.nunique, Chequeo.unique.
  cbn [filter]. rewrite Hk.
  cbn [duplicated_first map existsb select negb orb].
  rewrite (same_key_refl k).
  cbn [duplicated_first map existsb select negb orb List.length].
  rewrite (same_value_refl k).
  cbn [duplicated_first map existsb select negb orb List.length].
  destruct (notnull x) eqn:Nx, (notnull y) eqn:Ny;
    cbn [filter]; rewrite ?Nx, ?Ny;
    cbn [duplicated_first map existsb select negb orb andb List.length
         Chequeo.max_gt_1 fold_left Nat.ltb Nat.leb];
    try reflexivity.
  rewrite (same_key_notnull y x Ny), (same_value_sym y x), orb_false_r.
  now destruct (same_value x y).
Qed.

Lemma filter_rows_all (df : DataFrame) :
  (forall c, In c df -> exists x y, cells c = [x; y]) ->
  filter_rows [true; true] df = df.
Proof.
  intros H. unfold filter_rows. rewrite <- (map_id df) at 2.
  apply map_ext_in. intros c Hc. destruct (H c Hc) as [x [y E]].
  rewrite E. destruct c as [n t cs]. cbn in *. now subst cs.
Qed.

Lemma filter_label_NoDup (n : str) (ns : list str) :
  NoDup ns -> In n ns -> filter (fun m => str_eqb m n) ns = [n].
Proof.
  induction 1 as [|m ns Hm Hnd IH]; [contradiction|].
  cbn [filter]. intros [->|Hin].
  - rewrite str_eqb_refl. f_equal. clear IH Hnd.
    induction ns as [|x ns IH]; [reflexivity|]. cbn [filter].
    destruct (str_eqb x n) eqn:E.
    + apply str_eqb_eq in E. subst. exfalso. apply Hm. now left.
    + apply IH. intros Hin. apply Hm. now right.
  - destruct (str_eqb m n) eqn:E; [|now apply IH].
    apply str_eqb_eq in E. subst. contradiction.
Qed.

Lemma columnas_con_diferencias_two_rows (df : DataFrame) (k : value) :
  NoDup (columns df) -> notnull k = true ->
  (forall c, In c df -> differ_only_in Limpieza.FATALITY_AGE c) ->
  forall ns,
    (forall n, In n ns -> In n (columns df)) ->
    Chequeo.columnas_con_diferencias df [k; k] ns
    = Ok (filter (fun n => str_eqb n Limpieza.FATALITY_AGE) ns).
Proof.
  intros Hnd Hk Hcols. induction ns as [|n ns IH]; intros Hin; [reflexivity|].
  cbn [Chequeo.columnas_con_diferencias filter].
  assert (In n (columns df)) as Hn by (apply Hin; now left).
  unfold columns in Hn. apply in_map_iff in Hn. destruct Hn as [c [<- Hc]].
  rewrite (get_column_In df c Hnd Hc). cbn [bind].
  rewrite IH by (intros m Hm; apply Hin; now right). cbn [bind].
  destruct (Hcols c Hc) as [x [y [E D]]]. rewrite E.
  rewrite (differs_two_rows k x y Hk).
  destruct (str_eqb (col_name c) Limpieza.FATALITY_AGE).
  - destruct D as [-> [-> ->]]. reflexivity.
  - rewrite D. cbn [negb]. now rewrite andb_false_r.
Qed.

(** C7, as stated, fails: when one of the two ages is missing the
    analyzer does not report [FATALITY_AGE], because [nunique] does not
    count nulls. *)
Lemma columnas_con_diferencias_null_counterexample :
  ~ exists duplicates registros ejemplo,
      Chequeo.analizar_duplicados duplicates_null_example
      = Ok (Chequeo.DuplicadosParciales duplicates registros
              [Limpieza.FATALITY_AGE] ejemplo).
Proof.
  intros [d [r [e H]]]. vm_compute in H. discriminate.
Qed.

(** C7, amended. For a frame with distinct labels and exactly two rows
    that share a key that is present, with two ages that are both present
    and different, and every other column holding one value twice: the
    columns with differences are exactly [FATALITY_AGE]. *)
Theorem columnas_con_diferencias_age (df : DataFrame) (k : value) (t : dtype) :
  NoDup (columns df) ->
  In (Column EVENT_ID t [k; k]) df ->
  notnull k = true ->
  In Limpieza.FATALITY_AGE (columns df) ->
  (forall c, In c df -> differ_only_in Limpieza.FATALITY_AGE c) ->
  exists duplicates ejemplo,
    Chequeo.analizar_duplicados df
    = Ok (Chequeo.DuplicadosParciales duplicates 2
            [Limpieza.FATALITY_AGE] ejemplo).
Proof.
  intros Hnd Hkey Hk Hage Hcols.
  unfold Chequeo.analizar_duplicados.
  pose proof (get_column_In df _ Hnd Hkey) as Hget. cbn [col_name] in Hget.
  rewrite (get_column_has df _ _ Hget), Hget. cbn [bind cells].
  assert (duplicated_all [k; k] = [true; true]) as ->.
  { unfold duplicated_all. cbn [map filter]. rewrite (same_key_refl k).
    reflexivity. }
  rewrite filter_rows_all.
  2:{ intros c Hc. destruct (Hcols c Hc) as [x [y [E _]]]. eauto. }
  assert (nrows df = 2%nat) as Hrows.
  { destruct df as [|c df]; [contradiction|].
    destruct (Hcols c (or_introl eq_refl)) as [x [y [E _]]].
    cbn. now rewrite E. }
  unfold empty. rewrite Hrows. cbn [Nat.eqb negb]. rewrite Hget.
  cbn [bind cells].
  rewrite (columnas_con_diferencias_two_rows df k Hnd Hk Hcols) by auto.
  cbn [bind]. rewrite (filter_label_NoDup _ _ Hnd Hage). eauto.
Qed.

Lemma columnas_con_diferencias_age_witness :
  exists duplicates ejemplo,
    Chequeo.analizar_duplicados duplicates_example
    = Ok (Chequeo.DuplicadosParciales duplicates 2
            [Limpieza.FATALITY_AGE] ejemplo).
Proof.
  apply (columnas_con_diferencias_age duplicates_example E1 Object).
  - repeat constructor; simpl; intuition discriminate.
  - simpl. auto.
  - reflexivity.
  - simpl. auto.
  - intros c [<-|[<-|[<-|[<-|[]]]]]; eexists _, _; (split; [reflexivity|]);
      vm_compute; auto.
Defined.

(** ** Left joins *)

Close Scope Q_scope.

Lemma Qeq_bool_trans (p q r : Q) :
  Qeq_bool p q = true -> Qeq_bool p r = Qeq_bool q r.
Proof.
  intros H. apply Qeq_bool_iff in H.
  destruct (Qeq_bool p r) eqn:E, (Qeq_bool q r) eqn:E'; try reflexivity.
  - apply Qeq_bool_iff in E. rewrite H in E. apply Qeq_bool_iff in E.
    congruence.
  - apply Qeq_bool_iff in E'. rewrite <- H in E'. apply Qeq_bool_iff in E'.
    congruence.
Qed.

Lemma float_eqb_trans (x y z : pyfloat) :
  float_eqb x y = true -> float_eqb x z = float_eqb y z.
Proof.
  destruct x, y; cbn; try discriminate; try reflexivity.
  intros H. destruct z; try reflexivity. now apply Qeq_bool_trans.
Qed.

(** Cells that hold the same value are one value for every comparison. *)
Lemma same_value_trans (a b c : value) :
  same_value a b = true -> same_value a c = same_value b c.
Proof.
  unfold same_value.
  destruct (isnull a) eqn:Na, (isnull b) eqn:Nb; try discriminate;
    [reflexivity|].
  destruct (isnull c); [reflexivity|].
  destruct (as_float a) as [x|] eqn:Fa, (as_float b) as [y|] eqn:Fb;
    try discriminate.
  - intros H. destruct (as_float c); [now apply float_eqb_trans|reflexivity].
  - destruct a, b; try discriminate.
    + intros H. apply str_eqb_eq in H. now subst.
    + intros H. repeat (apply andb_true_iff in H; destruct H as [H ?]).
      repeat match goal with
             | E : (_ =? _)%Z = true |- _ => apply Z.eqb_eq in E
             end.
      now subst.
    + intros H. apply andb_true_iff in H. destruct H as [H1 H2].
      apply Z.eqb_eq in H1, H2. now subst.
Qed.

Lemma same_key_trans (a b c : value) :
  same_key a b = true -> same_key a c = same_key b c.
Proof.
  unfold same_key. intros H. apply andb_true_iff in H. destruct H as [H K].
  apply N.eqb_eq in K. now rewrite (same_value_trans a b c H), K.
Qed.

Lemma positions_from_ext (p q : value -> bool) (i : nat) (ks : list value) :
  (forall x, p x = q x) -> positions_from i p ks = positions_from i q ks.
Proof.
  intros H. revert i. induction ks as [|x ks IH]; intros i; [reflexivity|].
  cbn [positions_from]. now rewrite H, IH.
Qed.

Lemma matches_same (a b : value) (ks : list value) :
  same_value a b = true -> matches a ks = matches b ks.
Proof.
  intros H. apply positions_from_ext. intros x. now apply same_value_trans.
Qed.

Lemma positions_from_bounds (p : value -> bool) (ks : list value) :
  forall i n, In n (positions_from i p ks) -> i <= n < i + List.length ks.
Proof.
  induction ks as [|x ks IH]; intros i n; cbn [positions_from List.length];
    [contradiction|].
  rewrite in_app_iff. intros [H|H].
  - destruct (p x); [|contradiction]. destruct H as [<-|[]]. lia.
  - apply IH in H. lia.
Qed.

Lemma positions_from_length (p : value -> bool) (ks : list value) (i : nat) :
  List.length (positions_from i p ks) = List.length (filter p ks).
Proof.
  revert i. induction ks as [|x ks IH]; intros i; [reflexivity|].
  cbn [positions_from filter]. rewrite length_app, IH.
  now destruct (p x).
Qed.

(** Reading a list at the positions of the entries whose key satisfies [p]
    gives those entries. *)
Lemma positions_from_nth {E} (kf : E -> value) (p : value -> bool) (d : E)
    (es : list E) :
  forall pre,
    map (fun n => nth n (pre ++ es) d)
        (positions_from (List.length pre) p (map kf es))
    = filter (fun e => p (kf e)) es.
Proof.
  induction es as [|e es IH]; intros pre; [reflexivity|].
  cbn [map positions_from filter]. rewrite map_app.
  specialize (IH (pre ++ [e])). rewrite length_app in IH. cbn in IH.
  rewrite Nat.add_1_r, <- app_assoc in IH. cbn [app] in IH. rewrite IH.
  destruct (p (kf e)); [|reflexivity].
  cbn [map app]. now rewrite nth_middle.
Qed.

Lemma expand_fst (rk : list value) (i : nat) (k : value) :
  Forall (fun e => fst e = i) (expand rk i k).
Proof.
  unfold expand. destruct (matches k rk) as [|j js]; [now repeat constructor|].
  apply Forall_forall. intros e He. apply in_map_iff in He.
  now destruct He as [x [<- _]].
Qed.

Lemma filter_const {A} (p : A -> bool) (b : bool) (l : list A) :
  Forall (fun x => p x = b) l -> filter p l = if b then l else [].
Proof.
  induction 1 as [|x l Hx _ IH]; [now destruct b|].
  cbn [filter]. rewrite Hx, IH. now destruct b.
Qed.

(** The pairs of a left join whose left key is [k]: the pairs of the left
    rows whose key is [k]. *)
Lemma filter_indexers (k : value) (rk lk : list value) :
  forall pre,
    filter (fun e => same_value k (nth (fst e) (pre ++ lk) nan))
           (indexers_from (List.length pre) lk rk)
    = flat_map (fun i => expand rk i (nth i (pre ++ lk) nan))
               (positions_from (List.length pre) (same_value k) lk).
Proof.
  induction lk as [|x lk IH]; intros pre; [reflexivity|].
  cbn [indexers_from positions_from]. rewrite filter_app, flat_map_app.
  specialize (IH (pre ++ [x])). rewrite length_app in IH. cbn in IH.
  rewrite Nat.add_1_r, <- app_assoc in IH. cbn [app] in IH. rewrite IH.
  f_equal.
  rewrite (filter_const _ (same_value k x)).
  - destruct (same_value k x); [|reflexivity].
    cbn [flat_map]. now rewrite nth_middle, app_nil_r.
  - eapply Forall_impl; [|apply expand_fst]. intros e ->.
    now rewrite nth_middle.
Qed.

(** *** The key of a join *)

Lemma get_key_get_column (df : DataFrame) (n : str) (c : column) :
  get_key df n = Ok c -> get_column df n = Ok c.
Proof.
  unfold get_key, get_column. induction df as [|x df IH]; [discriminate|].
  cbn [filter find]. destruct (str_eqb n (col_name x)) eqn:E; [|exact IH].
  destruct (filter _ df); [now intros [= <-]|discriminate].
Qed.

Lemma get_key_name (df : DataFrame) (n : str) (c : column) :
  get_key df n = Ok c -> col_name c = n.
Proof.
  intros H. apply get_key_get_column in H. unfold get_column in H.
  destruct (find _ df) as [x|] eqn:E; [|discriminate].
  injection H as <-. apply find_some in E. destruct E as [_ E].
  apply str_eqb_eq in E. now symmetry.
Qed.

Lemma get_key_missing (df : DataFrame) (n : str) :
  has_column df n = false -> get_key df n = Raise KeyError.
Proof.
  unfold has_column, mem, columns, get_key.
  induction df as [|x df IH]; [reflexivity|]. cbn [map existsb filter].
  intros H. apply orb_false_iff in H. destruct H as [-> H]. now apply IH.
Qed.

Lemma filter_label_map (g : column -> column) (df : DataFrame) (n : str) :
  (forall x, str_eqb n (col_name (g x)) = str_eqb n (col_name x)) ->
  filter (fun c => str_eqb n (col_name c)) (map g df)
  = map g (filter (fun c => str_eqb n (col_name c)) df).
Proof.
  intros Hg. induction df as [|x df IH]; [reflexivity|].
  cbn [map filter]. rewrite Hg.
  destruct (str_eqb n (col_name x)); cbn [map]; now rewrite IH.
Qed.

Lemma get_key_map (g : column -> column) (df : DataFrame) (n : str)
    (c : column) :
  (forall x, str_eqb n (col_name (g x)) = str_eqb n (col_name x)) ->
  get_key df n = Ok c -> get_key (map g df) n = Ok (g c).
Proof.
  intros Hg. unfold get_key. rewrite (filter_label_map g df n Hg).
  destruct (filter _ df) as [|y [|z r]]; cbn [map]; try discriminate.
  now intros [= ->].
Qed.

Lemma get_key_filter_rows (df : DataFrame) (mask : list bool) (n : str)
    (c : column) :
  get_key df n = Ok c ->
  get_key (filter_rows mask df) n
  = Ok (Column (col_name c) (col_dtype c) (select mask (cells c))).
Proof.
  intros H. unfold filter_rows.
  now apply (get_key_map
               (fun c => Column (col_name c) (col_dtype c)
                           (select mask (cells c)))).
Qed.

Lemma get_key_drop_columns (df : DataFrame) (names : list str) (n : str) :
  mem n names = false ->
  get_key (drop_columns df names) n = get_key df n.
Proof.
  intros Hn. unfold get_key, drop_columns.
  assert (filter (fun c => str_eqb n (col_name c))
            (filter (fun c => negb (mem (col_name c) names)) df)
          = filter (fun c => str_eqb n (col_name c)) df) as ->; [|reflexivity].
  induction df as [|c df IH]; [reflexivity|]. cbn [filter].
  destruct (str_eqb n (col_name c)) eqn:E.
  - assert (mem (col_name c) names = false) as ->.
    { apply str_eqb_eq in E. now rewrite <- E. }
    cbn [negb filter]. now rewrite E, IH.
  - destruct (negb (mem (col_name c) names)); [|exact IH].
    cbn [filter]. now rewrite E.
Qed.

Lemma dtype_eqb_refl (t : dtype) : dtype_eqb t t = true.
Proof. now destruct t. Qed.

Lemma nth_map_default {A B} (g : A -> B) (l : list A) (d : A) (b : B) (p : nat) :
  p < List.length l -> nth p (map g l) b = g (nth p l d).
Proof.
  intros H. rewrite (nth_indep _ b (g d)) by now rewrite length_map.
  apply map_nth.
Qed.

Lemma suffix_x_not_key (n : str) : str_eqb EVENT_ID (n ++ lit "_x") = false.
Proof.
  destruct (str_eqb _ _) eqn:E; [|reflexivity]. apply str_eqb_eq in E.
  apply (f_equal (@rev N)) in E. rewrite rev_app_distr in E. discriminate.
Qed.

Lemma suffix_y_not_key (n : str) : str_eqb EVENT_ID (n ++ lit "_y") = false.
Proof.
  destruct (str_eqb _ _) eqn:E; [|reflexivity]. apply str_eqb_eq in E.
  apply (f_equal (@rev N)) in E. rewrite rev_app_distr in E. discriminate.
Qed.

Lemma find_key_left (g : column -> column) (left rest : DataFrame)
    (lk : column) :
  (forall c, str_eqb EVENT_ID (col_name (g c))
             = str_eqb EVENT_ID (col_name c)) ->
  find (fun c => str_eqb EVENT_ID (col_name c)) left = Some lk ->
  find (fun c => str_eqb EVENT_ID (col_name c)) (map g left ++ rest)
  = Some (g lk).
Proof.
  intros Hg. induction left as [|c left IH]; [discriminate|].
  cbn [find map app]. rewrite Hg.
  destruct (str_eqb EVENT_ID (col_name c)); [now intros [= <-]|exact IH].
Qed.

Lemma suffixed_key (others : list str) (n : str) :
  str_eqb EVENT_ID (suffixed EVENT_ID others (lit "_x") n)
  = str_eqb EVENT_ID n.
Proof.
  unfold suffixed. destruct (str_eqb n EVENT_ID) eqn:E; [reflexivity|].
  cbn [negb andb]. destruct (mem n others); [|reflexivity].
  rewrite suffix_x_not_key. now rewrite str_eqb_sym.
Qed.

Lemma suffixed_key_right (others : list str) (n : str) :
  str_eqb EVENT_ID (suffixed EVENT_ID others (lit "_y") n)
  = str_eqb EVENT_ID n.
Proof.
  unfold suffixed. destruct (str_eqb n EVENT_ID) eqn:E; [reflexivity|].
  cbn [negb andb]. destruct (mem n others); [|reflexivity].
  rewrite suffix_y_not_key. now rewrite str_eqb_sym.
Qed.

(** *** The joined frame *)

Lemma join_sides_rows (key : str) (left right : DataFrame) (lk : column) :
  cells lk <> [] -> join_sides key left right lk = (left, non_key key right).
Proof. unfold join_sides. now destruct (cells lk). Qed.

Lemma join_on_ok (key : str) (left right : DataFrame) (lk rk : column) :
  cells lk <> [] ->
  join_refused key left right lk = false ->
  join_on key left right lk rk
  = Ok (joined key left (non_key key right)
          (left_join_indexers (cells lk) (cells rk))).
Proof.
  intros Hr. unfold join_on, join_refused.
  rewrite (join_sides_rows key left right lk Hr). cbn [fst snd].
  now intros ->.
Qed.

Lemma columns_joined (key : str) (lcols rcols : DataFrame)
    (idx : list (nat * option nat)) :
  columns (joined key lcols rcols idx)
  = joined_labels key (columns lcols) (columns rcols).
Proof.
  unfold columns, joined, joined_labels. now rewrite map_app, !map_map.
Qed.

Lemma row_at_joined (key : str) (lcols rcols : DataFrame)
    (idx : list (nat * option nat)) (p : nat) :
  p < List.length idx ->
  row_at (joined key lcols rcols idx) p
  = joined_row lcols rcols idx (nth p idx (0, None)).
Proof.
  intros Hp. unfold row_at, joined, joined_row. rewrite map_app, !map_map.
  cbn [cells]. f_equal.
  - apply map_ext. intros c. unfold take_left.
    now rewrite (nth_map_default _ idx (0, None)).
  - apply map_ext. intros c. unfold take_right.
    now rewrite (nth_map_default _ idx (0, None)).
Qed.

Lemma get_column_joined (left rcols : DataFrame)
    (idx : list (nat * option nat)) (lk : column) :
  get_column left EVENT_ID = Ok lk ->
  get_column (joined EVENT_ID left rcols idx) EVENT_ID
  = Ok (Column EVENT_ID (col_dtype lk) (take_left idx (cells lk))).
Proof.
  unfold get_column, joined.
  destruct (find _ left) as [c|] eqn:E; [|discriminate]. intros [= ->].
  rewrite (find_key_left _ left _ lk);
    [|intros c; apply suffixed_key|exact E].
  apply find_some in E. destruct E as [_ E]. apply str_eqb_eq in E.
  unfold suffixed. now rewrite <- E, str_eqb_refl.
Qed.

Lemma non_key_no_key (right : DataFrame) :
  filter (fun c => str_eqb EVENT_ID (col_name c)) (non_key EVENT_ID right)
  = [].
Proof.
  unfold non_key. induction right as [|c right IH]; [reflexivity|].
  cbn [filter]. destruct (str_eqb (col_name c) EVENT_ID) eqn:E;
    cbn [negb]; [exact IH|].
  cbn [filter]. now rewrite str_eqb_sym, E.
Qed.

Lemma get_key_joined (left right : DataFrame)
    (idx : list (nat * option nat)) (lk : column) :
  get_key left EVENT_ID = Ok lk ->
  get_key (joined EVENT_ID left (non_key EVENT_ID right) idx) EVENT_ID
  = Ok (Column EVENT_ID (col_dtype lk) (take_left idx (cells lk))).
Proof.
  intros Hl. pose proof (get_key_name _ _ _ Hl) as Hn.
  unfold get_key, joined in *. rewrite filter_app.
  rewrite (filter_label_map _ (non_key EVENT_ID right))
    by (intros x; apply suffixed_key_right).
  rewrite non_key_no_key. cbn [map]. rewrite app_nil_r.
  rewrite (filter_label_map _ left) by (intros x; apply suffixed_key).
  destruct (filter _ left) as [|y [|z r]]; cbn [map]; try discriminate.
  injection Hl as ->. unfold suffixed. now rewrite Hn, str_eqb_refl.
Qed.

Lemma positions_from_sat (p : value -> bool) (d : value) (ks : list value) :
  forall pre n,
    In n (positions_from (List.length pre) p ks) ->
    p (nth n (pre ++ ks) d) = true.
Proof.
  induction ks as [|x ks IH]; intros pre n; cbn [positions_from];
    [contradiction|].
  rewrite in_app_iff. intros [H|H].
  - destruct (p x) eqn:E; [|contradiction]. destruct H as [<-|[]].
    now rewrite nth_middle.
  - specialize (IH (pre ++ [x]) n). rewrite length_app in IH. cbn in IH.
    rewrite Nat.add_1_r, <- app_assoc in IH. now apply IH.
Qed.

Lemma flat_map_ext_in {A B} (f g : A -> list B) (l : list A) :
  (forall a, In a l -> f a = g a) -> flat_map f l = flat_map g l.
Proof.
  induction l as [|a l IH]; intros H; [reflexivity|].
  cbn [flat_map]. rewrite (H a (or_introl eq_refl)), IH; [reflexivity|].
  intros b Hb. apply H. now right.
Qed.

(** Fan-out: the rows of the joined frame for a key are, for each left row
    with that key in turn, one row per right row with that key. *)
Lemma rows_matching_joined (left rcols : DataFrame) (lk : column)
    (rk : list value) (k : value) :
  get_column left EVENT_ID = Ok lk ->
  rows_matching
    (joined EVENT_ID left rcols (left_join_indexers (cells lk) rk))
    EVENT_ID k
  = map (joined_row left rcols (left_join_indexers (cells lk) rk))
        (flat_map (fun i => expand rk i k) (matches k (cells lk))).
Proof.
  intros Hl. unfold rows_matching. rewrite (get_column_joined _ _ _ _ Hl).
  cbn [cells].
  set (idx := left_join_indexers (cells lk) rk).
  set (kf := fun e : nat * option nat => nth (fst e) (cells lk) nan).
  change (take_left idx (cells lk)) with (map kf idx). unfold matches at 1.
  rewrite (map_ext_in _ (fun p => joined_row left rcols idx
                                    (nth p idx (0, None)))).
  2:{ intros p Hp. apply row_at_joined.
      apply positions_from_bounds in Hp. rewrite length_map in Hp. lia. }
  rewrite <- (map_map (fun p => nth p idx (0, None))
                      (joined_row left rcols idx)).
  f_equal.
  pose proof (positions_from_nth kf (same_value k) (0, None) idx []) as Hn.
  cbn [app List.length] in Hn. rewrite Hn. clear Hn.
  subst idx kf. unfold left_join_indexers.
  pose proof (filter_indexers k rk (cells lk) []) as Hf.
  cbn [app List.length] in Hf. rewrite Hf. clear Hf.
  apply flat_map_ext_in. intros i Hi. unfold expand.
  rewrite (matches_same k (nth i (cells lk) nan)); [reflexivity|].
  apply (positions_from_sat (same_value k) nan (cells lk) [] i Hi).
Qed.

(** A second join against a frame with at most one row per key adds the
    same cells to every row of that key, and no row. *)
Lemma rows_matching_unique_right (left rcols : DataFrame) (lk : column)
    (rk : list value) (k : value) :
  get_column left EVENT_ID = Ok lk ->
  List.length (matches k rk) <= 1 ->
  rows_matching
    (joined EVENT_ID left rcols (left_join_indexers (cells lk) rk))
    EVENT_ID k
  = map (fun r =>
           r ++ map (fun c =>
                       right_cell
                         (has_unmatched (left_join_indexers (cells lk) rk))
                         c (hd_error (matches k rk))) rcols)
        (rows_matching left EVENT_ID k).
Proof.
  intros Hl Hone. rewrite (rows_matching_joined left rcols lk rk k Hl).
  unfold rows_matching at 1. rewrite Hl. unfold expand.
  destruct (matches k rk) as [|j [|j' js]]; cbn in Hone; [| |lia].
  - induction (matches k (cells lk)) as [|i ps IH]; [reflexivity|].
    cbn [flat_map map app]. now rewrite IH.
  - induction (matches k (cells lk)) as [|i ps IH]; [reflexivity|].
    cbn [flat_map map app] in *. now rewrite IH.
Qed.

Lemma indexers_nonempty (lk rk : list value) :
  lk <> [] -> left_join_indexers lk rk <> [].
Proof.
  destruct lk as [|x lk]; [congruence|]. intros _.
  unfold left_join_indexers. cbn [indexers_from]. unfold expand.
  destruct (matches x rk); discriminate.
Qed.

Section Joins.
Context {M : MergeKeys}.

Lemma merge_left_join (left right : DataFrame) (key : str) (lk rk : column) :
  get_key left key = Ok lk -> get_key right key = Ok rk ->
  col_dtype lk = col_dtype rk ->
  merge_left left right key = join_on key left right lk rk.
Proof.
  intros Hl Hr Ht. unfold merge_left. rewrite Hr, Hl. cbn [bind].
  unfold keys_agree. now rewrite Ht, dtype_eqb_refl, orb_true_r.
Qed.

Lemma merge_left_ok (left right : DataFrame) (lk rk : column) :
  get_key left EVENT_ID = Ok lk -> get_key right EVENT_ID = Ok rk ->
  col_dtype lk = col_dtype rk ->
  cells lk <> [] ->
  join_refused EVENT_ID left right lk = false ->
  merge_left left right EVENT_ID
  = Ok (joined EVENT_ID left (non_key EVENT_ID right)
          (left_join_indexers (cells lk) (cells rk))).
Proof.
  intros Hl Hr Ht Hn Hs. rewrite (merge_left_join _ _ _ lk rk Hl Hr Ht).
  now apply join_on_ok.
Qed.
End Joins.

(** After [drop_duplicates] a key value is on one row at most. *)
Lemma dedup_count (k : value) (ks : list value) :
  forall seen,
    List.length
      (filter (same_key k)
              (select (map negb (duplicated_first seen ks)) ks))
    <= if existsb (same_key k) seen then 0 else 1.
Proof.
  induction ks as [|x ks IH]; intros seen.
  - cbn. destruct (existsb _ seen); lia.
  - cbn [duplicated_first map select]. specialize (IH (x :: seen)).
    cbn [existsb] in IH.
    destruct (existsb (same_key x) seen) eqn:Dup; cbn [negb].
    + destruct (existsb (same_key k) seen);
        [now rewrite orb_true_r in IH|].
      destruct (same_key k x || false); lia.
    + cbn [filter]. destruct (same_key k x) eqn:E.
      * cbn [orb List.length] in *.
        destruct (existsb (same_key k) seen) eqn:Seen; [|lia].
        exfalso. apply existsb_exists in Seen. destruct Seen as [y [Hy Ky]].
        rewrite (same_key_trans k x y E) in Ky.
        assert (existsb (same_key x) seen = true) as Hx
            by (apply existsb_exists; eauto).
        congruence.
      * cbn [orb] in IH. exact IH.
Qed.

Lemma get_column_drop_columns (df : DataFrame) (names : list str) (n : str) :
  mem n names = false ->
  get_column (drop_columns df names) n = get_column df n.
Proof.
  intros Hn. unfold get_column, drop_columns.
  induction df as [|c df IH]; [reflexivity|]. cbn [filter find].
  destruct (str_eqb n (col_name c)) eqn:E.
  - assert (mem (col_name c) names = false) as ->.
    { apply str_eqb_eq in E. now rewrite <- E. }
    cbn [negb find]. now rewrite E.
  - destruct (negb (mem (col_name c) names)); [|exact IH].
    cbn [find]. now rewrite E.
Qed.

Lemma get_column_filter_rows (df : DataFrame) (mask : list bool) (n : str)
    (c : column) :
  get_column df n = Ok c ->
  get_column (filter_rows mask df) n
  = Ok (Column (col_name c) (col_dtype c) (select mask (cells c))).
Proof.
  unfold get_column, filter_rows.
  induction df as [|x df IH]; [discriminate|]. cbn [map find col_name].
  destruct (str_eqb n (col_name x)); [now intros [= <-]|exact IH].
Qed.

Lemma select_In {A} (mask : list bool) :
  forall (l : list A) (x : A), In x (select mask l) -> In x l.
Proof.
  induction mask as [|m mask IH]; intros l x H; [destruct H|].
  destruct l as [|y l]; [destruct H|]. cbn [select] in H.
  destruct m; [destruct H as [<-|H]|]; cbn [In]; auto.
Qed.

(** The key column of the cleaned locations. *)
Lemma limpiar_lugares_get_key (lugares_df : DataFrame) (kl : column) :
  get_key lugares_df EVENT_ID = Ok kl ->
  get_key (Limpieza.limpiar_lugares lugares_df) EVENT_ID
  = Ok (Column (col_name kl) (col_dtype kl) (first_keys (cells kl))).
Proof.
  intros Hk. unfold Limpieza.limpiar_lugares.
  rewrite get_column_drop_columns by reflexivity.
  rewrite (get_key_get_column _ _ _ Hk).
  unfold Limpieza.drop_duplicates. apply get_key_filter_rows.
  now rewrite get_key_drop_columns by reflexivity.
Qed.

(** It holds a key that is no null once at most. *)
Lemma first_keys_count (k : value) (ks : list value) :
  notnull k = true -> List.length (matches k (first_keys ks)) <= 1.
Proof.
  intros Hn. unfold matches, first_keys. rewrite positions_from_length.
  rewrite (filter_ext (same_value k) (same_key k))
    by (intros x; symmetry; now apply same_key_notnull).
  apply (dedup_count k ks []).
Qed.

(** When the nulls of the locations' key are of one kind, it holds every
    key once at most as a join matches keys: [drop_duplicates] keeps one
    null of each kind, and a join takes them all for one key. *)
Lemma first_keys_matches (ks : list value) :
  one_null_kind ks = true ->
  forall k, List.length (matches k (first_keys ks)) <= 1.
Proof.
  intros H k. destruct (isnull k) eqn:Nk;
    [|apply first_keys_count; unfold notnull; now rewrite Nk].
  unfold matches, first_keys. rewrite positions_from_length.
  unfold one_null_kind in H.
  destruct (filter isnull ks) as [|x0 r] eqn:F.
  - rewrite (filter_ext_in (same_value k) (same_key k));
      [apply (dedup_count k ks [])|].
    intros y Hy. apply select_In in Hy. unfold same_key, same_value.
    rewrite Nk. destruct (isnull y) eqn:Ny; [|reflexivity].
    assert (In y (filter isnull ks)) as Hin by (apply filter_In; auto).
    rewrite F in Hin. destruct Hin.
  - assert (isnull x0 = true) as N0.
    { assert (In x0 (filter isnull ks)) as Hin by (rewrite F; now left).
      now apply filter_In in Hin. }
    rewrite (filter_ext_in (same_value k) (same_key x0));
      [apply (dedup_count x0 ks [])|].
    intros y Hy. apply select_In in Hy. unfold same_key, same_value.
    rewrite Nk, N0. destruct (isnull y) eqn:Ny; [|reflexivity].
    assert (In y (filter isnull ks)) as Hin by (apply filter_In; auto).
    rewrite F in Hin. cbn [andb]. symmetry. apply N.eqb_eq.
    destruct Hin as [->|Hin]; [reflexivity|].
    rewrite forallb_forall in H. symmetry. apply N.eqb_eq. now apply H.
Qed.

(** The cells a join takes from a right row are the cells of that row, an
    integer written as a float when some left row has no match; without a
    right row they are nulls. *)
Lemma right_cell_row (u : bool) (rcols : DataFrame) (j : nat) :
  Forall2 joined_cell
    (map (fun c => right_cell u c (Some j)) rcols) (row_at rcols j).
Proof.
  unfold row_at. induction rcols as [|c rcols IH]; [constructor|].
  cbn [map]. constructor; [|exact IH]. unfold right_cell, joined_cell.
  destruct u; [|now left]. unfold na_cast.
  destruct (col_dtype c); try now left.
  destruct (nth j (cells c) nan); try now left. right. eauto.
Qed.

Lemma right_cell_null (u : bool) (rcols : DataFrame) :
  Forall (fun v => isnull v = true)
    (map (fun c => right_cell u c None) rcols).
Proof.
  induction rcols as [|c rcols IH]; [constructor|]. cbn [map].
  constructor; [|exact IH]. unfold right_cell, na_value.
  now destruct (col_dtype c).
Qed.

Lemma right_row_cells (lk rk : list value) (right : DataFrame)
    (j : option nat) :
  match j with
  | Some j =>
      Forall2 joined_cell (right_row lk rk right (Some j))
        (row_at (non_key EVENT_ID right) j)
  | None => Forall (fun v => isnull v = true) (right_row lk rk right None)
  end.
Proof.
  unfold right_row. destruct j as [j|];
    [apply right_cell_row|apply right_cell_null].
Qed.

Lemma matches_nil_rows (k : value) (ks : list value) (i : nat) :
  matches k ks = [i] -> ks <> [].
Proof. now destruct ks. Qed.

(** The two joins of line 225 on frames that have rows and one key. *)
Lemma master_ok {M : MergeKeys}
    (detalles_df fatalidades_df lugares_df : DataFrame) (kd kf kl : column) :
  get_key detalles_df EVENT_ID = Ok kd ->
  get_key fatalidades_df EVENT_ID = Ok kf ->
  get_key lugares_df EVENT_ID = Ok kl ->
  col_dtype kf = col_dtype kd ->
  col_dtype kl = col_dtype kd ->
  cells kd <> [] ->
  joins_refused detalles_df fatalidades_df lugares_df = false ->
  Limpieza.master detalles_df fatalidades_df lugares_df
  = Ok (joined EVENT_ID
          (joined EVENT_ID detalles_df (non_key EVENT_ID fatalidades_df)
             (left_join_indexers (cells kd) (cells kf)))
          (non_key EVENT_ID lugares_df)
          (left_join_indexers (joined_keys (cells kd) (cells kf))
             (cells kl))).
Proof.
  intros Hd Hf Hl Tf Tl Hr Hs. unfold joins_refused in Hs.
  apply orb_false_iff in Hs. destruct Hs as [Hs1 Hs2].
  unfold Limpieza.master.
  rewrite (merge_left_ok detalles_df fatalidades_df kd kf Hd Hf);
    [|now symmetry|exact Hr
     |unfold join_refused; now rewrite (join_sides_rows _ _ _ _ Hr)].
  cbn [bind].
  set (idx1 := left_join_indexers (cells kd) (cells kf)).
  pose proof (get_key_joined detalles_df fatalidades_df idx1 kd Hd) as Hm.
  assert (take_left idx1 (cells kd) <> []) as Hr1.
  { unfold take_left. intros E. apply map_eq_nil in E.
    now apply (indexers_nonempty (cells kd) (cells kf)). }
  rewrite (merge_left_ok _ lugares_df _ kl Hm Hl);
    [reflexivity|now symmetry|exact Hr1|].
  unfold join_refused. rewrite join_sides_rows by exact Hr1. cbn [fst snd].
  now rewrite columns_joined.
Qed.

(** C5. Merge fan-out. The three frames hold the column [EVENT_ID] once,
    of one dtype, and pandas does not refuse the joins for their suffixes.
    When the details hold the key [k], no null, on the single row [i] and
    the fatalities hold it on the three rows [j1], [j2], [j3], the frame
    that line 225 builds from them and the cleaned locations has exactly
    three rows for [k], in the fatalities' order: each is the details row,
    then the cells of the fatality row without its key, then one and the
    same locations part.  The fatality cells are those of the fatality row
    (an integer as a float when some event has no fatality); the locations
    part is the cells of the first location row of [k], or nulls when there
    is none. *)
Theorem merge_fan_out {M : MergeKeys}
    (detalles_df fatalidades_df lugares_df : DataFrame)
    (kd kf kl : column) (k : value) (i j1 j2 j3 : nat) :
  notnull k = true ->
  get_key detalles_df EVENT_ID = Ok kd ->
  get_key fatalidades_df EVENT_ID = Ok kf ->
  get_key lugares_df EVENT_ID = Ok kl ->
  col_dtype kf = col_dtype kd ->
  col_dtype kl = col_dtype kd ->
  joins_refused detalles_df fatalidades_df
    (Limpieza.limpiar_lugares lugares_df) = false ->
  matches k (cells kd) = [i] ->
  matches k (cells kf) = [j1; j2; j3] ->
  let lugares := Limpieza.limpiar_lugares lugares_df in
  let fat := right_row (cells kd) (cells kf) fatalidades_df in
  let row := hd_error (matches k (first_keys (cells kl))) in
  let loc :=
    right_row (joined_keys (cells kd) (cells kf)) (first_keys (cells kl))
      lugares row in
  exists master_df,
    Limpieza.master detalles_df fatalidades_df lugares = Ok master_df
    /\ rows_matching master_df EVENT_ID k
       = [row_at detalles_df i ++ fat (Some j1) ++ loc;
          row_at detalles_df i ++ fat (Some j2) ++ loc;
          row_at detalles_df i ++ fat (Some j3) ++ loc]
    /\ (forall j, Forall2 joined_cell (fat (Some j))
                    (row_at (non_key EVENT_ID fatalidades_df) j))
    /\ match row with
       | Some j =>
           Forall2 joined_cell loc (row_at (non_key EVENT_ID lugares) j)
       | None => Forall (fun v => isnull v = true) loc
       end.
Proof.
  intros Hn Hd Hf Hl Tf Tl Hs Hi Hj lugares fat row loc.
  pose proof (limpiar_lugares_get_key lugares_df kl Hl) as Hl'.
  pose proof (matches_nil_rows _ _ _ Hi) as Hr.
  eexists. split.
  { apply (master_ok detalles_df fatalidades_df lugares kd kf _ Hd Hf Hl');
      assumption. }
  cbn [cells]. split; [|split].
  - set (idx1 := left_join_indexers (cells kd) (cells kf)).
    pose proof (get_column_joined detalles_df
                  (non_key EVENT_ID fatalidades_df) idx1 kd
                  (get_key_get_column _ _ _ Hd)) as Hm.
    pose proof (rows_matching_unique_right _ (non_key EVENT_ID lugares) _
                  (first_keys (cells kl)) k Hm (first_keys_count k _ Hn))
      as Hu.
    cbn [cells] in Hu. subst idx1 loc fat row. unfold joined_keys.
    rewrite Hu.
    rewrite (rows_matching_joined detalles_df _ kd (cells kf) k
               (get_key_get_column _ _ _ Hd)).
    rewrite Hi. cbn [flat_map]. rewrite app_nil_r. unfold expand.
    rewrite Hj. cbn [map]. unfold joined_row, right_row, joined_keys.
    cbn [fst snd]. now rewrite <- !app_assoc.
  - intros j. apply (right_row_cells _ _ fatalidades_df (Some j)).
  - subst loc. destruct row as [j|].
    + apply (right_row_cells _ _ lugares (Some j)).
    + apply (right_row_cells _ _ lugares None).
Qed.

Lemma merge_fan_out_witness :
  exists master_df,
    @Limpieza.master excerpt_keys details_example fatalities_E1
      (Limpieza.limpiar_lugares locations_example) = Ok master_df
    /\ rows_matching master_df EVENT_ID E1
       = [[E1; VStr (lit "TEXAS"); VFloat (Fin 10); VFloat (Fin 30);
           VStr (lit "AUSTIN")];
          [E1; VStr (lit "TEXAS"); VFloat (Fin 12); VInt (-1);
           VStr (lit "AUSTIN")];
          [E1; VStr (lit "TEXAS"); VFloat (Fin 13); VFloat (Fin 62);
           VStr (lit "AUSTIN")]].
Proof.
  destruct (@merge_fan_out excerpt_keys details_example fatalities_E1
              locations_example
              (Column EVENT_ID Object [VStr (lit "E0"); E1])
              (Column EVENT_ID Object [E1; VStr (lit "E9"); E1; E1])
              (Column EVENT_ID Object [E1; E1; VStr (lit "E0")])
              E1 1 0 2 3 eq_refl eq_refl eq_refl eq_refl eq_refl eq_refl
              eq_refl eq_refl eq_refl) as [m [Hm [Hrows _]]].
  exists m. split; [exact Hm|]. rewrite Hrows. vm_compute. reflexivity.
Defined.

(** A join that pandas refuses for its keys: the details of the example,
    whose key is a text, against fatalities whose key is an integer. *)
Example merge_left_text_on_number {M : MergeKeys} :
  merge_left details_example fatalities_example EVENT_ID = Raise ValueError.
Proof.
  unfold merge_left. cbn [get_key details_example fatalities_example filter
    col_name str_eqb bind].
  change (get_key fatalities_example EVENT_ID)
    with (Ok (Column EVENT_ID Int64 [VInt 7; VInt 7; VInt 7])).
  change (get_key details_example EVENT_ID)
    with (Ok (Column EVENT_ID Object [VStr (lit "E0"); E1])).
  cbn [bind]. change (keys_agree _ _) with false. cbv iota.
  now rewrite (proj1 (key_mismatch_text
                        (Column EVENT_ID Object [VStr (lit "E0"); E1])
                        (Column EVENT_ID Int64 [VInt 7; VInt 7; VInt 7])
                        eq_refl eq_refl)).
Qed.

(** A join that pandas refuses for its suffixes: [STATE] on both sides
    becomes [STATE_x] on the left, where that label stands already. *)
Example merge_left_suffix_clash {M : MergeKeys} :
  merge_left
    (details_example ++ [Column (lit "STATE_x") Object [nan; nan]])
    (Column (lit "STATE") Object [nan; nan; nan; nan] :: fatalities_E1)
    EVENT_ID
  = Raise MergeError.
Proof. reflexivity. Qed.

(* ================================================================== *)
(** * Further properties of the code *)

(** ** Joins: row counts, lost rows, missing keys *)





Lemma indexers_from_fst (rk lk : list value) :
  (forall k, List.length (matches k rk) <= 1) ->
  forall s, map fst (indexers_from s lk rk) = seq s (List.length lk).
Proof.
  intros Hone. induction lk as [|x lk IH]; intros s; [reflexivity|].
  cbn [indexers_from List.length seq]. rewrite map_app, IH.
  unfold expand. specialize (Hone x).
  destruct (matches x rk) as [|j [|j' js]]; cbn in *; [reflexivity..|lia].
Qed.

Lemma nrows_joined (left rcols : DataFrame) (idx : list (nat * option nat))
    (lk : column) :
  get_column left EVENT_ID = Ok lk ->
  nrows (joined EVENT_ID left rcols idx) = List.length idx.
Proof.
  intros Hl. unfold joined. destruct left as [|c left]; [discriminate|].
  cbn [map app nrows cells]. unfold take_left. apply length_map.
Qed.

(** What the cleaned locations keep of the key column: every key once. *)
Lemma limpiar_lugares_keys (lugares_df : DataFrame) (kl : column) :
  get_column lugares_df EVENT_ID = Ok kl ->
  get_column (Limpieza.limpiar_lugares lugares_df) EVENT_ID
  = Ok (Column (col_name kl) (col_dtype kl)
          (select (map negb (duplicated_first [] (cells kl))) (cells kl))).
Proof.
  intros Hk. unfold Limpieza.limpiar_lugares.
  rewrite get_column_drop_columns by reflexivity. rewrite Hk.
  unfold Limpieza.drop_duplicates. apply get_column_filter_rows.
  now rewrite get_column_drop_columns by reflexivity.
Qed.

(** X2. Joining the cleaned locations onto a frame with rows adds no row
    and loses none: the result has one row per row of the left frame, and
    row [p] of the result starts with row [p] of the left frame.  Both
    frames hold the key column once, of one dtype, pandas does not refuse
    their labels for the suffixes, and the nulls of the locations' key are
    of one kind: [drop_duplicates] keeps [None] and [NaN] apart, a join
    takes them for one key, so that a left row without key would be joined
    to both. *)
Theorem locations_join_keeps_rows {M : MergeKeys} (m lugares_df : DataFrame)
    (km kl : column) :
  get_key m EVENT_ID = Ok km ->
  get_key lugares_df EVENT_ID = Ok kl ->
  col_dtype km = col_dtype kl ->
  cells km <> [] ->
  one_null_kind (cells kl) = true ->
  join_refused EVENT_ID m (Limpieza.limpiar_lugares lugares_df) km = false ->
  exists m',
    merge_left m (Limpieza.limpiar_lugares lugares_df) EVENT_ID = Ok m'
    /\ nrows m' = List.length (cells km)
    /\ forall p, p < List.length (cells km) ->
         exists loc, row_at m' p = row_at m p ++ loc.
Proof.
  intros Hm Hl Ht Hr Hk Hs.
  pose proof (limpiar_lugares_get_key lugares_df kl Hl) as Hl'.
  eexists. split; [apply (merge_left_ok _ _ _ _ Hm Hl' Ht Hr Hs)|].
  cbn [cells]. set (rk := first_keys (cells kl)).
  assert (map fst (left_join_indexers (cells km) rk)
          = seq 0 (List.length (cells km))) as Hfst.
  { apply indexers_from_fst. now apply first_keys_matches. }
  assert (List.length (left_join_indexers (cells km) rk)
          = List.length (cells km)) as Hlen.
  { rewrite <- (length_map fst), Hfst. apply length_seq. }
  split; [now rewrite (nrows_joined _ _ _ _ (get_key_get_column _ _ _ Hm))|].
  intros p Hp. rewrite row_at_joined by lia. unfold joined_row.
  assert (fst (nth p (left_join_indexers (cells km) rk) (0, None)) = p) as ->.
  { change (fst (nth p (left_join_indexers (cells km) rk) (0, None)))
      with (fst (nth p (left_join_indexers (cells km) rk) (0, @None nat))).
    rewrite <- (map_nth fst), Hfst. cbn [fst]. now rewrite seq_nth. }
  eauto.
Qed.

Lemma locations_join_keeps_rows_witness :
  exists m',
    @merge_left excerpt_keys details_example
      (Limpieza.limpiar_lugares locations_example) EVENT_ID = Ok m'
    /\ nrows m' = List.length [VStr (lit "E0"); E1]
    /\ forall p, p < List.length [VStr (lit "E0"); E1] ->
         exists loc, row_at m' p = row_at details_example p ++ loc.
Proof.
  apply (@locations_join_keeps_rows excerpt_keys details_example
           locations_example
           (Column EVENT_ID Object [VStr (lit "E0"); E1])
           (Column EVENT_ID Object [E1; E1; VStr (lit "E0")]));
    try reflexivity.
  discriminate.
Defined.

(** Without the nulls of one kind a row is added: the locations keep a
    [None] and a [NaN], and the left row without key is joined to both. *)
Example locations_join_null_kinds {M : MergeKeys} :
  exists m',
    merge_left [Column EVENT_ID Object [nan]]
      (Limpieza.limpiar_lugares
         [Column EVENT_ID Object [VNone; nan];
          Column (lit "LOCATION") Object
            [VStr (lit "AUSTIN"); VStr (lit "DALLAS")]])
      EVENT_ID = Ok m'
    /\ rows m'
       = [[nan; VStr (lit "AUSTIN")]; [nan; VStr (lit "DALLAS")]].
Proof. eexists. split; reflexivity. Qed.

Lemma limpiar_lugares_missing_key (lugares_df : DataFrame) :
  has_column lugares_df EVENT_ID = false ->
  has_column (Limpieza.limpiar_lugares lugares_df) EVENT_ID = false.
Proof.
  intros H. unfold Limpieza.limpiar_lugares.
  rewrite get_column_drop_columns by reflexivity.
  rewrite (has_column_false_get _ _ H).
  destruct (has_column (drop_columns _ _) EVENT_ID) eqn:E; [|reflexivity].
  destruct (has_column_get _ _ E) as [c Hc].
  rewrite get_column_drop_columns in Hc by reflexivity.
  rewrite (has_column_false_get _ _ H) in Hc. discriminate.
Qed.

Section MissingKey.
Context {M : MergeKeys}.

Lemma merge_left_missing_right (left right : DataFrame) :
  has_column right EVENT_ID = false ->
  merge_left left right EVENT_ID = Raise KeyError.
Proof.
  intros H. unfold merge_left. now rewrite (get_key_missing _ _ H).
Qed.

Lemma merge_left_missing_left (left right : DataFrame) (rk : column) :
  get_key right EVENT_ID = Ok rk ->
  has_column left EVENT_ID = false ->
  merge_left left right EVENT_ID = Raise KeyError.
Proof.
  intros Hr H. unfold merge_left. now rewrite Hr, (get_key_missing _ _ H).
Qed.
End MissingKey.

(** X3. The two joins of line 225 raise [KeyError] when the fatalities
    lack the column [EVENT_ID]; when the details lack it and the fatalities
    hold it once; and when these two are joined (each holds the key once,
    of one dtype, and the labels are not refused for the suffixes) and it
    is the locations frame that lacks it: the cleaning of the locations
    accepts a frame without the key and returns it, the join that follows
    does not. *)
Theorem master_needs_key {M : MergeKeys}
    (detalles_df fatalidades_df lugares_df : DataFrame) :
  has_column fatalidades_df EVENT_ID = false
  \/ (exists kf,
        get_key fatalidades_df EVENT_ID = Ok kf
        /\ has_column detalles_df EVENT_ID = false)
  \/ (exists kd kf,
        get_key detalles_df EVENT_ID = Ok kd
        /\ get_key fatalidades_df EVENT_ID = Ok kf
        /\ col_dtype kd = col_dtype kf
        /\ join_refused EVENT_ID detalles_df fatalidades_df kd = false
        /\ has_column lugares_df EVENT_ID = false) ->
  Limpieza.master detalles_df fatalidades_df
    (Limpieza.limpiar_lugares lugares_df) = Raise KeyError.
Proof.
  unfold Limpieza.master.
  intros [H|[[kf [Hkf H]]|[kd [kf [Hkd [Hkf [Ht [Hs Hl]]]]]]]].
  - now rewrite merge_left_missing_right.
  - now rewrite (merge_left_missing_left _ _ kf).
  - rewrite (merge_left_join _ _ _ kd kf Hkd Hkf Ht).
    unfold join_on. unfold join_refused in Hs.
    destruct (join_sides EVENT_ID detalles_df fatalidades_df kd)
      as [lcols rcols].
    cbn [fst snd] in Hs. rewrite Hs. cbn [bind].
    apply merge_left_missing_right. now apply limpiar_lugares_missing_key.
Qed.

Lemma master_needs_key_witness :
  @Limpieza.master excerpt_keys details_example fatalities_E1
    (Limpieza.limpiar_lugares nulls_frame) = Raise KeyError.
Proof.
  apply (@master_needs_key excerpt_keys details_example fatalities_E1
           nulls_frame).
  right. right. exists (Column EVENT_ID Object [VStr (lit "E0"); E1]).
  exists (Column EVENT_ID Object [E1; VStr (lit "E9"); E1; E1]).
  repeat split; reflexivity.
Defined.

(** ** The locations cleaning *)

Lemma drop_duplicates_keeps_keys (k : value) (ks : list value) :
  forall seen,
    existsb (same_key k)
            (select (map negb (duplicated_first seen ks)) ks)
    || existsb (same_key k) seen
    = existsb (same_key k) ks || existsb (same_key k) seen.
Proof.
  induction ks as [|x ks IH]; intros seen; [reflexivity|].
  cbn [duplicated_first map select existsb].
  specialize (IH (x :: seen)). cbn [existsb] in IH.
  destruct (existsb (same_key x) seen) eqn:Dup; cbn [negb existsb].
  - destruct (same_key k x) eqn:E; cbn [orb] in *.
    + assert (existsb (same_key k) seen = true) as ->.
      { apply existsb_exists in Dup. destruct Dup as [y [Hy Hxy]].
        apply existsb_exists. exists y. split; [exact Hy|].
        now rewrite (same_key_trans k x y E). }
      now rewrite !orb_true_r.
    + exact IH.
  - destruct (same_key k x) eqn:E; cbn [orb] in *; [reflexivity|exact IH].
Qed.

Lemma columns_filter_rows (mask : list bool) (df : DataFrame) :
  columns (filter_rows mask df) = columns df.
Proof. unfold columns, filter_rows. rewrite map_map. reflexivity. Qed.

Lemma columns_drop_columns (df : DataFrame) (names : list str) :
  columns (drop_columns df names)
  = filter (fun n => negb (mem n names)) (columns df).
Proof.
  unfold columns, drop_columns. induction df as [|c df IH]; [reflexivity|].
  cbn [filter map]. destruct (negb (mem (col_name c) names)); cbn [map];
    now rewrite IH.
Qed.

(** X4. On a locations frame with the key column, the cleaning step drops
    the labels [LAT2] and [LON2] and keeps the others in order; in its
    result every key stands on one row at most, and every key of the input
    still has its row.  Keys are compared as [drop_duplicates] compares
    them: [None], [NaN] and [NaT] are three keys, each kept once.  A key
    that is no null is therefore matched by one row at most in a join. *)
Theorem limpiar_lugares_spec (lugares_df : DataFrame) (kl : column) :
  get_column lugares_df EVENT_ID = Ok kl ->
  columns (Limpieza.limpiar_lugares lugares_df)
  = filter (fun n => negb (mem n [lit "LAT2"; lit "LON2"])) (columns lugares_df)
  /\ exists kl',
       get_column (Limpieza.limpiar_lugares lugares_df) EVENT_ID = Ok kl'
       /\ forall k,
            List.length (filter (same_key k) (cells kl')) <= 1
            /\ existsb (same_key k) (cells kl')
               = existsb (same_key k) (cells kl)
            /\ (notnull k = true ->
                List.length (matches k (cells kl')) <= 1).
Proof.
  intros Hk. split.
  - unfold Limpieza.limpiar_lugares.
    rewrite get_column_drop_columns by reflexivity. rewrite Hk.
    unfold Limpieza.drop_duplicates.
    now rewrite columns_filter_rows, columns_drop_columns.
  - eexists. split; [apply (limpiar_lugares_keys _ _ Hk)|].
    intros k. cbn [cells]. split; [apply (dedup_count k (cells kl) [])|].
    split; [|intros Hn; now apply first_keys_count].
    pose proof (drop_duplicates_keeps_keys k (cells kl) []) as H.
    cbn [existsb] in H. now rewrite !orb_false_r in H.
Qed.

Lemma limpiar_lugares_spec_witness :
  columns (Limpieza.limpiar_lugares locations_example)
  = filter (fun n => negb (mem n [lit "LAT2"; lit "LON2"]))
           (columns locations_example)
  /\ exists kl',
       get_column (Limpieza.limpiar_lugares locations_example) EVENT_ID = Ok kl'
       /\ forall k,
            List.length (filter (same_key k) (cells kl')) <= 1
            /\ existsb (same_key k) (cells kl')
               = existsb (same_key k) [E1; E1; VStr (lit "E0")]
            /\ (notnull k = true ->
                List.length (matches k (cells kl')) <= 1).
Proof.
  apply (limpiar_lugares_spec locations_example
           (Column EVENT_ID Object [E1; E1; VStr (lit "E0")])).
  reflexivity.
Defined.

Lemma duplicated_first_ext (ks : list value) :
  forall s1 s2,
    (forall z, existsb (same_key z) s1 = existsb (same_key z) s2) ->
    duplicated_first s1 ks = duplicated_first s2 ks.
Proof.
  induction ks as [|x ks IH]; intros s1 s2 H; [reflexivity|].
  cbn [duplicated_first]. rewrite (H x). f_equal. apply IH.
  intros z. cbn [existsb]. now rewrite (H z).
Qed.

Lemma existsb_seen_again (x : value) (seen : list value) :
  existsb (same_key x) seen = true ->
  forall z, existsb (same_key z) seen
            = existsb (same_key z) (x :: seen).
Proof.
  intros Dup z. cbn [existsb].
  destruct (same_key z x) eqn:E; [|reflexivity]. cbn [orb].
  apply existsb_exists in Dup. destruct Dup as [y [Hy Hxy]].
  apply existsb_exists. exists y. split; [exact Hy|].
  now rewrite (same_key_trans z x y E).
Qed.

(** After [drop_duplicates] no value is seen twice. *)
Lemma duplicated_first_dedup (ks : list value) :
  forall seen,
    duplicated_first seen (select (map negb (duplicated_first seen ks)) ks)
    = repeat false
        (List.length (select (map negb (duplicated_first seen ks)) ks)).
Proof.
  induction ks as [|x ks IH]; intros seen; [reflexivity|].
  cbn [duplicated_first map select].
  destruct (existsb (same_key x) seen) eqn:Dup; cbn [negb].
  - rewrite (duplicated_first_ext _ seen (x :: seen)
               (existsb_seen_again x seen Dup)).
    apply IH.
  - cbn [duplicated_first List.length repeat]. rewrite Dup. f_equal. apply IH.
Qed.

Lemma select_length_le {A B} (mask : list bool) :
  forall (ks : list A) (cs : list B),
    List.length mask = List.length ks ->
    List.length (select mask cs) <= List.length (select mask ks).
Proof.
  induction mask as [|m mask IH]; intros ks cs H; [cbn; lia|].
  destruct ks as [|k ks]; [discriminate|]. injection H as H.
  destruct cs as [|c cs]; [cbn; lia|].
  cbn [select]. specialize (IH ks cs H). destruct m; cbn [List.length]; lia.
Qed.

Lemma select_all {A} (n : nat) :
  forall cs : list A,
    List.length cs <= n -> select (map negb (repeat false n)) cs = cs.
Proof.
  induction n as [|n IH]; intros cs H.
  - destruct cs; [reflexivity|cbn in H; lia].
  - destruct cs as [|c cs]; [reflexivity|]. cbn [repeat map negb select].
    f_equal. apply IH. cbn in H. lia.
Qed.

Lemma duplicated_first_length (ks : list value) :
  forall seen, List.length (duplicated_first seen ks) = List.length ks.
Proof.
  induction ks as [|x ks IH]; intros seen; [reflexivity|].
  cbn [duplicated_first List.length]. now rewrite IH.
Qed.

Lemma drop_columns_filter_rows (mask : list bool) (df : DataFrame)
    (names : list str) :
  drop_columns (filter_rows mask df) names
  = filter_rows mask (drop_columns df names).
Proof.
  unfold drop_columns, filter_rows. induction df as [|c df IH]; [reflexivity|].
  cbn [map filter col_name].
  destruct (negb (mem (col_name c) names)); cbn [map]; now rewrite IH.
Qed.

Lemma drop_columns_twice (df : DataFrame) (names : list str) :
  drop_columns (drop_columns df names) names = drop_columns df names.
Proof.
  unfold drop_columns. induction df as [|c df IH]; [reflexivity|].
  cbn [filter]. destruct (negb (mem (col_name c) names)) eqn:E; [|exact IH].
  cbn [filter]. rewrite E. now rewrite IH.
Qed.

Lemma get_column_filter_rows_key (mask : list bool) (df : DataFrame)
    (n : str) (c : column) :
  get_column df n = Ok c ->
  get_column (filter_rows mask df) n
  = Ok (Column (col_name c) (col_dtype c) (select mask (cells c))).
Proof.
  unfold get_column, filter_rows. induction df as [|x df IH]; [discriminate|].
  cbn [map find col_name]. destruct (str_eqb n (col_name x)).
  - intros [= ->]. reflexivity.
  - exact IH.
Qed.

(** X5. The locations cleaning is idempotent: a second pass finds the
    two labels gone and no key twice, and returns the frame as it is. *)
Theorem limpiar_lugares_idempotent (lugares_df : DataFrame) :
  Limpieza.limpiar_lugares (Limpieza.limpiar_lugares lugares_df)
  = Limpieza.limpiar_lugares lugares_df.
Proof.
  unfold Limpieza.limpiar_lugares, Limpieza.drop_duplicates.
  set (names := [lit "LAT2"; lit "LON2"]).
  destruct (get_column (drop_columns lugares_df names) EVENT_ID)
    as [key|e] eqn:Hk.
  - set (mask := map negb (duplicated_first [] (cells key))).
    rewrite drop_columns_filter_rows, drop_columns_twice.
    rewrite (get_column_filter_rows_key mask _ _ _ Hk). cbn [cells].
    unfold mask. rewrite duplicated_first_dedup. fold mask.
    unfold filter_rows. rewrite map_map.
    apply map_ext. intros c. cbn [col_name col_dtype cells]. f_equal.
    apply select_all. apply select_length_le.
    unfold mask. now rewrite length_map, duplicated_first_length.
  - rewrite drop_columns_twice, Hk. reflexivity.
Qed.

(** ** The passes that drop columns *)

Lemma filter_none {A} (p : A -> bool) (l : list A) :
  (forall x, In x l -> p x = false) -> filter p l = [].
Proof.
  induction l as [|x l IH]; intros H; [reflexivity|]. cbn [filter].
  rewrite (H x (or_introl eq_refl)). apply IH. intros y Hy. apply H.
  now right.
Qed.

(** After a drop pass no column is over the threshold. *)
Lemma columns_over_dropped (df : DataFrame) (threshold : Q) :
  columns_over (drop_columns df (columns_over df threshold)) threshold = [].
Proof.
  unfold columns_over at 1. apply (f_equal (map col_name) (y := [])).
  apply filter_none. intros c Hc. unfold drop_columns in Hc.
  apply filter_In in Hc. destruct Hc as [Hc Hk].
  destruct (gt_threshold (isnull_mean (cells c)) threshold) eqn:G;
    [|reflexivity].
  apply negb_true_iff, mem_false in Hk. exfalso. apply Hk.
  apply columns_over_In. exists c. auto.
Qed.

Lemma isnull_mean_le_1 (cs : list value) (threshold : Q) :
  (1 <= threshold)%Q ->
  gt_threshold (isnull_mean cs) threshold = false.
Proof.
  intros Ht. unfold isnull_mean. destruct cs as [|v cs]; [reflexivity|].
  cbn [gt_threshold]. apply negb_false_iff, Qle_bool_iff.
  apply Qle_trans with (y := 1%Q); [|exact Ht].
  unfold Qle. cbn [Qnum Qden]. unfold count_nulls.
  pose proof (filter_length_le isnull (v :: cs)) as Hle.
  set (n := List.length (filter isnull (v :: cs))) in *.
  set (m := List.length (v :: cs)) in *.
  assert (0 < m)%nat by (unfold m; cbn; lia).
  rewrite Z.mul_1_r, Z.mul_1_l.
  assert (Z.pos (Pos.of_nat m) = Z.of_nat m) as ->.
  { destruct m as [|m']; [lia|]. rewrite <- Pos.of_nat_succ.
    now rewrite Zpos_P_of_succ_nat, Nat2Z.inj_succ. }
  lia.
Qed.

(** X6. The drop pass of the cleaning and the drop pass of the final
    cleaning are idempotent: what a first pass leaves holds no column over
    the threshold, so that a second pass with the same threshold returns
    the frame as it is. *)
Theorem drop_pass_idempotent (df : DataFrame) (threshold : Q) :
  Limpieza.manejar_nulos (Limpieza.manejar_nulos df threshold) threshold
  = Limpieza.manejar_nulos df threshold
  /\ LimpiezaFinal.manejar_columnas_con_nulos
       (LimpiezaFinal.manejar_columnas_con_nulos df threshold) threshold
     = LimpiezaFinal.manejar_columnas_con_nulos df threshold.
Proof.
  split.
  - unfold Limpieza.manejar_nulos. rewrite columns_over_dropped.
    apply drop_columns_nil.
  - rewrite (manejar_columnas_con_nulos_drop df).
    unfold LimpiezaFinal.manejar_columnas_con_nulos.
    now rewrite columns_over_dropped.
Qed.

(** X7. A drop pass with a threshold of 1 or more drops nothing, and a
    frame without rows loses no column whatever the threshold: the share of
    nulls is at most 1, and it is NaN, which is over no threshold, for a
    column without rows. *)
Theorem drop_pass_keeps_all (df : DataFrame) (threshold : Q) :
  (1 <= threshold)%Q \/ Forall (fun c => cells c = []) df ->
  Limpieza.manejar_nulos df threshold = df
  /\ LimpiezaFinal.manejar_columnas_con_nulos df threshold = df.
Proof.
  intros H.
  assert (columns_over df threshold = []) as E.
  { unfold columns_over. apply (f_equal (map col_name) (y := [])).
    apply filter_none. intros c Hc. destruct H as [H|H].
    - now apply isnull_mean_le_1.
    - rewrite Forall_forall in H. now rewrite (H c Hc). }
  unfold Limpieza.manejar_nulos, LimpiezaFinal.manejar_columnas_con_nulos.
  rewrite E. split; [apply drop_columns_nil|reflexivity].
Qed.

Lemma drop_pass_keeps_all_witness :
  Limpieza.manejar_nulos nulls_frame 1 = nulls_frame
  /\ LimpiezaFinal.manejar_columnas_con_nulos nulls_frame 1 = nulls_frame.
Proof.
  apply (drop_pass_keeps_all nulls_frame 1). left. apply Qle_refl.
Defined.

(** X8. Every column that the first three steps of
    [preprocesamiento_general] leave is a column of the input under its
    normalized label, holds at least one value and is not over the
    threshold: a column without any value goes whatever the threshold. *)
Theorem preprocesamiento_columnas_kept {U : UnicodeData} (df : DataFrame)
    (umbral_nulos : Q) (c' : column) :
  In c' (Preprocesamiento.preprocesamiento_columnas df umbral_nulos) ->
  (exists c, In c df
             /\ c' = Column (Preprocesamiento.normalizar_nombre_columna
                               (col_name c))
                            (col_dtype c) (cells c))
  /\ existsb notnull (cells c') = true
  /\ gt_threshold (isnull_mean (cells c')) umbral_nulos = false.
Proof.
  unfold Preprocesamiento.preprocesamiento_columnas,
    Preprocesamiento.eliminar_columnas_nulas, drop_columns. intros H.
  apply filter_In in H. destruct H as [H Hk].
  unfold Preprocesamiento.dropna_all in H at 1.
  apply filter_In in H. destruct H as [H Hall].
  split; [|split].
  - unfold Preprocesamiento.renombrar_columnas in H. apply in_map_iff in H.
    destruct H as [c [E Hc]]. exists c. auto.
  - apply negb_true_iff in Hall. clear -Hall.
    induction (cells c') as [|v vs IH]; [discriminate|].
    cbn [forallb existsb] in *. unfold notnull at 1.
    destruct (isnull v); cbn [negb orb andb] in *; [now apply IH|reflexivity].
  - destruct (gt_threshold (isnull_mean (cells c')) umbral_nulos) eqn:G;
      [|reflexivity].
    apply negb_true_iff, mem_false in Hk. exfalso. apply Hk.
    apply columns_over_In. exists c'. repeat split; [|exact G].
    unfold Preprocesamiento.dropna_all. apply filter_In. auto.
Qed.

Lemma preprocesamiento_columnas_kept_witness :
  (exists c, In c nulls_frame
             /\ Column (lit "c") Int64 [VInt 1; VInt 2; VInt 3; VInt 4]
                = Column (@Preprocesamiento.normalizar_nombre_columna excerpt
                            (col_name c))
                         (col_dtype c) (cells c))
  /\ existsb notnull [VInt 1; VInt 2; VInt 3; VInt 4] = true
  /\ gt_threshold (isnull_mean [VInt 1; VInt 2; VInt 3; VInt 4]) (1 # 2)
     = false.
Proof.
  apply (@preprocesamiento_columnas_kept excerpt nulls_frame (1 # 2)
           (Column (lit "c") Int64 [VInt 1; VInt 2; VInt 3; VInt 4])).
  vm_compute. right. left. reflexivity.
Defined.

(** ** The fill pass and the duplicate flag of the final cleaning *)

(** X9. The fill pass of the final cleaning leaves nothing to fill: run on
    its own result it returns that frame unchanged and logs no line. *)
Theorem manejar_nulos_idempotent (df : DataFrame) :
  NoDup (columns df) ->
  exists df' log,
    LimpiezaFinal.manejar_nulos df = Ok (df', log)
    /\ LimpiezaFinal.manejar_nulos df' = Ok (df', []).
Proof.
  intros Hnd. destruct (manejar_nulos_spec df Hnd) as [df' [log [E [_ [Hnn _]]]]].
  exists df', log. split; [exact E|].
  unfold LimpiezaFinal.manejar_nulos, LimpiezaFinal.columnas_con_nulos.
  rewrite (filter_none (fun c => any_null (cells c)) df' Hnn). reflexivity.
Qed.

Lemma manejar_nulos_idempotent_witness :
  exists df' log,
    LimpiezaFinal.manejar_nulos nulls_frame = Ok (df', log)
    /\ LimpiezaFinal.manejar_nulos df' = Ok (df', []).
Proof.
  apply (manejar_nulos_idempotent nulls_frame).
  repeat constructor; cbn; intuition discriminate.
Defined.

(** ** The cleaning of the details *)

Lemma mapM_total {A B} (f : A -> result B) (l : list A) :
  (forall x, In x l -> exists y, f x = Ok y) -> exists l', mapM f l = Ok l'.
Proof.
  induction l as [|x l IH]; intros H; [now exists []|].
  destruct (H x (or_introl eq_refl)) as [y Hy].
  destruct IH as [ys Hys]; [intros z Hz; apply H; now right|].
  exists (y :: ys). cbn [mapM]. now rewrite Hy, Hys.
Qed.

Lemma mem_filter_false (n : str) (f : str -> bool) (l : list str) :
  mem n l = false -> mem n (filter f l) = false.
Proof.
  intros H. apply mem_false. intros Hin. apply mem_false in H. apply H.
  apply filter_In in Hin. tauto.
Qed.

Section DetailsFacts.
Context {U : UnicodeData}.

Lemma convertir_damage_text_number (s : str) (v' : value) :
  Limpieza.convertir_damage (VStr s) = Ok v' -> exists x, as_float v' = Some x.
Proof.
  unfold Limpieza.convertir_damage.
  destruct (re_match_damage (py_strip (py_upper s))) as [[g1 g3]|].
  - destruct (py_float g1) as [x|e].
    + destruct g3 as [[|p]|];
        try (intros [= <-]; cbn [as_float]; eauto).
      do 7 (destruct p as [p|p|]; try (intros [= <-]; cbn [as_float]; eauto)).
    + destruct (is_ValueError e); [|discriminate].
      intros [= <-]. cbn. eauto.
  - destruct (py_float (py_strip (py_upper s))) as [x|e];
      cbn [bind except_ValueError].
    + intros [= <-]. cbn. eauto.
    + destruct (is_ValueError e); [|discriminate].
      intros [= <-]. cbn. eauto.
Qed.

Lemma convertir_damage_zero_text :
  returns_number (Limpieza.convertir_damage (VStr (lit "0"))) 0.
Proof. vm_compute. reflexivity. Qed.

Lemma convertir_damage_filled (v : value) :
  exists v',
    Limpieza.convertir_damage (if isnull v then VStr (lit "0") else v) = Ok v'
    /\ damage_cleaned v v'.
Proof.
  destruct v as [| |x|z|b|s|y m d h mi|h mi];
    try (eexists; split; [reflexivity|]; cbn; reflexivity).
  - destruct x; try (eexists; split; [reflexivity|]; cbn; reflexivity).
  - destruct (limpieza_convertir_damage_returns s) as [v' Hv'].
    exists v'. split; [exact Hv'|]. split; [exact Hv'|].
    now apply convertir_damage_text_number with (s := s).
Qed.

Lemma convertir_damage_column (cs : list value) :
  exists ps,
    mapM Limpieza.convertir_damage (fillna (VStr (lit "0")) cs) = Ok ps
    /\ Forall2 damage_cleaned cs ps.
Proof.
  induction cs as [|v cs [ps [E IH]]]; [exists []; split; [reflexivity|constructor]|].
  destruct (convertir_damage_filled v) as [v' [Hv' Hc]].
  exists (v' :: ps). unfold fillna in *. cbn [map mapM].
  rewrite Hv', E. split; [reflexivity|]. now constructor.
Qed.
End DetailsFacts.

Lemma damage_names_differ : Limpieza.DAMAGE_PROPERTY <> Limpieza.DAMAGE_CROPS.
Proof. discriminate. Qed.

Lemma limpiar_detalles_ok {U : UnicodeData} (detalles_df : DataFrame)
    (p c : column) :
  get_column detalles_df Limpieza.DAMAGE_PROPERTY = Ok p ->
  get_column detalles_df Limpieza.DAMAGE_CROPS = Ok c ->
  exists df' ps cs,
    Limpieza.limpiar_detalles detalles_df = Ok df'
    /\ get_column df' Limpieza.DAMAGE_PROPERTY
       = Ok (Column Limpieza.DAMAGE_PROPERTY (infer_dtype ps) ps)
    /\ get_column df' Limpieza.DAMAGE_CROPS
       = Ok (Column Limpieza.DAMAGE_CROPS (infer_dtype cs) cs)
    /\ Forall2 damage_cleaned (cells p) ps
    /\ Forall2 damage_cleaned (cells c) cs.
Proof.
  pose proof damage_names_differ as Hne.
  intros Hp Hc. unfold Limpieza.limpiar_detalles. rewrite Hp. cbn [bind].
  destruct (convertir_damage_column (cells p)) as [ps [-> Fp]]. cbn [bind].
  rewrite (get_set_other _ _ _ _ _ Hne), Hc. cbn [bind].
  destruct (convertir_damage_column (cells c)) as [cs [-> Fc]]. cbn [bind].
  eexists. exists ps, cs. split; [reflexivity|].
  rewrite !get_column_drop_columns
    by (apply mem_filter_false; reflexivity).
  rewrite get_set_same.
  rewrite (get_set_other _ _ _ _ _ (not_eq_sym Hne)), get_set_same.
  auto.
Qed.

(** X10. The cleaning of the details fails with [KeyError] when one of the
    two damage columns is missing, and on a frame that has both it
    returns: no damage text makes it fail.  In the result both columns
    hold, cell by cell, the number parsed from a text, 0 for a null, and
    any other value as it was. *)
Theorem limpiar_detalles_spec {U : UnicodeData} (detalles_df : DataFrame) :
  (has_column detalles_df Limpieza.DAMAGE_PROPERTY
   && has_column detalles_df Limpieza.DAMAGE_CROPS = false ->
   Limpieza.limpiar_detalles detalles_df = Raise KeyError)
  /\ (forall p c,
        get_column detalles_df Limpieza.DAMAGE_PROPERTY = Ok p ->
        get_column detalles_df Limpieza.DAMAGE_CROPS = Ok c ->
        exists df' ps cs,
          Limpieza.limpiar_detalles detalles_df = Ok df'
          /\ get_column df' Limpieza.DAMAGE_PROPERTY
             = Ok (Column Limpieza.DAMAGE_PROPERTY (infer_dtype ps) ps)
          /\ get_column df' Limpieza.DAMAGE_CROPS
             = Ok (Column Limpieza.DAMAGE_CROPS (infer_dtype cs) cs)
          /\ Forall2 damage_cleaned (cells p) ps
          /\ Forall2 damage_cleaned (cells c) cs).
Proof.
  pose proof damage_names_differ as Hne.
  split.
  - intros H. unfold Limpieza.limpiar_detalles.
    destruct (has_column detalles_df Limpieza.DAMAGE_PROPERTY) eqn:Hp.
    + cbn [andb] in H. destruct (has_column_get _ _ Hp) as [p ->].
      cbn [bind]. destruct (convertir_damage_column (cells p)) as [ps [-> _]].
      cbn [bind]. rewrite (get_set_other _ _ _ _ _ Hne).
      now rewrite (has_column_false_get _ _ H).
    + now rewrite (has_column_false_get _ _ Hp).
  - intros p c. apply limpiar_detalles_ok.
Qed.

Lemma damage_cleaned_numeric {U : UnicodeData} (v v' : value) :
  csv_cell v = true -> damage_cleaned v v' -> numeric_cell v'.
Proof.
  unfold numeric_cell.
  destruct v as [| |x|z|b|s|y m d h mi|h mi]; cbn; try discriminate; intros _.
  - destruct (as_float v'); [eauto|tauto].
  - destruct (as_float v'); [eauto|tauto].
  - destruct x; try (intros ->; cbn; eauto).
    destruct (as_float v'); [eauto|tauto].
  - intros ->. cbn. eauto.
  - intros ->. cbn. eauto.
  - tauto.
Qed.

Lemma damage_cleaned_column {U : UnicodeData} (cs ps : list value) :
  Forall (fun v => csv_cell v = true) cs ->
  Forall2 damage_cleaned cs ps -> Forall numeric_cell ps.
Proof.
  intros Hc F. induction F as [|v v' cs ps Hv _ IH]; [constructor|].
  inversion Hc; subst. constructor; [|now apply IH].
  now apply damage_cleaned_numeric with (v := v).
Qed.

Lemma get_column_drop_Ok (df : DataFrame) (names : list str) (n : str)
    (c : column) :
  get_column (drop_columns df names) n = Ok c -> get_column df n = Ok c.
Proof.
  destruct (mem n names) eqn:M.
  - unfold get_column, drop_columns.
    destruct (find _ (filter _ df)) as [x|] eqn:F; [|discriminate].
    apply find_some in F. destruct F as [Hx E]. apply filter_In in Hx.
    apply str_eqb_eq in E. destruct Hx as [_ Hx]. rewrite <- E, M in Hx.
    discriminate.
  - now rewrite get_column_drop_columns.
Qed.

Lemma clamp_column (c : column) :
  Forall numeric_cell (cells c) ->
  exists cs, Limpieza.apply Limpieza.clamp c = Ok cs.
Proof.
  intros H. apply mapM_total. intros x Hx. rewrite Forall_forall in H.
  destruct (H x Hx) as [f Hf]. unfold Limpieza.clamp. rewrite Hf. eauto.
Qed.

Lemma fuera_de_rango_returns (df : DataFrame) :
  (forall c, get_column df Limpieza.DAMAGE_PROPERTY = Ok c ->
             Forall numeric_cell (cells c)) ->
  (forall c, get_column df Limpieza.DAMAGE_CROPS = Ok c ->
             Forall numeric_cell (cells c)) ->
  exists df', Limpieza.fuera_de_rango df = Ok df'.
Proof.
  intros Hp Hc. unfold Limpieza.fuera_de_rango.
  assert (exists df1,
             (if has_column df Limpieza.DAMAGE_PROPERTY
              then c <- get_column df Limpieza.DAMAGE_PROPERTY ;;
                   cs <- Limpieza.apply Limpieza.clamp c ;;
                   Ok (set_column df Limpieza.DAMAGE_PROPERTY (infer_dtype cs) cs)
              else Ok df) = Ok df1
             /\ get_column df1 Limpieza.DAMAGE_CROPS
                = get_column df Limpieza.DAMAGE_CROPS) as [df1 [-> E]].
  { destruct (has_column df Limpieza.DAMAGE_PROPERTY) eqn:H; [|eauto].
    destruct (has_column_get _ _ H) as [c Hg]. rewrite Hg. cbn [bind].
    destruct (clamp_column c (Hp c Hg)) as [cs ->]. cbn [bind].
    eexists. split; [reflexivity|].
    apply get_set_other, damage_names_differ. }
  cbn [bind].
  destruct (has_column df1 Limpieza.DAMAGE_CROPS) eqn:H; [|cbn; eauto].
  destruct (has_column_get _ _ H) as [c Hg]. rewrite Hg. cbn [bind].
  rewrite E in Hg. destruct (clamp_column c (Hc c Hg)) as [cs ->].
  cbn [bind]. eauto.
Qed.

(** X11. The steps [main] runs on the details, the cleaning, the drop pass
    and the range correction, all return when the two damage columns hold
    what a CSV file gives (texts, numbers, booleans, nulls): the range
    correction, which raises [TypeError] on a text, finds numbers only;
    and the property damages that are left are not negative. *)
Theorem details_steps_return {U : UnicodeData} (detalles_df : DataFrame)
    (p c : column) :
  get_column detalles_df Limpieza.DAMAGE_PROPERTY = Ok p ->
  get_column detalles_df Limpieza.DAMAGE_CROPS = Ok c ->
  Forall (fun v => csv_cell v = true) (cells p) ->
  Forall (fun v => csv_cell v = true) (cells c) ->
  exists d1 d2,
    Limpieza.limpiar_detalles detalles_df = Ok d1
    /\ Limpieza.fuera_de_rango
         (Limpieza.manejar_nulos d1 Limpieza.threshold_default) = Ok d2
    /\ forall cp, get_column d2 Limpieza.DAMAGE_PROPERTY = Ok cp ->
                  Forall nonneg_cell (cells cp).
Proof.
  intros Hp Hc Fp Fc.
  destruct (limpiar_detalles_ok detalles_df p c Hp Hc)
    as [d1 [ps [cs [E [Gp [Gc [Cp Cc]]]]]]].
  destruct (fuera_de_rango_returns
              (Limpieza.manejar_nulos d1 Limpieza.threshold_default))
    as [d2 E2].
  - intros x Hx. apply get_column_drop_Ok in Hx. rewrite Gp in Hx.
    injection Hx as <-. cbn [cells].
    now apply damage_cleaned_column with (cs := cells p).
  - intros x Hx. apply get_column_drop_Ok in Hx. rewrite Gc in Hx.
    injection Hx as <-. cbn [cells].
    now apply damage_cleaned_column with (cs := cells c).
  - exists d1, d2. split; [exact E|]. split; [exact E2|].
    intros cp. now apply fuera_de_rango_property with (df := Limpieza.manejar_nulos d1 Limpieza.threshold_default).
Qed.

Lemma details_steps_return_witness :
  exists d1 d2,
    @Limpieza.limpiar_detalles excerpt damage_texts_example = Ok d1
    /\ Limpieza.fuera_de_rango
         (Limpieza.manejar_nulos d1 Limpieza.threshold_default) = Ok d2
    /\ forall cp, get_column d2 Limpieza.DAMAGE_PROPERTY = Ok cp ->
                  Forall nonneg_cell (cells cp).
Proof.
  apply (@details_steps_return excerpt damage_texts_example
           (Column Limpieza.DAMAGE_PROPERTY Object
              [VStr (lit "10K"); nan; VStr (lit "-5")])
           (Column Limpieza.DAMAGE_CROPS Object
              [VStr (lit "2.5M"); VStr (lit "abc"); nan]));
    try reflexivity; repeat constructor.
Defined.

(** ** The cleaning of the fatalities *)

Lemma columns_set_present (df : DataFrame) (n : str) (t : dtype)
    (cs : list value) :
  has_column df n = true -> columns (set_column df n t cs) = columns df.
Proof. intros H. now rewrite columns_set_column, H. Qed.

Section FatalityFacts.
Context {U : UnicodeData}.
Variable repr_other : value -> str.

Lemma limpiar_fatalidades_unfold (df : DataFrame) (a s : column) :
  get_column df Limpieza.FATALITY_AGE = Ok a ->
  get_column df Limpieza.FATALITY_SEX = Ok s ->
  let df1 := set_column df Limpieza.FATALITY_AGE (col_dtype a)
               (fillna (VInt (-1)) (cells a)) in
  let df2 := set_column df1 Limpieza.FATALITY_SEX
               (if any_null (cells s) then Object else col_dtype s)
               (fillna (VStr Limpieza.Desconocido) (cells s)) in
  columns df2 = columns df
  /\ Limpieza.limpiar_fatalidades repr_other df
     = match get_column df Limpieza.FATALITY_LOCATION with
       | Ok l =>
           Ok (set_column df2 Limpieza.FATALITY_LOCATION Object
                 (map (fun v => VStr (py_lower (py_strip
                                        (Limpieza.py_str repr_other v))))
                      (cells l)))
       | Raise _ => Ok df2
       end.
Proof.
  intros Ha Hs df1 df2.
  assert (columns df1 = columns df) as C1
    by (apply columns_set_present; now apply get_column_has with (c := a)).
  assert (columns df2 = columns df) as C2.
  { unfold df2. rewrite columns_set_present; [exact C1|].
    unfold has_column. rewrite C1. now apply get_column_has with (c := s). }
  split; [exact C2|].
  unfold Limpieza.limpiar_fatalidades. rewrite Ha. cbn [bind].
  rewrite get_set_other by discriminate. rewrite Hs. cbn [bind].
  fold df1. fold df2.
  assert (get_column df2 Limpieza.FATALITY_LOCATION
          = get_column df Limpieza.FATALITY_LOCATION) as G.
  { unfold df2, df1. now rewrite !get_set_other by discriminate. }
  rewrite G. unfold has_column. rewrite C2.
  destruct (mem Limpieza.FATALITY_LOCATION (columns df)) eqn:M.
  - destruct (has_column_get df _ M) as [l ->]. reflexivity.
  - now rewrite (has_column_false_get df _ M).
Qed.
End FatalityFacts.

(** X12. The cleaning of the fatalities raises [KeyError] when the age or
    the sex column is missing; on a frame with both it returns a frame with
    the same labels in the same order, in which every column other than the
    age, the sex and the location is as it was. *)
Theorem limpiar_fatalidades_frame {U : UnicodeData} (repr_other : value -> str)
    (fatalidades_df : DataFrame) :
  (has_column fatalidades_df Limpieza.FATALITY_AGE
   && has_column fatalidades_df Limpieza.FATALITY_SEX = false ->
   Limpieza.limpiar_fatalidades repr_other fatalidades_df = Raise KeyError)
  /\ (has_column fatalidades_df Limpieza.FATALITY_AGE
      && has_column fatalidades_df Limpieza.FATALITY_SEX = true ->
      exists df',
        Limpieza.limpiar_fatalidades repr_other fatalidades_df = Ok df'
        /\ columns df' = columns fatalidades_df
        /\ forall n,
             mem n [Limpieza.FATALITY_AGE; Limpieza.FATALITY_SEX;
                    Limpieza.FATALITY_LOCATION] = false ->
             get_column df' n = get_column fatalidades_df n).
Proof.
  split.
  - intros H. unfold Limpieza.limpiar_fatalidades.
    destruct (has_column fatalidades_df Limpieza.FATALITY_AGE) eqn:Ha.
    + cbn [andb] in H. destruct (has_column_get _ _ Ha) as [a ->].
      cbn [bind]. rewrite get_set_other by discriminate.
      now rewrite (has_column_false_get _ _ H).
    + now rewrite (has_column_false_get _ _ Ha).
  - intros H. apply andb_true_iff in H. destruct H as [Ha Hs].
    destruct (has_column_get _ _ Ha) as [a Ga].
    destruct (has_column_get _ _ Hs) as [s Gs].
    destruct (limpiar_fatalidades_unfold repr_other fatalidades_df a s Ga Gs)
      as [C E].
    rewrite E. clear E.
    assert (forall n,
               mem n [Limpieza.FATALITY_AGE; Limpieza.FATALITY_SEX;
                      Limpieza.FATALITY_LOCATION] = false ->
               n <> Limpieza.FATALITY_AGE /\ n <> Limpieza.FATALITY_SEX
               /\ n <> Limpieza.FATALITY_LOCATION) as Hn.
    { intros n Hm. apply mem_false in Hm. cbn [In] in Hm.
      repeat split; intros ->; tauto. }
    destruct (get_column fatalidades_df Limpieza.FATALITY_LOCATION)
      as [l|e] eqn:Gl.
    + eexists. split; [reflexivity|]. split.
      * rewrite columns_set_present; [exact C|]. unfold has_column.
        rewrite C. now apply get_column_has with (c := l).
      * intros n Hm. destruct (Hn n Hm) as [N1 [N2 N3]].
        now rewrite !get_set_other by (apply not_eq_sym; assumption).
    + eexists. split; [reflexivity|]. split; [exact C|].
      intros n Hm. destruct (Hn n Hm) as [N1 [N2 N3]].
      now rewrite !get_set_other by (apply not_eq_sym; assumption).
Qed.

(** X13. When the fatalities have a location column, the cleaning turns
    every cell of it into a text: a text is trimmed and lowercased, and a
    missing cell (NaN), which [astype(str)] renders as [nan], becomes the
    text [nan].  The column is left without a null, so that no later fill
    pass finds anything to fill in it. *)
Theorem limpiar_fatalidades_location {U : UnicodeData}
    (repr_other : value -> str) (fatalidades_df : DataFrame) (a s l : column) :
  get_column fatalidades_df Limpieza.FATALITY_AGE = Ok a ->
  get_column fatalidades_df Limpieza.FATALITY_SEX = Ok s ->
  get_column fatalidades_df Limpieza.FATALITY_LOCATION = Ok l ->
  exists df' l',
    Limpieza.limpiar_fatalidades repr_other fatalidades_df = Ok df'
    /\ get_column df' Limpieza.FATALITY_LOCATION = Ok l'
    /\ col_dtype l' = Object
    /\ any_null (cells l') = false
    /\ Forall2 (fun x y =>
                  exists t, y = VStr t
                            /\ (x = nan -> t = lit "nan")
                            /\ (forall u, x = VStr u ->
                                          t = py_lower (py_strip u)))
               (cells l) (cells l').
Proof.
  intros Ga Gs Gl.
  destruct (limpiar_fatalidades_unfold repr_other fatalidades_df a s Ga Gs)
    as [_ E].
  rewrite E, Gl. clear E. eexists. eexists. split; [reflexivity|].
  split; [apply get_set_same|]. cbn [col_dtype cells].
  split; [reflexivity|]. split.
  - unfold any_null. induction (cells l) as [|x xs IH]; [reflexivity|exact IH].
  - apply Forall2_map_right. intros x. eexists. split; [reflexivity|].
    split.
    + intros ->. reflexivity.
    + intros u ->. reflexivity.
Qed.

Lemma limpiar_fatalidades_location_witness :
  exists df' l',
    @Limpieza.limpiar_fatalidades excerpt (fun _ => [])
      fatalities_location_example = Ok df'
    /\ get_column df' Limpieza.FATALITY_LOCATION = Ok l'
    /\ col_dtype l' = Object
    /\ any_null (cells l') = false
    /\ Forall2 (fun x y =>
                  exists t, y = VStr t
                            /\ (x = nan -> t = lit "nan")
                            /\ (forall u, x = VStr u ->
                                          t = @py_lower excerpt (py_strip u)))
               [VStr (lit " In Water "); nan] (cells l').
Proof.
  apply (@limpiar_fatalidades_location excerpt (fun _ => [])
           fatalities_location_example
           (Column Limpieza.FATALITY_AGE Float64 [VFloat (Fin 30); nan])
           (Column Limpieza.FATALITY_SEX Object [VStr (lit "M"); VStr (lit "F")])
           (Column Limpieza.FATALITY_LOCATION Object
              [VStr (lit " In Water "); nan])); reflexivity.
Defined.

(** ** Duplicated keys: the flag of the final cleaning and the report *)

Lemma existsb_same_key (a b : value) (l : list value) :
  same_key a b = true ->
  existsb (same_key a) l = existsb (same_key b) l.
Proof.
  intros H. induction l as [|x l IH]; [reflexivity|]. cbn [existsb].
  now rewrite IH, (same_key_trans a b x H).
Qed.

Lemma filter_same_key (a b : value) (l : list value) :
  same_key a b = true -> filter (same_key a) l = filter (same_key b) l.
Proof.
  intros H. apply filter_ext. intros x. now apply same_key_trans.
Qed.

Lemma filter_length_pos {A} (p : A -> bool) (l : list A) :
  existsb p l = true -> 0 < List.length (filter p l).
Proof.
  induction l as [|x l IH]; [discriminate|]. cbn [existsb filter].
  destruct (p x); cbn [orb List.length]; [lia|exact IH].
Qed.

Lemma filter_length_existsb {A} (p : A -> bool) (l : list A) :
  0 < List.length (filter p l) -> existsb p l = true.
Proof.
  induction l as [|x l IH]; [cbn; lia|]. cbn [existsb filter].
  destruct (p x); cbn [orb List.length]; [reflexivity|exact IH].
Qed.

Lemma count_true_map {A} (g : A -> bool) (l : list A) :
  count_true (map g l) = List.length (filter g l).
Proof.
  unfold count_true. induction l as [|x l IH]; [reflexivity|].
  cbn [map filter]. destruct (g x); cbn [List.length]; now rewrite IH.
Qed.

(** A value met before stands on two rows at least. *)
Lemma seen_twice (pre post : list value) (k : value) :
  existsb (same_key k) pre = true ->
  1 < List.length (filter (same_key k) (pre ++ k :: post)).
Proof.
  intros H. apply filter_length_pos in H.
  rewrite filter_app, length_app. cbn [filter].
  rewrite same_key_refl. cbn [List.length]. lia.
Qed.

Lemma duplicated_all_repeated (ks : list value) :
  duplicated_all ks = map (repeated ks) ks.
Proof. reflexivity. Qed.

Lemma repeated_same_key (ks : list value) (a b : value) :
  same_key a b = true -> repeated ks a = repeated ks b.
Proof. intros H. unfold repeated. now rewrite (filter_same_key a b ks H). Qed.

(** Row by row, [duplicated()] implies [duplicated(keep=False)]. *)
Lemma duplicated_first_le_all (L ks : list value) :
  forall pre seen,
    L = pre ++ ks ->
    (forall k, existsb (same_key k) seen = true ->
               existsb (same_key k) pre = true) ->
    count_true (duplicated_first seen ks)
    <= List.length (filter (repeated L) ks).
Proof.
  unfold count_true.
  induction ks as [|x ks IH]; intros pre seen HL Hs; [cbn; lia|].
  cbn [duplicated_first filter].
  assert (List.length (filter (fun b : bool => b)
                         (duplicated_first (x :: seen) ks))
          <= List.length (filter (repeated L) ks)) as Hr.
  { apply (IH (pre ++ [x])); [now rewrite <- app_assoc|].
    intros k. cbn [existsb]. rewrite existsb_app. cbn [existsb].
    intros H. apply orb_true_iff in H. destruct H as [H|H].
    - rewrite H. now rewrite !orb_true_r.
    - now rewrite (Hs k H). }
  destruct (existsb (same_key x) seen) eqn:Dup.
  - assert (repeated L x = true) as ->.
    { unfold repeated. apply Nat.ltb_lt. rewrite HL.
      apply seen_twice. now apply Hs. }
    cbn [List.length]. lia.
  - destruct (repeated L x); cbn [List.length]; lia.
Qed.

(** The first row of a repeated value is counted by [keep=False] only. *)
Lemma duplicated_first_lt_all (L ks : list value) :
  forall pre seen,
    L = pre ++ ks ->
    (forall k, existsb (same_key k) seen = true ->
               existsb (same_key k) pre = true) ->
    (exists k, In k ks /\ existsb (same_key k) seen = false
               /\ repeated L k = true) ->
    count_true (duplicated_first seen ks) + 1
    <= List.length (filter (repeated L) ks).
Proof.
  induction ks as [|x ks IH]; intros pre seen HL Hs [k [Hin [Hk Hm]]];
    [destruct Hin|].
  assert (forall k, existsb (same_key k) (x :: seen) = true ->
                    existsb (same_key k) (pre ++ [x]) = true) as Hs'.
  { intros k'. cbn [existsb]. rewrite existsb_app. cbn [existsb].
    intros H. apply orb_true_iff in H. destruct H as [H|H].
    - rewrite H. now rewrite !orb_true_r.
    - now rewrite (Hs k' H). }
  assert (L = (pre ++ [x]) ++ ks) as HL' by now rewrite <- app_assoc.
  unfold count_true in *. cbn [duplicated_first filter].
  destruct (existsb (same_key x) seen) eqn:Dup.
  - assert (repeated L x = true) as ->.
    { unfold repeated. apply Nat.ltb_lt. rewrite HL.
      apply seen_twice. now apply Hs. }
    assert (same_key k x = false) as Hkx.
    { destruct (same_key k x) eqn:E; [|reflexivity].
      rewrite (existsb_same_key k x seen E) in Hk. congruence. }
    cbn [List.length]. apply le_n_S. rewrite <- Nat.add_1_r.
    apply (IH (pre ++ [x]) (x :: seen) HL' Hs'). exists k.
    destruct Hin as [<-|Hin]; [now rewrite same_key_refl in Hkx|].
    cbn [existsb]. rewrite Hkx, Hk. auto.
  - destruct (repeated L x) eqn:Mx; cbn [List.length].
    + pose proof (duplicated_first_le_all L ks (pre ++ [x]) (x :: seen) HL' Hs')
        as Hle.
      unfold count_true in Hle. lia.
    + assert (same_key k x = false) as Hkx.
      { destruct (same_key k x) eqn:E; [|reflexivity].
        rewrite (repeated_same_key L k x E) in Hm. congruence. }
      apply (IH (pre ++ [x]) (x :: seen) HL' Hs'). exists k.
      destruct Hin as [<-|Hin]; [now rewrite same_key_refl in Hkx|].
      cbn [existsb]. rewrite Hkx, Hk. auto.
Qed.

(** A value that stands on two rows is met a second time. *)
Lemma duplicated_first_some (ks : list value) :
  forall seen,
    (exists k, In k ks
               /\ (existsb (same_key k) seen = true
                   \/ repeated ks k = true)) ->
    0 < count_true (duplicated_first seen ks).
Proof.
  unfold count_true.
  induction ks as [|x ks IH]; intros seen [k [Hin Hk]]; [destruct Hin|].
  cbn [duplicated_first filter].
  destruct (existsb (same_key x) seen) eqn:Dup; [cbn; lia|].
  apply IH.
  assert (repeated (x :: ks) x = true ->
          exists y, In y ks /\ existsb (same_key y) (x :: seen) = true)
    as Hx.
  { unfold repeated. cbn [filter]. rewrite same_key_refl.
    cbn [List.length]. intros H. apply Nat.ltb_lt in H.
    assert (existsb (same_key x) ks = true) as He
      by (apply filter_length_existsb; lia).
    apply existsb_exists in He. destruct He as [y [Hy E]]. exists y.
    split; [exact Hy|]. cbn [existsb]. now rewrite same_key_sym, E. }
  destruct Hin as [<-|Hin].
  - destruct Hk as [Hk|Hk]; [congruence|].
    destruct (Hx Hk) as [y [Hy E]]. exists y. auto.
  - exists k. split; [exact Hin|].
    destruct Hk as [Hk|Hk]; [left; cbn [existsb]; now rewrite Hk, orb_true_r|].
    destruct (same_key k x) eqn:E; [left; cbn [existsb]; now rewrite E|].
    right. unfold repeated in *. cbn [filter] in Hk. now rewrite E in Hk.
Qed.

(** What [duplicated().sum()] and the number of rows that
    [duplicated(keep=False)] selects have to do with each other. *)
Lemma duplicated_counts (ks : list value) :
  count_true (duplicated_first [] ks) <= count_true (duplicated_all ks)
  /\ (0 < count_true (duplicated_all ks) ->
      1 <= count_true (duplicated_first [] ks)
      /\ count_true (duplicated_first [] ks) + 1
         <= count_true (duplicated_all ks)).
Proof.
  rewrite duplicated_all_repeated, count_true_map.
  assert (forall k, existsb (same_key k) [] = true ->
                    existsb (same_key k) [] = true) as Hs by auto.
  split; [now apply (duplicated_first_le_all ks ks [] [])|].
  intros Hn. apply filter_length_existsb in Hn. apply existsb_exists in Hn.
  destruct Hn as [k [Hin Hk]]. split.
  - apply duplicated_first_some. exists k. auto.
  - apply (duplicated_first_lt_all ks ks [] []); [reflexivity|exact Hs|].
    exists k. auto.
Qed.

Lemma select_count_true {A} (mask : list bool) :
  forall cs : list A,
    List.length mask = List.length cs ->
    List.length (select mask cs) = count_true mask.
Proof.
  unfold count_true.
  induction mask as [|m mask IH]; intros cs H; [reflexivity|].
  destruct cs as [|c cs]; [discriminate|]. injection H as H.
  cbn [select filter]. destruct m; cbn [List.length]; now rewrite IH.
Qed.

Lemma count_true_le (bs : list bool) : count_true bs <= List.length bs.
Proof. apply filter_length_le. Qed.

Lemma select_map_filter {A} (p : A -> bool) (l : list A) :
  select (map p l) l = filter p l.
Proof.
  induction l as [|x l IH]; [reflexivity|]. cbn [map select filter].
  now rewrite IH.
Qed.

Lemma get_column_In_frame (df : DataFrame) (n : str) (c : column) :
  get_column df n = Ok c -> In c df /\ col_name c = n.
Proof.
  unfold get_column. destruct (find _ df) as [x|] eqn:E; [|discriminate].
  intros [= <-]. apply find_some in E. destruct E as [H E].
  apply str_eqb_eq in E. auto.
Qed.

(** Inside the group of a key the key takes one value. *)
Lemma nunique_group_key (g : value) (key : list value) :
  Chequeo.nunique (select (map (same_value g) key) key) <= 1.
Proof.
  unfold Chequeo.nunique, Chequeo.unique. rewrite select_map_filter.
  set (X := filter notnull (filter (same_value g) key)).
  assert (forall x, In x X -> notnull x = true /\ same_value g x = true)
    as HX.
  { intros x Hx. unfold X in Hx. apply filter_In in Hx.
    destruct Hx as [Hx Hn]. apply filter_In in Hx. tauto. }
  destruct (notnull g) eqn:Ng.
  - pose proof (dedup_count g X []) as H. cbn [existsb] in H.
    rewrite filter_id in H; [exact H|].
    apply Forall_forall. intros x Hx. apply select_In in Hx.
    rewrite (same_key_notnull g x Ng). now apply HX.
  - destruct X as [|x r]; [cbn; lia|]. exfalso.
    destruct (HX x (or_introl eq_refl)) as [Hn Hs].
    unfold same_value, notnull in *. apply negb_false_iff in Ng.
    rewrite Ng in Hs. now rewrite Hs in Hn.
Qed.

Lemma max_gt_1_small (counts : list nat) :
  Forall (fun n => n <= 1) counts -> Chequeo.max_gt_1 counts = false.
Proof.
  intros H. unfold Chequeo.max_gt_1. destruct counts as [|n r]; [reflexivity|].
  inversion H as [|? ? Hn Hr]; subst. apply Nat.ltb_ge.
  clear H. revert n Hn. induction Hr as [|m r Hm _ IH]; intros n Hn;
    cbn [fold_left]; [exact Hn|].
  apply IH. lia.
Qed.

Lemma key_has_no_differences (key : list value) :
  Chequeo.max_gt_1 (Chequeo.groupby_nunique key key) = false.
Proof.
  apply max_gt_1_small. unfold Chequeo.groupby_nunique.
  apply Forall_forall. intros n Hn. apply in_map_iff in Hn.
  destruct Hn as [g [<- _]]. apply nunique_group_key.
Qed.

Lemma columnas_con_diferencias_returns (dp : DataFrame) (key : list value) :
  forall cols,
    (forall n, In n cols -> In n (columns dp)) ->
    exists r,
      Chequeo.columnas_con_diferencias dp key cols = Ok r
      /\ forall n, In n r ->
           In n cols
           /\ exists c, get_column dp n = Ok c
                        /\ Chequeo.max_gt_1
                             (Chequeo.groupby_nunique key (cells c)) = true.
Proof.
  induction cols as [|col cols IH]; intros H.
  - exists []. split; [reflexivity|]. intros n [].
  - destruct IH as [r [E Hr]]; [intros n Hn; apply H; now right|].
    assert (has_column dp col = true) as Hc
      by (apply has_column_In, H; now left).
    destruct (has_column_get _ _ Hc) as [c Gc].
    cbn [Chequeo.columnas_con_diferencias]. rewrite Gc, E. cbn [bind].
    eexists. split; [reflexivity|]. intros n Hn.
    destruct (Chequeo.max_gt_1 (Chequeo.groupby_nunique key (cells c))) eqn:M.
    + destruct Hn as [<-|Hn].
      * split; [now left|]. exists c. auto.
      * destruct (Hr n Hn) as [H1 H2]. split; [now right|exact H2].
    + destruct (Hr n Hn) as [H1 H2]. split; [now right|exact H2].
Qed.

(** X14. On a frame whose columns have one length, section 3 of the
    report never fails.  It says that the key column is not found exactly
    when the frame lacks [EVENT_ID]; it reports no partial duplicates only
    with a count of 0 duplicates; and when it reports partial duplicates,
    there is at least one duplicate, the rows involved are at least one
    more than the duplicates (two at least), and the columns it lists as
    differing are columns of the frame, never the key itself. *)
Theorem analizar_duplicados_report (df : DataFrame) :
  rectangular df ->
  match Chequeo.analizar_duplicados df with
  | Ok Chequeo.ColumnaNoEncontrada => has_column df EVENT_ID = false
  | Ok (Chequeo.SinDuplicadosParciales duplicates) =>
      has_column df EVENT_ID = true /\ duplicates = 0
  | Ok (Chequeo.DuplicadosParciales duplicates registros cols _) =>
      has_column df EVENT_ID = true
      /\ 1 <= duplicates /\ duplicates + 1 <= registros
      /\ registros <= nrows df
      /\ (forall n, In n cols -> In n (columns df))
      /\ ~ In EVENT_ID cols
  | Raise _ => False
  end.
Proof.
  intros Hrect. unfold Chequeo.analizar_duplicados.
  destruct (has_column df EVENT_ID) eqn:Hk; [|reflexivity].
  destruct (has_column_get _ _ Hk) as [k Gk]. rewrite Gk. cbn [bind].
  cbv zeta. fold (count_true (duplicated_first [] (cells k))).
  set (mask := duplicated_all (cells k)).
  assert (List.length (cells k) = nrows df) as Hlen
    by (apply Hrect; now apply get_column_In_frame with (n := EVENT_ID)).
  assert (nrows (filter_rows mask df) = count_true mask) as Hn.
  { destruct df as [|c0 df]; [discriminate|]. cbn [filter_rows map nrows cells].
    apply select_count_true. unfold mask, duplicated_all.
    rewrite length_map, Hlen. reflexivity. }
  destruct (duplicated_counts (cells k)) as [Hle Hpos]. fold mask in Hle, Hpos.
  unfold empty. rewrite Hn.
  destruct (count_true mask) as [|m] eqn:Hm; cbn [Nat.eqb negb].
  - split; [reflexivity|lia].
  - rewrite (get_column_filter_rows df mask EVENT_ID k Gk). cbn [bind cells].
    destruct (columnas_con_diferencias_returns (filter_rows mask df)
                (select mask (cells k)) (columns (filter_rows mask df)))
      as [r [-> Hr]]; [auto|].
    cbn [bind]. split; [reflexivity|].
    destruct Hpos as [H1 H2]; [lia|].
    split; [exact H1|]. split; [exact H2|]. split.
    + rewrite <- Hm, <- Hlen. unfold mask, duplicated_all.
      rewrite <- (length_map (repeated (cells k)) (cells k)).
      apply count_true_le.
    + split.
      * intros n Hin. apply Hr in Hin. destruct Hin as [Hin _].
        now rewrite columns_filter_rows in Hin.
      * intros Hin. apply Hr in Hin. destruct Hin as [_ [c [Gc M]]].
        rewrite (get_column_filter_rows df mask EVENT_ID k Gk) in Gc.
        injection Gc as <-. cbn [cells] in M.
        now rewrite key_has_no_differences in M.
Qed.

Lemma analizar_duplicados_report_witness :
  match Chequeo.analizar_duplicados duplicates_example with
  | Ok Chequeo.ColumnaNoEncontrada =>
      has_column duplicates_example EVENT_ID = false
  | Ok (Chequeo.SinDuplicadosParciales duplicates) =>
      has_column duplicates_example EVENT_ID = true /\ duplicates = 0
  | Ok (Chequeo.DuplicadosParciales duplicates registros cols _) =>
      has_column duplicates_example EVENT_ID = true
      /\ 1 <= duplicates /\ duplicates + 1 <= registros
      /\ registros <= nrows duplicates_example
      /\ (forall n, In n cols -> In n (columns duplicates_example))
      /\ ~ In EVENT_ID cols
  | Raise _ => False
  end.
Proof.
  apply (analizar_duplicados_report duplicates_example).
  intros c [<-|[<-|[<-|[<-|[]]]]]; reflexivity.
Defined.

Lemma repeated_split (pre post : list value) (x : value) :
  repeated (pre ++ x :: post) x
  = existsb (same_key x) pre || existsb (same_key x) post.
Proof.
  unfold repeated. rewrite filter_app, length_app. cbn [filter].
  rewrite same_key_refl. cbn [List.length].
  destruct (existsb (same_key x) pre) eqn:E1.
  - apply filter_length_pos in E1. cbn [orb]. apply Nat.ltb_lt. lia.
  - destruct (existsb (same_key x) post) eqn:E2; cbn [orb].
    + apply filter_length_pos in E2. apply Nat.ltb_lt. lia.
    + apply Nat.ltb_ge.
      assert (List.length (filter (same_key x) pre) = 0) as ->.
      { destruct (List.length (filter (same_key x) pre)) eqn:L;
          [reflexivity|].
        rewrite filter_length_existsb in E1; [discriminate|lia]. }
      assert (List.length (filter (same_key x) post) = 0) as ->.
      { destruct (List.length (filter (same_key x) post)) eqn:L;
          [reflexivity|].
        rewrite filter_length_existsb in E2; [discriminate|lia]. }
      lia.
Qed.

Lemma repeated_iff_split (l1 l2 : list value) (x : value) :
  repeated (l1 ++ x :: l2) x = true
  <-> exists j, j < List.length (l1 ++ x :: l2) /\ j <> List.length l1
                /\ same_key x (nth j (l1 ++ x :: l2) nan) = true.
Proof.
  rewrite repeated_split, orb_true_iff, !existsb_exists, length_app.
  cbn [List.length]. split.
  - intros [[y [Hy Hsv]]|[y [Hy Hsv]]].
    + destruct (In_nth l1 y nan Hy) as [j [Hj Ej]]. exists j.
      rewrite app_nth1, Ej by exact Hj. repeat split; [lia|lia|exact Hsv].
    + destruct (In_nth l2 y nan Hy) as [j [Hj Ej]].
      exists (List.length l1 + S j). rewrite app_nth2_plus. cbn [nth].
      rewrite Ej. repeat split; [lia|lia|exact Hsv].
  - intros [j [Hj [Hne Hsv]]].
    destruct (Nat.lt_ge_cases j (List.length l1)) as [Hlt|Hge].
    + left. exists (nth j l1 nan). rewrite app_nth1 in Hsv by lia.
      split; [apply nth_In; lia|exact Hsv].
    + right. exists (nth (j - S (List.length l1)) l2 nan).
      replace j with (List.length l1 + S (j - S (List.length l1))) in Hsv
        by lia.
      rewrite app_nth2_plus in Hsv. cbn [nth] in Hsv.
      split; [apply nth_In; lia|exact Hsv].
Qed.

(** A row is flagged by [duplicated(keep=False)] exactly when another row
    holds the same key. *)
Lemma repeated_iff (ks : list value) (i : nat) :
  i < List.length ks ->
  repeated ks (nth i ks nan) = true
  <-> exists j, j < List.length ks /\ j <> i
                /\ same_key (nth i ks nan) (nth j ks nan) = true.
Proof.
  intros Hi. destruct (nth_split ks nan Hi) as [l1 [l2 [E Hl]]].
  remember (nth i ks nan) as x eqn:Hx. clear Hx. subst i ks.
  apply repeated_iff_split.
Qed.

(** X15. On a frame with the key column, the final cleaning adds (or
    overwrites) the flag column [ES_EVENT_ID_DUPLICADO], a boolean per row:
    a row is flagged exactly when another row holds the same key, as
    [duplicated] compares keys: [None], [NaN] and [NaT] are three keys,
    and a row whose null no other row holds is not flagged.  The flagged
    rows are never just one; every other column is as it was. *)
Theorem marcar_duplicados_flag (df : DataFrame) (k : column) (i : nat) :
  get_column df EVENT_ID = Ok k ->
  i < List.length (cells k) ->
  exists bs,
    get_column (LimpiezaFinal.marcar_duplicados_event_id df)
      LimpiezaFinal.ES_EVENT_ID_DUPLICADO
    = Ok (Column LimpiezaFinal.ES_EVENT_ID_DUPLICADO BoolT (map VBool bs))
    /\ List.length bs = List.length (cells k)
    /\ (nth i bs false = true
        <-> exists j, j < List.length (cells k) /\ j <> i
                      /\ same_key (nth i (cells k) nan)
                                    (nth j (cells k) nan) = true)
    /\ count_true bs <> 1
    /\ forall n, n <> LimpiezaFinal.ES_EVENT_ID_DUPLICADO ->
         get_column (LimpiezaFinal.marcar_duplicados_event_id df) n
         = get_column df n.
Proof.
  intros Gk Hi. unfold LimpiezaFinal.marcar_duplicados_event_id. rewrite Gk.
  exists (duplicated_all (cells k)). split; [apply get_set_same|].
  split; [unfold duplicated_all; apply length_map|]. split; [|split].
  - rewrite duplicated_all_repeated.
    rewrite (nth_indep _ false (repeated (cells k) nan))
      by now rewrite length_map.
    rewrite (map_nth (repeated (cells k))). now apply repeated_iff.
  - destruct (duplicated_counts (cells k)) as [_ H]. lia.
  - intros n Hn. apply get_set_other. now apply not_eq_sym.
Qed.

Lemma marcar_duplicados_flag_witness :
  exists bs,
    get_column (LimpiezaFinal.marcar_duplicados_event_id fatalities_E1)
      LimpiezaFinal.ES_EVENT_ID_DUPLICADO
    = Ok (Column LimpiezaFinal.ES_EVENT_ID_DUPLICADO BoolT (map VBool bs))
    /\ List.length bs = List.length [E1; VStr (lit "E9"); E1; E1]
    /\ (nth 1 bs false = true
        <-> exists j, j < List.length [E1; VStr (lit "E9"); E1; E1] /\ j <> 1
                      /\ same_key (nth 1 [E1; VStr (lit "E9"); E1; E1] nan)
                           (nth j [E1; VStr (lit "E9"); E1; E1] nan) = true)
    /\ count_true bs <> 1
    /\ forall n, n <> LimpiezaFinal.ES_EVENT_ID_DUPLICADO ->
         get_column (LimpiezaFinal.marcar_duplicados_event_id fatalities_E1) n
         = get_column fatalities_E1 n.
Proof.
  apply (marcar_duplicados_flag fatalities_E1
           (Column EVENT_ID Object [E1; VStr (lit "E9"); E1; E1]) 1);
    [reflexivity|cbn; lia].
Defined.

(** Two rows without key, one [None] and one [NaN], are not flagged: no
    other row holds the same null. *)
Example marcar_duplicados_null_kinds :
  get_column
    (LimpiezaFinal.marcar_duplicados_event_id
       [Column EVENT_ID Object [VNone; nan]])
    LimpiezaFinal.ES_EVENT_ID_DUPLICADO
  = Ok (Column LimpiezaFinal.ES_EVENT_ID_DUPLICADO BoolT
          [VBool false; VBool false]).
Proof. reflexivity. Qed.

(** ** Damage texts with a suffix *)

Lemma lstrip_keep (a b : str) (c : N) :
  is_space c = false -> exists a', lstrip (a ++ c :: b) = a' ++ c :: b.
Proof.
  intros Hc. induction a as [|x a [a' IH]].
  - exists []. cbn [app lstrip]. now rewrite Hc.
  - cbn [app lstrip]. destruct (is_space x); [now exists a'|].
    now exists (x :: a).
Qed.

Lemma ascii_digit_not_space (c : N) :
  is_ascii_digit c = true -> is_space c = false.
Proof. intros H. code_points. decide_code_point. Qed.

(** Stripping a text that starts with a digit and holds, further on, a
    code point that is no space keeps everything up to that point. *)
Lemma py_strip_keep (d rest : str) (c : N) :
  d <> [] -> Forall (fun x => is_ascii_digit x = true) d ->
  is_space c = false ->
  exists rest', py_strip (d ++ c :: rest) = d ++ c :: rest'.
Proof.
  intros Hne Hd Hc. unfold py_strip, rstrip.
  assert (lstrip (d ++ c :: rest) = d ++ c :: rest) as ->.
  { destruct d as [|x d]; [contradiction|]. cbn [app lstrip].
    now rewrite (ascii_digit_not_space x (Forall_inv Hd)). }
  rewrite rev_app_distr. cbn [rev]. rewrite <- app_assoc. cbn [app].
  destruct (lstrip_keep (rev rest) (rev d) c Hc) as [a' ->].
  exists (rev a'). rewrite rev_app_distr. cbn [rev].
  rewrite rev_involutive, <- app_assoc. reflexivity.
Qed.

Lemma parse_float_text_digits (d : str) :
  d <> [] -> Forall (fun c => is_ascii_digit c = true) d ->
  parse_float_text d = Some (Fin (inject_Z (digits_value d * 1))).
Proof.
  intros Hne Hd. destruct d as [|c d]; [contradiction|]. clear Hne.
  pose proof (Forall_inv Hd) as Hc.
  assert (parse_decimal (c :: d)
          = Some (inject_Z (digits_value (c :: d) * 1))) as Hdec.
  { unfold parse_decimal. rewrite (span_all is_ascii_digit (c :: d) Hd).
    rewrite app_nil_r. reflexivity. }
  unfold parse_float_text.
  assert (split_sign (c :: d) = (false, c :: d)) as ->.
  { simpl. code_points.
    destruct c as [|p]; [lia|].
    do 6 (destruct p as [p|p|]; try reflexivity; try lia). }
  assert (forall w, (w = lit "inf" \/ w = lit "infinity" \/ w = lit "nan") ->
                    str_eqb (map ascii_lower_char (c :: d)) w = false)
    as Hw.
  { intros w Hwd. destruct (str_eqb _ w) eqn:E; [|reflexivity].
    apply str_eqb_eq in E. exfalso.
    assert (ascii_lower_char c = 105%N \/ ascii_lower_char c = 110%N) as Hl.
    { destruct Hwd as [->|[->| ->]]; injection E; intros; auto. }
    unfold ascii_lower_char in Hl. code_points.
    revert Hl. decide_code_point; lia. }
  rewrite !Hw by auto. simpl orb. cbv iota. rewrite Hdec. reflexivity.
Qed.

Section SuffixFacts.
Context {U : UnicodeData}.

Lemma ascii_digit_decimal (c : N) :
  is_ascii_digit c = true -> is_decimal c = true.
Proof.
  intros H. unfold is_decimal, decimal. rewrite H.
  assert (is_ascii c = true) as -> by (code_points; decide_code_point).
  reflexivity.
Qed.

Lemma py_upper_digits (d : str) :
  Forall (fun c => is_ascii_digit c = true) d -> py_upper d = d.
Proof.
  unfold py_upper. induction 1 as [|c d Hc _ IH]; [reflexivity|].
  cbn [flat_map]. rewrite IH. unfold upper_char.
  assert (is_ascii c = true) as -> by (code_points; decide_code_point).
  assert (is_ascii_lower c = false) as -> by (code_points; decide_code_point).
  reflexivity.
Qed.

(** [float] of a run of ASCII digits is the float nearest to the number
    they spell. *)
Lemma py_float_digits (d : str) :
  d <> [] -> Forall (fun c => is_ascii_digit c = true) d ->
  py_float d = Ok (round64 (inject_Z (digits_value d * 1))).
Proof.
  intros Hne Hd. unfold py_float.
  assert (forallb is_ascii d = true) as ->.
  { apply forallb_forall. rewrite Forall_forall in Hd. intros c Hc.
    specialize (Hd c Hc). code_points. decide_code_point. }
  assert (Forall (fun c => is_c_space c = false) d) as Hsp.
  { eapply Forall_impl; [|exact Hd]. intros c Hc.
    code_points. decide_code_point. }
  assert (Forall (fun c => c <> 95%N) d) as Hund.
  { eapply Forall_impl; [|exact Hd]. intros c Hc. code_points. lia. }
  rewrite (span_none is_c_space _ Hsp).
  rewrite (span_none is_c_space (rev d)) by now apply Forall_rev.
  rewrite rev_involutive.
  rewrite (strip_underscores_none 0 d) by (discriminate || exact Hund).
  now rewrite (parse_float_text_digits d Hne Hd).
Qed.

(** The pattern on digits followed by a suffix letter. *)
Lemma re_match_damage_suffix (d rest : str) (c : N) :
  d <> [] -> Forall (fun x => is_ascii_digit x = true) d ->
  c = 75%N \/ c = 77%N \/ c = 66%N ->
  re_match_damage (d ++ c :: rest) = Some (d, Some c).
Proof.
  intros Hne Hd Hc. unfold re_match_damage.
  rewrite (span_app is_decimal d (c :: rest)).
  - destruct d as [|x d]; [contradiction|].
    destruct Hc as [->|[->| ->]]; reflexivity.
  - eapply Forall_impl; [|exact Hd]. intros x. apply ascii_digit_decimal.
  - destruct Hc as [->|[->| ->]]; reflexivity.
Qed.
End SuffixFacts.

Lemma suffix_factor_cases (c : N) (k : Z) :
  suffix_factor c = Some k ->
  (c = 75%N \/ c = 107%N) /\ k = 1000%Z
  \/ (c = 77%N \/ c = 109%N) /\ k = 1000000%Z
  \/ (c = 66%N \/ c = 98%N) /\ k = 1000000000%Z.
Proof.
  unfold suffix_factor.
  destruct (N.eqb_spec c 75); [intros [= <-]; auto|].
  destruct (N.eqb_spec c 107); [intros [= <-]; auto|].
  destruct (N.eqb_spec c 77); [intros [= <-]; auto|].
  destruct (N.eqb_spec c 109); [intros [= <-]; auto|].
  destruct (N.eqb_spec c 66); [intros [= <-]; auto 6|].
  destruct (N.eqb_spec c 98); [intros [= <-]; auto 6|].
  discriminate.
Qed.

Lemma damage_text_suffix {U : UnicodeData} (d rest : str) (c : N) (k : Z) :
  d <> [] -> Forall (fun x => is_ascii_digit x = true) d ->
  suffix_factor c = Some k ->
  exists C rest',
    py_strip (py_upper (d ++ c :: rest)) = d ++ C :: rest'
    /\ (C = 75%N /\ k = 1000%Z \/ C = 77%N /\ k = 1000000%Z
        \/ C = 66%N /\ k = 1000000000%Z).
Proof.
  intros Hne Hd Hk. unfold py_upper. rewrite flat_map_app.
  fold (py_upper d). rewrite (py_upper_digits d Hd). cbn [flat_map].
  destruct (suffix_factor_cases c k Hk)
    as [[[-> | ->] ->]|[[[-> | ->] ->]|[[-> | ->] ->]]].
  - exists 75%N. destruct (py_strip_keep d (flat_map upper_char rest) 75 Hne Hd)
      as [r' E]; [reflexivity|]. exists r'. split; [exact E|auto].
  - exists 75%N. destruct (py_strip_keep d (flat_map upper_char rest) 75 Hne Hd)
      as [r' E]; [reflexivity|]. exists r'. split; [exact E|auto].
  - exists 77%N. destruct (py_strip_keep d (flat_map upper_char rest) 77 Hne Hd)
      as [r' E]; [reflexivity|]. exists r'. split; [exact E|auto].
  - exists 77%N. destruct (py_strip_keep d (flat_map upper_char rest) 77 Hne Hd)
      as [r' E]; [reflexivity|]. exists r'. split; [exact E|auto].
  - exists 66%N. destruct (py_strip_keep d (flat_map upper_char rest) 66 Hne Hd)
      as [r' E]; [reflexivity|]. exists r'. split; [exact E|auto].
  - exists 66%N. destruct (py_strip_keep d (flat_map upper_char rest) 66 Hne Hd)
      as [r' E]; [reflexivity|]. exists r'. split; [exact E|auto].
Qed.

(** X16. A damage text made of ASCII digits, a suffix letter [K], [M] or
    [B] in either case, and anything after it, is read by both parsers as
    the number the digits spell times 1000, 1000000 or 1000000000: the
    text after the suffix is ignored.  The product is taken up to 2^53,
    where the arithmetic of floats is exact. *)
Theorem convertir_damage_suffix {U : UnicodeData} (d rest : str) (c : N)
    (k : Z) :
  d <> [] -> Forall (fun x => is_ascii_digit x = true) d ->
  suffix_factor c = Some k ->
  (digits_value d * k <= 2 ^ 53)%Z ->
  returns_number (Limpieza.convertir_damage (VStr (d ++ c :: rest)))
                 (inject_Z (digits_value d * k))
  /\ returns_number (Preprocesamiento.convertir_damage (VStr (d ++ c :: rest)))
                    (inject_Z (digits_value d * k)).
Proof.
  intros Hne Hd Hk Hb.
  destruct (damage_text_suffix d rest c k Hne Hd Hk) as [C [rest' [E HC]]].
  unfold Limpieza.convertir_damage, Preprocesamiento.convertir_damage.
  rewrite E.
  assert (C = 75%N \/ C = 77%N \/ C = 66%N) as HC' by tauto.
  rewrite (re_match_damage_suffix d rest' C Hne Hd HC').
  rewrite (py_float_digits d Hne Hd).
  pose proof (digits_value_nonneg d) as H0.
  assert (1 <= k)%Z as Hk1 by (destruct HC as [[_ ->]|[[_ ->]|[_ ->]]]; lia).
  destruct (round64_int (inject_Z (digits_value d * 1)) (digits_value d))
    as [q1 [-> Q1]]; [nia|now rewrite Z.mul_1_r|].
  cbn [bind].
  assert (forall k' : Z,
             (digits_value d * k' <= 2 ^ 53)%Z -> (0 <= k')%Z ->
             exists q2, round64 (q1 * inject_Z k')%Q = Fin q2
                        /\ (q2 == inject_Z (digits_value d * k'))%Q) as Hs.
  { intros k' Hb' Hk'. apply round64_int; [nia|]. rewrite Q1.
    unfold Qeq. cbn [Qnum Qden Qmult inject_Z]. lia. }
  destruct HC as [[-> ->]|[[-> ->]|[-> ->]]];
    cbn [float_scale]; destruct (Hs _ Hb) as [q2 [E2 Q2]]; try lia;
    change 1000%Q with (inject_Z 1000);
    change 1000000%Q with (inject_Z 1000000);
    change 1000000000%Q with (inject_Z 1000000000);
    rewrite E2; cbn [returns_number as_float]; auto.
Qed.

Lemma convertir_damage_suffix_witness :
  returns_number
    (@Limpieza.convertir_damage excerpt (VStr (lit "25" ++ 107%N :: lit " aprox")))
    (inject_Z (digits_value (lit "25") * 1000))
  /\ returns_number
       (@Preprocesamiento.convertir_damage excerpt
          (VStr (lit "25" ++ 107%N :: lit " aprox")))
       (inject_Z (digits_value (lit "25") * 1000)).
Proof.
  apply (@convertir_damage_suffix excerpt (lit "25") (lit " aprox") 107 1000);
    [discriminate|repeat constructor|reflexivity|vm_compute; discriminate].
Defined.

(** ** Times of day *)

Section TimeFacts.
Context {U : UnicodeData}.

Lemma hhmm_parsed_all : forallb hhmm_parsed (seq 0 (Z.to_nat 10000)) = true.
Proof. vm_compute. reflexivity. Qed.

Lemma to_datetime_hhmm (t : Z) :
  (0 <= t < 10000)%Z ->
  x <- to_datetime_cell [DH; DM] ErrorsCoerce (zfill 4 (str_of_Z t)) ;;
  Ok (dt_time x)
  = Ok (time_of_hhmm (VInt t)).
Proof.
  intros Ht. pose proof hhmm_parsed_all as H. rewrite forallb_forall in H.
  assert (In (Z.to_nat t) (seq 0 (Z.to_nat 10000))) as Hin
    by (apply in_seq; lia).
  specialize (H (Z.to_nat t) Hin). clear Hin. unfold hhmm_parsed in H.
  rewrite Z2Nat.id in H by lia. cbn [time_of_hhmm].
  destruct (to_datetime_cell [DH; DM] ErrorsCoerce (zfill 4 (str_of_Z t)))
    as [[| |x|z|b|s|y m d h mi|h mi]|e];
    cbn [bind dt_time]; try discriminate.
  - apply negb_true_iff in H. now rewrite H.
  - repeat (apply andb_true_iff in H; destruct H as [H ?]).
    repeat match goal with
           | E : (_ =? _)%Z = true |- _ => apply Z.eqb_eq in E
           end.
    subst.
    repeat match goal with
           | E : (_ <? _)%Z = true |- _ => rewrite E
           end.
    reflexivity.
Qed.
End TimeFacts.

Lemma to_datetime_hhmm_column {U : UnicodeData} (repr_other : value -> str)
    (cs : list value) :
  Forall hhmm_cell cs ->
  exists ts,
    to_datetime [DH; DM] ErrorsCoerce
      (map (fun v => zfill 4 (Limpieza.py_str repr_other v)) cs) = Ok ts
    /\ map dt_time ts = map time_of_hhmm cs.
Proof.
  unfold to_datetime. change (format_ok [DH; DM]) with true. cbv iota.
  induction 1 as [|v cs [t [-> Ht]] _ [ts [E IH]]].
  - exists []. split; reflexivity.
  - pose proof (to_datetime_hhmm t Ht) as Hc. cbn [map mapM Limpieza.py_str].
    destruct (to_datetime_cell [DH; DM] ErrorsCoerce (zfill 4 (str_of_Z t)))
      as [x|e]; [|discriminate].
    cbn [bind] in *. rewrite E. cbn [bind]. exists (x :: ts).
    split; [reflexivity|]. cbn [map]. injection Hc as ->. now rewrite IH.
Qed.

(** X17. When the time column holds integers [HHMM] of at most four
    digits and the date format compiles (the default [%Y%m] does; a format
    that names the day, which the code adds, does not, and then the
    handler skips the time column too), [convertir_tiempo] assigns the
    column [<prefix>_TIME] whatever the date columns are: hours [t / 100]
    below 24 with minutes [t mod 100] below 60 become that time of day, and
    every other integer (2400, 960, 1275, ...) becomes [NaT]. *)
Theorem convertir_tiempo_times {U : UnicodeData} (repr_other : value -> str)
    (strftime : str -> value -> value) (df : DataFrame)
    (year_month_col day_col output_format : option str)
    (time_col prefix : str) (date_format : list directive) (c : column) :
  time_col <> [] ->
  time_col <> prefix ++ lit "_DATE" ->
  get_column df time_col = Ok c ->
  Forall hhmm_cell (cells c) ->
  format_ok (date_format ++ [Dd]) = true ->
  get_column
    (Limpieza.convertir_tiempo repr_other strftime df year_month_col day_col
       (Some time_col) (Some prefix) date_format output_format)
    (prefix ++ lit "_TIME")
  = Ok (Column (prefix ++ lit "_TIME") Object (map time_of_hhmm (cells c))).
Proof.
  intros Hne Hd Hc Hcells Hfmt.
  assert (forall df1,
             get_column df1 time_col = Ok c ->
             (if Limpieza.truthy (Some time_col) then
                if has_column df1 (Limpieza.text_of (Some time_col)) then
                  t <- get_column df1 (Limpieza.text_of (Some time_col)) ;;
                  ts <- to_datetime [DH; DM] ErrorsCoerce
                          (map (fun v => zfill 4 (Limpieza.py_str repr_other v))
                               (cells t)) ;;
                  Ok (set_column df1 (prefix ++ lit "_TIME") Object
                        (map dt_time ts))
                else Ok df1
              else Ok df1)
             = Ok (set_column df1 (prefix ++ lit "_TIME") Object
                     (map time_of_hhmm (cells c)))) as Htime.
  { intros df1 G. destruct time_col as [|t0 tc]; [contradiction|].
    cbn [Limpieza.truthy Limpieza.text_of].
    rewrite (get_column_has _ _ _ G), G. cbn [bind].
    destruct (to_datetime_hhmm_column repr_other (cells c) Hcells)
      as [ts [-> E]].
    cbn [bind]. now rewrite E. }
  unfold Limpieza.convertir_tiempo. cbv zeta.
  destruct (Limpieza.truthy year_month_col && Limpieza.truthy day_col).
  2:{ rewrite (Htime df Hc). apply get_set_same. }
  destruct (has_column df (Limpieza.text_of year_month_col)
            && has_column df (Limpieza.text_of day_col)) eqn:Hh.
  2:{ rewrite (Htime df Hc). apply get_set_same. }
  apply andb_true_iff in Hh. destruct Hh as [Hy Hdy].
  destruct (has_column_get df _ Hy) as [cy ->].
  destruct (has_column_get df _ Hdy) as [cd ->]. cbn [bind].
  match goal with
  | |- context [to_datetime ?ds ErrorsCoerce ?texts] =>
      destruct (to_datetime_coerce_returns ds texts Hfmt) as [ts [-> _]]
  end.
  cbn [bind].
  destruct (Limpieza.truthy output_format).
  - rewrite Htime; [apply get_set_same|].
    now rewrite !get_set_other by (apply not_eq_sym; exact Hd).
  - rewrite Htime; [apply get_set_same|].
    now rewrite !get_set_other by (apply not_eq_sym; exact Hd).
Qed.

Lemma convertir_tiempo_times_witness :
  get_column
    (@Limpieza.convertir_tiempo excerpt (fun _ => []) (fun _ v => v)
       dates_example (Some (lit "BEGIN_YEARMONTH")) (Some (lit "BEGIN_DAY"))
       (Some (lit "BEGIN_TIME")) (Some (lit "BEGIN")) [DY; Dm] None)
    (lit "BEGIN" ++ lit "_TIME")
  = Ok (Column (lit "BEGIN" ++ lit "_TIME") Object
          (map time_of_hhmm [VInt 930; VInt 2500])).
Proof.
  apply (@convertir_tiempo_times excerpt (fun _ => []) (fun _ v => v)
           dates_example (Some (lit "BEGIN_YEARMONTH")) (Some (lit "BEGIN_DAY"))
           None (lit "BEGIN_TIME") (lit "BEGIN") [DY; Dm]
           (Column (lit "BEGIN_TIME") Int64 [VInt 930; VInt 2500]));
    [discriminate|discriminate|reflexivity| |reflexivity].
  repeat constructor; eexists; (split; [reflexivity|lia]).
Defined.

(** With the format [%Y%m%d], to which the code adds [%d], neither column
    is assigned. *)
Example convertir_tiempo_day_twice {U : UnicodeData}
    (repr_other : value -> str) (strftime : str -> value -> value) :
  Limpieza.convertir_tiempo repr_other strftime dates_example
    (Some (lit "BEGIN_YEARMONTH")) (Some (lit "BEGIN_DAY"))
    (Some (lit "BEGIN_TIME")) (Some (lit "BEGIN")) [DY; Dm; Dd] None
  = dates_example.
Proof. reflexivity. Qed.

(** ** Plain column names *)

Lemma Forall_lstrip (P : N -> Prop) (s : str) :
  Forall P s -> Forall P (lstrip s).
Proof.
  induction 1 as [|c s Hc Hs IH]; [constructor|]. cbn [lstrip].
  destruct (is_space c); [exact IH|now constructor].
Qed.

Lemma Forall_py_strip (P : N -> Prop) (s : str) :
  Forall P s -> Forall P (py_strip s).
Proof.
  intros H. unfold py_strip, rstrip.
  apply Forall_rev, Forall_lstrip, Forall_rev, Forall_lstrip, H.
Qed.

Lemma plain_is_ascii (c : N) : is_plain_char c = true -> is_ascii c = true.
Proof.
  unfold is_plain_char. intros H. code_points; subst; decide_code_point.
Qed.

Lemma normalized_char_token (c : N) :
  is_plain_char c = true -> is_token_char (normalized_char c) = true.
Proof.
  unfold is_plain_char, normalized_char, ascii_lower_char. intros H.
  destruct (N.eqb_spec c 32); [reflexivity|].
  code_points; subst; decide_code_point; cbn [andb] in *; lia.
Qed.

Lemma replace_space_lower (t : str) :
  replace_space (map ascii_lower_char t) = map normalized_char t.
Proof.
  unfold replace_space. rewrite map_map. apply map_ext. intros c.
  unfold normalized_char, ascii_lower_char. code_points. decide_code_point.
Qed.

Section PlainNames.
Context {U : UnicodeData}.

Lemma lower_from_ascii (t : str) :
  Forall (fun c => is_ascii c = true) t ->
  forall before, lower_from before t = map ascii_lower_char t.
Proof.
  induction 1 as [|c t Hc _ IH]; intros before; [reflexivity|].
  cbn [lower_from map]. rewrite IH. unfold lower_char. now rewrite Hc.
Qed.

(** X18. On a column name made of ASCII letters, digits, underscores and
    blanks, the normalizer trims the name, turns each capital into its
    small letter and each inner blank into an underscore, and removes
    nothing else. *)
Theorem normalizar_plain_header (col : str) :
  Forall (fun c => is_plain_char c = true) col ->
  Preprocesamiento.normalizar_nombre_columna col
  = map normalized_char (py_strip col).
Proof.
  intros H. apply Forall_py_strip in H. rewrite normalizar_unfold.
  set (t := py_strip col) in *.
  assert (Forall (fun c => is_ascii c = true) t) as Ha
    by (eapply Forall_impl; [|exact H]; apply plain_is_ascii).
  unfold py_lower. rewrite (lower_from_ascii t Ha), replace_space_lower.
  assert (Forall (fun c => is_token_char c = true) (map normalized_char t))
    as Ht.
  { apply Forall_forall. intros x Hx. apply in_map_iff in Hx.
    destruct Hx as [c [<- Hc]]. apply normalized_char_token.
    rewrite Forall_forall in H. now apply H. }
  rewrite (flat_map_decomp_token Ht).
  rewrite (@filter_id _ is_ascii (map normalized_char t)).
  - now apply filter_id.
  - eapply Forall_impl; [|exact Ht]. intros c. apply token_is_ascii.
Qed.
End PlainNames.

Lemma normalizar_plain_header_witness :
  @Preprocesamiento.normalizar_nombre_columna excerpt (lit " Damage PROPERTY ")
  = map normalized_char (py_strip (lit " Damage PROPERTY ")).
Proof.
  apply (@normalizar_plain_header excerpt (lit " Damage PROPERTY ")).
  repeat constructor.
Defined.

(** ** Which labels the preprocessing keeps, and the kind of file *)

Lemma existsb_notnull (cs : list value) :
  negb (forallb isnull cs) = existsb notnull cs.
Proof.
  induction cs as [|v cs IH]; [reflexivity|]. cbn [forallb existsb].
  unfold notnull at 1. rewrite negb_andb. now rewrite IH.
Qed.

Section KeptLabels.
Context {U : UnicodeData}.

Lemma In_dropna_renombrar (df : DataFrame) (x : column) :
  In x (Preprocesamiento.dropna_all (Preprocesamiento.renombrar_columnas df))
  <-> exists c, In c df
                /\ x = Column (Preprocesamiento.normalizar_nombre_columna
                                 (col_name c)) (col_dtype c) (cells c)
                /\ existsb notnull (cells c) = true.
Proof.
  unfold Preprocesamiento.dropna_all, Preprocesamiento.renombrar_columnas.
  rewrite filter_In, in_map_iff. split.
  - intros [[c [<- Hc]] Hn]. exists c. cbn [cells] in Hn.
    rewrite existsb_notnull in Hn. auto.
  - intros [c [Hc [-> Hn]]]. cbn [cells]. rewrite existsb_notnull.
    split; [exists c; auto|exact Hn].
Qed.

(** A label stands in the result exactly when some column of the input
    with that normalized label holds a value, and no such column is over
    the threshold. *)
Lemma has_column_preprocesamiento (df : DataFrame) (umbral_nulos : Q)
    (n : str) :
  has_column (Preprocesamiento.preprocesamiento_columnas df umbral_nulos) n
  = true
  <-> (exists c, In c df
                 /\ Preprocesamiento.normalizar_nombre_columna (col_name c) = n
                 /\ existsb notnull (cells c) = true)
      /\ (forall c, In c df ->
            Preprocesamiento.normalizar_nombre_columna (col_name c) = n ->
            existsb notnull (cells c) = true ->
            gt_threshold (isnull_mean (cells c)) umbral_nulos = false).
Proof.
  unfold Preprocesamiento.preprocesamiento_columnas,
    Preprocesamiento.eliminar_columnas_nulas.
  set (D := Preprocesamiento.dropna_all
              (Preprocesamiento.renombrar_columnas df)).
  rewrite has_column_In. unfold columns at 1, drop_columns.
  rewrite in_map_iff. split.
  - intros [x [Hx Hin]]. apply filter_In in Hin. destruct Hin as [Hin Hk].
    apply negb_true_iff, mem_false in Hk. rewrite Hx in Hk.
    pose proof Hin as Hin'. apply In_dropna_renombrar in Hin'.
    destruct Hin' as [c [Hc [-> Hn]]]. cbn [col_name] in Hx. split.
    + exists c. auto.
    + intros c2 Hc2 Hn2 Hv2.
      destruct (gt_threshold (isnull_mean (cells c2)) umbral_nulos) eqn:G;
        [|reflexivity].
      exfalso. apply Hk. apply columns_over_In.
      exists (Column (Preprocesamiento.normalizar_nombre_columna (col_name c2))
                (col_dtype c2) (cells c2)).
      split; [apply In_dropna_renombrar; exists c2; auto|]. auto.
  - intros [[c [Hc [Hn Hv]]] Hall].
    exists (Column (Preprocesamiento.normalizar_nombre_columna (col_name c))
              (col_dtype c) (cells c)).
    split; [exact Hn|]. apply filter_In. split.
    + apply In_dropna_renombrar. exists c. auto.
    + apply negb_true_iff, mem_false. cbn [col_name]. rewrite Hn.
      intros Hover. apply columns_over_In in Hover.
      destruct Hover as [x [Hx [Hxn G]]]. apply In_dropna_renombrar in Hx.
      destruct Hx as [c2 [Hc2 [-> Hv2]]]. cbn [col_name cells] in *.
      rewrite (Hall c2 Hc2 Hxn Hv2) in G. discriminate.
Qed.
End KeptLabels.

(** X19. The labels the first three steps of [preprocesamiento_general]
    keep: a label stands in the result exactly when some column of the
    input with that normalized label holds a value and no value-holding
    column with that normalized label is over the threshold.  The drop is
    by label, so when two names normalize to one label a column over the
    threshold takes the other one with it. *)
Theorem preprocesamiento_columnas_labels {U : UnicodeData} (df : DataFrame)
    (umbral_nulos : Q) (n : str) :
  In n (columns (Preprocesamiento.preprocesamiento_columnas df umbral_nulos))
  <-> (exists c, In c df
                 /\ Preprocesamiento.normalizar_nombre_columna (col_name c) = n
                 /\ existsb notnull (cells c) = true)
      /\ (forall c, In c df ->
            Preprocesamiento.normalizar_nombre_columna (col_name c) = n ->
            existsb notnull (cells c) = true ->
            gt_threshold (isnull_mean (cells c)) umbral_nulos = false).
Proof.
  rewrite <- has_column_In. apply has_column_preprocesamiento.
Qed.

(** X20. After the first three steps of [preprocesamiento_general] a file
    is taken for a details file, whatever else it holds, exactly when a
    column whose name normalizes to [damage_property] holds a value and no
    such column is over the threshold. *)
Theorem detectar_tipo_archivo_details {U : UnicodeData} (df : DataFrame)
    (umbral_nulos : Q) :
  Preprocesamiento.detectar_tipo_archivo
    (Preprocesamiento.preprocesamiento_columnas df umbral_nulos)
  = lit "details"
  <-> (exists c, In c df
                 /\ Preprocesamiento.normalizar_nombre_columna (col_name c)
                    = lit "damage_property"
                 /\ existsb notnull (cells c) = true)
      /\ (forall c, In c df ->
            Preprocesamiento.normalizar_nombre_columna (col_name c)
            = lit "damage_property" ->
            existsb notnull (cells c) = true ->
            gt_threshold (isnull_mean (cells c)) umbral_nulos = false).
Proof.
  rewrite <- has_column_preprocesamiento.
  unfold Preprocesamiento.detectar_tipo_archivo.
  destruct (has_column _ (lit "damage_property")); [tauto|].
  destruct (has_column _ (lit "fatality_type"));
    [split; discriminate|].
  destruct (has_column _ (lit "begin_lat") && has_column _ (lit "begin_location"));
    split; discriminate.
Qed.

(** ** When [main] of the cleaning script exits *)

Lemma get_column_raises (df : DataFrame) (n : str) (e : exc) :
  get_column df n = Raise e -> e = KeyError.
Proof.
  unfold get_column. destruct (find _ df); [discriminate|]. now intros [= <-].
Qed.

Lemma mapM_raises {A B} (f : A -> result B) (l : list A) (e : exc) :
  mapM f l = Raise e -> exists x, In x l /\ f x = Raise e.
Proof.
  induction l as [|x l IH]; [discriminate|]. cbn [mapM].
  destruct (f x) as [y|e'] eqn:E; cbn [bind].
  - destruct (mapM f l) as [ys|e'']; cbn [bind]; [discriminate|].
    intros [= <-]. destruct IH as [z [Hz Ez]]; [reflexivity|].
    exists z. split; [now right|exact Ez].
  - intros [= <-]. exists x. split; [now left|exact E].
Qed.

Lemma get_key_raises (df : DataFrame) (n : str) (e : exc) :
  get_key df n = Raise e -> e <> SystemExit.
Proof.
  unfold get_key. destruct (filter _ df) as [|x [|y r]];
    [|discriminate|]; now intros [= <-].
Qed.

Lemma join_on_raises (key : str) (left right : DataFrame) (lk rk : column)
    (e : exc) :
  join_on key left right lk rk = Raise e -> e <> SystemExit.
Proof.
  unfold join_on. destruct (join_sides key left right lk) as [lcols rcols].
  destruct (suffixes_refused _ _ _); [now intros [= <-]|discriminate].
Qed.

Lemma merge_left_raises {M : MergeKeys} (left right : DataFrame) (key : str)
    (e : exc) :
  merge_left left right key = Raise e -> e <> SystemExit.
Proof.
  unfold merge_left.
  destruct (get_key right key) as [rk|e1] eqn:E1; cbn [bind];
    [|intros [= <-]; now apply get_key_raises in E1].
  destruct (get_key left key) as [lk|e2] eqn:E2; cbn [bind];
    [|intros [= <-]; now apply get_key_raises in E2].
  destruct (keys_agree lk rk); [apply join_on_raises|].
  destruct (key_mismatch lk rk) as [ks|e3] eqn:E3; cbn [bind];
    [apply join_on_raises|].
  intros [= <-]. apply key_mismatch_ValueError in E3. now subst.
Qed.

Lemma clamp_raises (x : value) (e : exc) :
  Limpieza.clamp x = Raise e -> e = TypeError.
Proof.
  unfold Limpieza.clamp. destruct (as_float x); [discriminate|].
  now intros [= <-].
Qed.

Lemma fuera_de_rango_raises (df : DataFrame) (e : exc) :
  Limpieza.fuera_de_rango df = Raise e -> e = TypeError \/ e = KeyError.
Proof.
  assert (forall (d : DataFrame) (n m : str) (e' : exc),
             (if has_column d n
              then c <- get_column d n ;;
                   cs <- Limpieza.apply Limpieza.clamp c ;;
                   Ok (set_column d m (infer_dtype cs) cs)
              else Ok d) = Raise e' ->
             e' = TypeError \/ e' = KeyError) as Hstep.
  { intros d n m e'. destruct (has_column d n); [|discriminate].
    destruct (get_column d n) as [c|e1] eqn:E1; cbn [bind].
    - destruct (Limpieza.apply Limpieza.clamp c) as [cs|e2] eqn:E2;
        cbn [bind]; [discriminate|].
      intros [= <-]. left. apply mapM_raises in E2.
      destruct E2 as [x [_ Hx]]. now apply clamp_raises in Hx.
    - intros [= <-]. right. now apply get_column_raises in E1. }
  unfold Limpieza.fuera_de_rango.
  match goal with
  | |- bind ?m _ = _ -> _ => destruct m as [d1|e1] eqn:E1
  end; cbn [bind].
  - match goal with
    | |- bind ?m _ = _ -> _ => destruct m as [d2|e2] eqn:E2
    end; cbn [bind]; [discriminate|].
    intros [= <-]. now apply Hstep in E2.
  - intros [= <-]. now apply Hstep in E1.
Qed.

Section MainFacts.
Context {U : UnicodeData} {M : MergeKeys}.
Variable repr_other : value -> str.
Variable strftime : str -> value -> value.

Lemma limpiar_detalles_raises (df : DataFrame) (e : exc) :
  Limpieza.limpiar_detalles df = Raise e -> e = KeyError.
Proof.
  unfold Limpieza.limpiar_detalles.
  destruct (get_column df Limpieza.DAMAGE_PROPERTY) as [p|e1] eqn:E1;
    cbn [bind]; [|intros [= <-]; now apply get_column_raises in E1].
  destruct (convertir_damage_column (cells p)) as [ps [-> _]]. cbn [bind].
  match goal with
  | |- bind ?m _ = _ -> _ => destruct m as [c|e2] eqn:E2
  end; cbn [bind]; [|intros [= <-]; now apply get_column_raises in E2].
  destruct (convertir_damage_column (cells c)) as [cs [-> _]]. cbn [bind].
  discriminate.
Qed.

Lemma limpiar_fatalidades_raises (df : DataFrame) (e : exc) :
  Limpieza.limpiar_fatalidades repr_other df = Raise e -> e = KeyError.
Proof.
  unfold Limpieza.limpiar_fatalidades.
  destruct (get_column df Limpieza.FATALITY_AGE) as [a|e1] eqn:E1;
    cbn [bind]; [|intros [= <-]; now apply get_column_raises in E1].
  match goal with
  | |- bind ?m _ = _ -> _ => destruct m as [s|e2] eqn:E2
  end; cbn [bind]; [|intros [= <-]; now apply get_column_raises in E2].
  match goal with
  | |- (if ?b then _ else _) = _ -> _ => destruct b
  end; [|discriminate].
  match goal with
  | |- bind ?m _ = _ -> _ => destruct m as [l|e3] eqn:E3
  end; cbn [bind]; [discriminate|].
  intros [= <-]. now apply get_column_raises in E3.
Qed.

(** X21. [main] of the cleaning script ends with [SystemExit] exactly
    when one of the three frames is empty.  The check comes before any
    cleaning, so an empty file hides a missing column; and no later step,
    whatever it does with the cells, ends the run that way. *)
Theorem main_exit (detalles_df fatalidades_df lugares_df : DataFrame) :
  Limpieza.main repr_other strftime detalles_df fatalidades_df lugares_df
  = Raise SystemExit
  <-> empty detalles_df || empty fatalidades_df || empty lugares_df = true.
Proof.
  unfold Limpieza.main.
  destruct (empty detalles_df || empty fatalidades_df || empty lugares_df);
    [tauto|].
  split; [|discriminate]. intros H. exfalso. revert H.
  destruct (Limpieza.limpiar_detalles detalles_df) as [d1|e1] eqn:E1;
    cbn [bind];
    [|intros [= ->]; now apply limpiar_detalles_raises in E1].
  destruct (Limpieza.limpiar_fatalidades repr_other fatalidades_df)
    as [f1|e2] eqn:E2; cbn [bind];
    [|intros [= ->]; now apply limpiar_fatalidades_raises in E2].
  cbv zeta.
  destruct (Limpieza.fuera_de_rango _) as [d2|e3] eqn:E3; cbn [bind];
    [|intros [= ->]; apply fuera_de_rango_raises in E3;
      destruct E3; discriminate].
  unfold Limpieza.master.
  destruct (merge_left d2 f1 EVENT_ID) as [m1|e4] eqn:E4; cbn [bind];
    [|intros [= ->]; exact (merge_left_raises _ _ _ _ E4 eq_refl)].
  destruct (merge_left m1 _ EVENT_ID) as [m2|e5] eqn:E5; cbn [bind];
    [discriminate|].
  intros [= ->]. exact (merge_left_raises _ _ _ _ E5 eq_refl).
Qed.
End MainFacts.
